(** * Esp32Sing: the streaming pipeline of main/boards/common/esp32_sing.cc

    A shallow embedding of the bounded chunk queue, the producer
    (DownloadAudioStreamFromUrl), the consumer (PlayAudioStream), the
    container detection (RIFF/WAVE scan, ID3 skip) and the session
    controller (StartStreaming, StartStreamingById, StopStreaming,
    Download), with the properties of the design document proved or
    refuted against it.

    Conventions.  [size_t] is the 32-bit unsigned type of the ESP32; its
    wrap-around is written out with [size_t_wrap].  Bytes are [byte]; a
    buffer is a [list byte].  The object's fields live in one record,
    [Esp32Sing]; a member function is a computation in the monad [M],
    which threads the object and tells apart a normal return, a thread
    parked in [buffer_cv_.wait], a second [lock()] of [buffer_mutex_] by
    its owner, a memory access outside an allocation, and a loop that
    has used up the steps it was given.  A thread handle is its
    [joinable()] bit; joining runs what the joined task has left to do.
    Calls into the board, the application, the transport and the display
    are recorded in the field [trace_], oldest first. *)

From Stdlib Require Import ZArith List Bool Lia String Ascii DecimalString.
From coqutil Require Import Byte Word.LittleEndianList.
Import ListNotations.
Local Open Scope Z_scope.

(** ** Machine integers *)

Definition size_t_wrap (z : Z) : Z := z mod 2 ^ 32.
Definition uint32_wrap (z : Z) : Z := z mod 2 ^ 32.

(** [(int16_t) z]: the value modulo 2^16, read as two's complement. *)
Definition int16_cast (z : Z) : Z := (z + 32768) mod 65536 - 32768.

(** ** Constants of esp32_sing.h *)

Definition MAX_BUFFER_SIZE : Z := 128 * 1024.
Definition MIN_BUFFER_SIZE : Z := 16 * 1024.

(** The producer's read size, [chunk_size] in DownloadAudioStreamFromUrl. *)
Definition READ_CHUNK_SIZE : Z := 4096.

(** The size of [mp3_input_buffer] in PlayAudioStream. *)
Definition MP3_INPUT_SIZE : Z := 8192.

(** ** Data *)

(** [struct SingAudioChunk]: [data] holds the bytes of the allocation,
    [size] the number of them in use. *)
Record SingAudioChunk := mkChunk { data : list byte; size : Z }.

Record AudioStreamPacket := mkPacket {
  sample_rate : Z;
  frame_duration : Z;
  timestamp : Z;
  payload : list byte
}.

Inductive DisplayMode := DISPLAY_MODE_SPECTRUM | DISPLAY_MODE_STATIC.

(** The device states PlayAudioStream tells apart; every other value of
    the application's enumeration is [kDeviceStateOther]. *)
Inductive DeviceState :=
| kDeviceStateIdle
| kDeviceStateListening
| kDeviceStateSpeaking
| kDeviceStateOther.

Inductive thread_id := ThDownload | ThPlay | ThLyric.

Inductive event :=
| EvNotifyAll
| EvNotifyOne
| EvDelay (ms : Z)
| EvFree
| EvSetHeader (name value : string)
| EvAuthHeaders
| EvHttpOpen (method url : string)
| EvHttpWrite (body : string)
| EvHttpClose
| EvResetSampleRate
| EvPlaySound
| EvStartListening
| EvToggleChatState
| EvEnableOutput
| EvSetMusicInfo (text : string)
| EvDisplayStart
| EvAddAudioData (p : AudioStreamPacket)
| EvThreadStart (t : thread_id)
| EvThreadJoin (t : thread_id)
| EvThreadDetach (t : thread_id).

(** ** The object *)

Record Esp32Sing := mkSing {
  base_host_ : string;
  open_timeout_ms_ : Z;
  current_stream_url_ : string;
  current_query_value_ : string;
  current_song_id_ : string;
  current_song_name_ : string;
  last_downloaded_data_ : string;
  song_name_displayed_ : bool;
  is_lyric_running_ : bool;
  display_mode_ : DisplayMode;
  is_playing_ : bool;
  is_downloading_ : bool;
  play_thread_ : bool;
  download_thread_ : bool;
  lyric_thread_ : bool;
  audio_buffer_ : list SingAudioChunk;
  buffer_mutex_ : bool;
  buffer_size_ : Z;
  mp3_decoder_initialized_ : bool;
  wav_mode_ : bool;
  wav_header_parsed_ : bool;
  wav_channels_ : Z;
  wav_sample_rate_ : Z;
  wav_bits_per_sample_ : Z;
  trace_ : list event
}.

Definition set_current_stream_url_ (v : string) (s : Esp32Sing) : Esp32Sing :=
  {| base_host_ := base_host_ s; open_timeout_ms_ := open_timeout_ms_ s;
     current_stream_url_ := v;
     current_query_value_ := current_query_value_ s;
     current_song_id_ := current_song_id_ s;
     current_song_name_ := current_song_name_ s;
     last_downloaded_data_ := last_downloaded_data_ s;
     song_name_displayed_ := song_name_displayed_ s;
     is_lyric_running_ := is_lyric_running_ s;
     display_mode_ := display_mode_ s; is_playing_ := is_playing_ s;
     is_downloading_ := is_downloading_ s; play_thread_ := play_thread_ s;
     download_thread_ := download_thread_ s;
     lyric_thread_ := lyric_thread_ s; audio_buffer_ := audio_buffer_ s;
     buffer_mutex_ := buffer_mutex_ s; buffer_size_ := buffer_size_ s;
     mp3_decoder_initialized_ := mp3_decoder_initialized_ s;
     wav_mode_ := wav_mode_ s; wav_header_parsed_ := wav_header_parsed_ s;
     wav_channels_ := wav_channels_ s;
     wav_sample_rate_ := wav_sample_rate_ s;
     wav_bits_per_sample_ := wav_bits_per_sample_ s; trace_ := trace_ s |}.

Definition set_current_query_value_ (v : string) (s : Esp32Sing) : Esp32Sing :=
  {| base_host_ := base_host_ s; open_timeout_ms_ := open_timeout_ms_ s;
     current_stream_url_ := current_stream_url_ s; current_query_value_ := v;
     current_song_id_ := current_song_id_ s;
     current_song_name_ := current_song_name_ s;
     last_downloaded_data_ := last_downloaded_data_ s;
     song_name_displayed_ := song_name_displayed_ s;
     is_lyric_running_ := is_lyric_running_ s;
     display_mode_ := display_mode_ s; is_playing_ := is_playing_ s;
     is_downloading_ := is_downloading_ s; play_thread_ := play_thread_ s;
     download_thread_ := download_thread_ s;
     lyric_thread_ := lyric_thread_ s; audio_buffer_ := audio_buffer_ s;
     buffer_mutex_ := buffer_mutex_ s; buffer_size_ := buffer_size_ s;
     mp3_decoder_initialized_ := mp3_decoder_initialized_ s;
     wav_mode_ := wav_mode_ s; wav_header_parsed_ := wav_header_parsed_ s;
     wav_channels_ := wav_channels_ s;
     wav_sample_rate_ := wav_sample_rate_ s;
     wav_bits_per_sample_ := wav_bits_per_sample_ s; trace_ := trace_ s |}.

Definition set_current_song_id_ (v : string) (s : Esp32Sing) : Esp32Sing :=
  {| base_host_ := base_host_ s; open_timeout_ms_ := open_timeout_ms_ s;
     current_stream_url_ := current_stream_url_ s;
     current_query_value_ := current_query_value_ s; current_song_id_ := v;
     current_song_name_ := current_song_name_ s;
     last_downloaded_data_ := last_downloaded_data_ s;
     song_name_displayed_ := song_name_displayed_ s;
     is_lyric_running_ := is_lyric_running_ s;
     display_mode_ := display_mode_ s; is_playing_ := is_playing_ s;
     is_downloading_ := is_downloading_ s; play_thread_ := play_thread_ s;
     download_thread_ := download_thread_ s;
     lyric_thread_ := lyric_thread_ s; audio_buffer_ := audio_buffer_ s;
     buffer_mutex_ := buffer_mutex_ s; buffer_size_ := buffer_size_ s;
     mp3_decoder_initialized_ := mp3_decoder_initialized_ s;
     wav_mode_ := wav_mode_ s; wav_header_parsed_ := wav_header_parsed_ s;
     wav_channels_ := wav_channels_ s;
     wav_sample_rate_ := wav_sample_rate_ s;
     wav_bits_per_sample_ := wav_bits_per_sample_ s; trace_ := trace_ s |}.

Definition set_current_song_name_ (v : string) (s : Esp32Sing) : Esp32Sing :=
  {| base_host_ := base_host_ s; open_timeout_ms_ := open_timeout_ms_ s;
     current_stream_url_ := current_stream_url_ s;
     current_query_value_ := current_query_value_ s;
     current_song_id_ := current_song_id_ s; current_song_name_ := v;
     last_downloaded_data_ := last_downloaded_data_ s;
     song_name_displayed_ := song_name_displayed_ s;
     is_lyric_running_ := is_lyric_running_ s;
     display_mode_ := display_mode_ s; is_playing_ := is_playing_ s;
     is_downloading_ := is_downloading_ s; play_thread_ := play_thread_ s;
     download_thread_ := download_thread_ s;
     lyric_thread_ := lyric_thread_ s; audio_buffer_ := audio_buffer_ s;
     buffer_mutex_ := buffer_mutex_ s; buffer_size_ := buffer_size_ s;
     mp3_decoder_initialized_ := mp3_decoder_initialized_ s;
     wav_mode_ := wav_mode_ s; wav_header_parsed_ := wav_header_parsed_ s;
     wav_channels_ := wav_channels_ s;
     wav_sample_rate_ := wav_sample_rate_ s;
     wav_bits_per_sample_ := wav_bits_per_sample_ s; trace_ := trace_ s |}.

Definition set_last_downloaded_data_ (v : string) (s : Esp32Sing) : Esp32Sing :=
  {| base_host_ := base_host_ s; open_timeout_ms_ := open_timeout_ms_ s;
     current_stream_url_ := current_stream_url_ s;
     current_query_value_ := current_query_value_ s;
     current_song_id_ := current_song_id_ s;
     current_song_name_ := current_song_name_ s; last_downloaded_data_ := v;
     song_name_displayed_ := song_name_displayed_ s;
     is_lyric_running_ := is_lyric_running_ s;
     display_mode_ := display_mode_ s; is_playing_ := is_playing_ s;
     is_downloading_ := is_downloading_ s; play_thread_ := play_thread_ s;
     download_thread_ := download_thread_ s;
     lyric_thread_ := lyric_thread_ s; audio_buffer_ := audio_buffer_ s;
     buffer_mutex_ := buffer_mutex_ s; buffer_size_ := buffer_size_ s;
     mp3_decoder_initialized_ := mp3_decoder_initialized_ s;
     wav_mode_ := wav_mode_ s; wav_header_parsed_ := wav_header_parsed_ s;
     wav_channels_ := wav_channels_ s;
     wav_sample_rate_ := wav_sample_rate_ s;
     wav_bits_per_sample_ := wav_bits_per_sample_ s; trace_ := trace_ s |}.

Definition set_song_name_displayed_ (v : bool) (s : Esp32Sing) : Esp32Sing :=
  {| base_host_ := base_host_ s; open_timeout_ms_ := open_timeout_ms_ s;
     current_stream_url_ := current_stream_url_ s;
     current_query_value_ := current_query_value_ s;
     current_song_id_ := current_song_id_ s;
     current_song_name_ := current_song_name_ s;
     last_downloaded_data_ := last_downloaded_data_ s;
     song_name_displayed_ := v; is_lyric_running_ := is_lyric_running_ s;
     display_mode_ := display_mode_ s; is_playing_ := is_playing_ s;
     is_downloading_ := is_downloading_ s; play_thread_ := play_thread_ s;
     download_thread_ := download_thread_ s;
     lyric_thread_ := lyric_thread_ s; audio_buffer_ := audio_buffer_ s;
     buffer_mutex_ := buffer_mutex_ s; buffer_size_ := buffer_size_ s;
     mp3_decoder_initialized_ := mp3_decoder_initialized_ s;
     wav_mode_ := wav_mode_ s; wav_header_parsed_ := wav_header_parsed_ s;
     wav_channels_ := wav_channels_ s;
     wav_sample_rate_ := wav_sample_rate_ s;
     wav_bits_per_sample_ := wav_bits_per_sample_ s; trace_ := trace_ s |}.

Definition set_is_lyric_running_ (v : bool) (s : Esp32Sing) : Esp32Sing :=
  {| base_host_ := base_host_ s; open_timeout_ms_ := open_timeout_ms_ s;
     current_stream_url_ := current_stream_url_ s;
     current_query_value_ := current_query_value_ s;
     current_song_id_ := current_song_id_ s;
     current_song_name_ := current_song_name_ s;
     last_downloaded_data_ := last_downloaded_data_ s;
     song_name_displayed_ := song_name_displayed_ s; is_lyric_running_ := v;
     display_mode_ := display_mode_ s; is_playing_ := is_playing_ s;
     is_downloading_ := is_downloading_ s; play_thread_ := play_thread_ s;
     download_thread_ := download_thread_ s;
     lyric_thread_ := lyric_thread_ s; audio_buffer_ := audio_buffer_ s;
     buffer_mutex_ := buffer_mutex_ s; buffer_size_ := buffer_size_ s;
     mp3_decoder_initialized_ := mp3_decoder_initialized_ s;
     wav_mode_ := wav_mode_ s; wav_header_parsed_ := wav_header_parsed_ s;
     wav_channels_ := wav_channels_ s;
     wav_sample_rate_ := wav_sample_rate_ s;
     wav_bits_per_sample_ := wav_bits_per_sample_ s; trace_ := trace_ s |}.

Definition set_is_playing_ (v : bool) (s : Esp32Sing) : Esp32Sing :=
  {| base_host_ := base_host_ s; open_timeout_ms_ := open_timeout_ms_ s;
     current_stream_url_ := current_stream_url_ s;
     current_query_value_ := current_query_value_ s;
     current_song_id_ := current_song_id_ s;
     current_song_name_ := current_song_name_ s;
     last_downloaded_data_ := last_downloaded_data_ s;
     song_name_displayed_ := song_name_displayed_ s;
     is_lyric_running_ := is_lyric_running_ s;
     display_mode_ := display_mode_ s; is_playing_ := v;
     is_downloading_ := is_downloading_ s; play_thread_ := play_thread_ s;
     download_thread_ := download_thread_ s;
     lyric_thread_ := lyric_thread_ s; audio_buffer_ := audio_buffer_ s;
     buffer_mutex_ := buffer_mutex_ s; buffer_size_ := buffer_size_ s;
     mp3_decoder_initialized_ := mp3_decoder_initialized_ s;
     wav_mode_ := wav_mode_ s; wav_header_parsed_ := wav_header_parsed_ s;
     wav_channels_ := wav_channels_ s;
     wav_sample_rate_ := wav_sample_rate_ s;
     wav_bits_per_sample_ := wav_bits_per_sample_ s; trace_ := trace_ s |}.

Definition set_is_downloading_ (v : bool) (s : Esp32Sing) : Esp32Sing :=
  {| base_host_ := base_host_ s; open_timeout_ms_ := open_timeout_ms_ s;
     current_stream_url_ := current_stream_url_ s;
     current_query_value_ := current_query_value_ s;
     current_song_id_ := current_song_id_ s;
     current_song_name_ := current_song_name_ s;
     last_downloaded_data_ := last_downloaded_data_ s;
     song_name_displayed_ := song_name_displayed_ s;
     is_lyric_running_ := is_lyric_running_ s;
     display_mode_ := display_mode_ s; is_playing_ := is_playing_ s;
     is_downloading_ := v; play_thread_ := play_thread_ s;
     download_thread_ := download_thread_ s;
     lyric_thread_ := lyric_thread_ s; audio_buffer_ := audio_buffer_ s;
     buffer_mutex_ := buffer_mutex_ s; buffer_size_ := buffer_size_ s;
     mp3_decoder_initialized_ := mp3_decoder_initialized_ s;
     wav_mode_ := wav_mode_ s; wav_header_parsed_ := wav_header_parsed_ s;
     wav_channels_ := wav_channels_ s;
     wav_sample_rate_ := wav_sample_rate_ s;
     wav_bits_per_sample_ := wav_bits_per_sample_ s; trace_ := trace_ s |}.

Definition set_play_thread_ (v : bool) (s : Esp32Sing) : Esp32Sing :=
  {| base_host_ := base_host_ s; open_timeout_ms_ := open_timeout_ms_ s;
     current_stream_url_ := current_stream_url_ s;
     current_query_value_ := current_query_value_ s;
     current_song_id_ := current_song_id_ s;
     current_song_name_ := current_song_name_ s;
     last_downloaded_data_ := last_downloaded_data_ s;
     song_name_displayed_ := song_name_displayed_ s;
     is_lyric_running_ := is_lyric_running_ s;
     display_mode_ := display_mode_ s; is_playing_ := is_playing_ s;
     is_downloading_ := is_downloading_ s; play_thread_ := v;
     download_thread_ := download_thread_ s;
     lyric_thread_ := lyric_thread_ s; audio_buffer_ := audio_buffer_ s;
     buffer_mutex_ := buffer_mutex_ s; buffer_size_ := buffer_size_ s;
     mp3_decoder_initialized_ := mp3_decoder_initialized_ s;
     wav_mode_ := wav_mode_ s; wav_header_parsed_ := wav_header_parsed_ s;
     wav_channels_ := wav_channels_ s;
     wav_sample_rate_ := wav_sample_rate_ s;
     wav_bits_per_sample_ := wav_bits_per_sample_ s; trace_ := trace_ s |}.

Definition set_download_thread_ (v : bool) (s : Esp32Sing) : Esp32Sing :=
  {| base_host_ := base_host_ s; open_timeout_ms_ := open_timeout_ms_ s;
     current_stream_url_ := current_stream_url_ s;
     current_query_value_ := current_query_value_ s;
     current_song_id_ := current_song_id_ s;
     current_song_name_ := current_song_name_ s;
     last_downloaded_data_ := last_downloaded_data_ s;
     song_name_displayed_ := song_name_displayed_ s;
     is_lyric_running_ := is_lyric_running_ s;
     display_mode_ := display_mode_ s; is_playing_ := is_playing_ s;
     is_downloading_ := is_downloading_ s; play_thread_ := play_thread_ s;
     download_thread_ := v; lyric_thread_ := lyric_thread_ s;
     audio_buffer_ := audio_buffer_ s; buffer_mutex_ := buffer_mutex_ s;
     buffer_size_ := buffer_size_ s;
     mp3_decoder_initialized_ := mp3_decoder_initialized_ s;
     wav_mode_ := wav_mode_ s; wav_header_parsed_ := wav_header_parsed_ s;
     wav_channels_ := wav_channels_ s;
     wav_sample_rate_ := wav_sample_rate_ s;
     wav_bits_per_sample_ := wav_bits_per_sample_ s; trace_ := trace_ s |}.

Definition set_lyric_thread_ (v : bool) (s : Esp32Sing) : Esp32Sing :=
  {| base_host_ := base_host_ s; open_timeout_ms_ := open_timeout_ms_ s;
     current_stream_url_ := current_stream_url_ s;
     current_query_value_ := current_query_value_ s;
     current_song_id_ := current_song_id_ s;
     current_song_name_ := current_song_name_ s;
     last_downloaded_data_ := last_downloaded_data_ s;
     song_name_displayed_ := song_name_displayed_ s;
     is_lyric_running_ := is_lyric_running_ s;
     display_mode_ := display_mode_ s; is_playing_ := is_playing_ s;
     is_downloading_ := is_downloading_ s; play_thread_ := play_thread_ s;
     download_thread_ := download_thread_ s; lyric_thread_ := v;
     audio_buffer_ := audio_buffer_ s; buffer_mutex_ := buffer_mutex_ s;
     buffer_size_ := buffer_size_ s;
     mp3_decoder_initialized_ := mp3_decoder_initialized_ s;
     wav_mode_ := wav_mode_ s; wav_header_parsed_ := wav_header_parsed_ s;
     wav_channels_ := wav_channels_ s;
     wav_sample_rate_ := wav_sample_rate_ s;
     wav_bits_per_sample_ := wav_bits_per_sample_ s; trace_ := trace_ s |}.

Definition set_audio_buffer_ (v : list SingAudioChunk) (s : Esp32Sing) : Esp32Sing :=
  {| base_host_ := base_host_ s; open_timeout_ms_ := open_timeout_ms_ s;
     current_stream_url_ := current_stream_url_ s;
     current_query_value_ := current_query_value_ s;
     current_song_id_ := current_song_id_ s;
     current_song_name_ := current_song_name_ s;
     last_downloaded_data_ := last_downloaded_data_ s;
     song_name_displayed_ := song_name_displayed_ s;
     is_lyric_running_ := is_lyric_running_ s;
     display_mode_ := display_mode_ s; is_playing_ := is_playing_ s;
     is_downloading_ := is_downloading_ s; play_thread_ := play_thread_ s;
     download_thread_ := download_thread_ s;
     lyric_thread_ := lyric_thread_ s; audio_buffer_ := v;
     buffer_mutex_ := buffer_mutex_ s; buffer_size_ := buffer_size_ s;
     mp3_decoder_initialized_ := mp3_decoder_initialized_ s;
     wav_mode_ := wav_mode_ s; wav_header_parsed_ := wav_header_parsed_ s;
     wav_channels_ := wav_channels_ s;
     wav_sample_rate_ := wav_sample_rate_ s;
     wav_bits_per_sample_ := wav_bits_per_sample_ s; trace_ := trace_ s |}.

Definition set_buffer_mutex_ (v : bool) (s : Esp32Sing) : Esp32Sing :=
  {| base_host_ := base_host_ s; open_timeout_ms_ := open_timeout_ms_ s;
     current_stream_url_ := current_stream_url_ s;
     current_query_value_ := current_query_value_ s;
     current_song_id_ := current_song_id_ s;
     current_song_name_ := current_song_name_ s;
     last_downloaded_data_ := last_downloaded_data_ s;
     song_name_displayed_ := song_name_displayed_ s;
     is_lyric_running_ := is_lyric_running_ s;
     display_mode_ := display_mode_ s; is_playing_ := is_playing_ s;
     is_downloading_ := is_downloading_ s; play_thread_ := play_thread_ s;
     download_thread_ := download_thread_ s;
     lyric_thread_ := lyric_thread_ s; audio_buffer_ := audio_buffer_ s;
     buffer_mutex_ := v; buffer_size_ := buffer_size_ s;
     mp3_decoder_initialized_ := mp3_decoder_initialized_ s;
     wav_mode_ := wav_mode_ s; wav_header_parsed_ := wav_header_parsed_ s;
     wav_channels_ := wav_channels_ s;
     wav_sample_rate_ := wav_sample_rate_ s;
     wav_bits_per_sample_ := wav_bits_per_sample_ s; trace_ := trace_ s |}.

Definition set_buffer_size_ (v : Z) (s : Esp32Sing) : Esp32Sing :=
  {| base_host_ := base_host_ s; open_timeout_ms_ := open_timeout_ms_ s;
     current_stream_url_ := current_stream_url_ s;
     current_query_value_ := current_query_value_ s;
     current_song_id_ := current_song_id_ s;
     current_song_name_ := current_song_name_ s;
     last_downloaded_data_ := last_downloaded_data_ s;
     song_name_displayed_ := song_name_displayed_ s;
     is_lyric_running_ := is_lyric_running_ s;
     display_mode_ := display_mode_ s; is_playing_ := is_playing_ s;
     is_downloading_ := is_downloading_ s; play_thread_ := play_thread_ s;
     download_thread_ := download_thread_ s;
     lyric_thread_ := lyric_thread_ s; audio_buffer_ := audio_buffer_ s;
     buffer_mutex_ := buffer_mutex_ s; buffer_size_ := v;
     mp3_decoder_initialized_ := mp3_decoder_initialized_ s;
     wav_mode_ := wav_mode_ s; wav_header_parsed_ := wav_header_parsed_ s;
     wav_channels_ := wav_channels_ s;
     wav_sample_rate_ := wav_sample_rate_ s;
     wav_bits_per_sample_ := wav_bits_per_sample_ s; trace_ := trace_ s |}.

Definition set_mp3_decoder_initialized_ (v : bool) (s : Esp32Sing) : Esp32Sing :=
  {| base_host_ := base_host_ s; open_timeout_ms_ := open_timeout_ms_ s;
     current_stream_url_ := current_stream_url_ s;
     current_query_value_ := current_query_value_ s;
     current_song_id_ := current_song_id_ s;
     current_song_name_ := current_song_name_ s;
     last_downloaded_data_ := last_downloaded_data_ s;
     song_name_displayed_ := song_name_displayed_ s;
     is_lyric_running_ := is_lyric_running_ s;
     display_mode_ := display_mode_ s; is_playing_ := is_playing_ s;
     is_downloading_ := is_downloading_ s; play_thread_ := play_thread_ s;
     download_thread_ := download_thread_ s;
     lyric_thread_ := lyric_thread_ s; audio_buffer_ := audio_buffer_ s;
     buffer_mutex_ := buffer_mutex_ s; buffer_size_ := buffer_size_ s;
     mp3_decoder_initialized_ := v; wav_mode_ := wav_mode_ s;
     wav_header_parsed_ := wav_header_parsed_ s;
     wav_channels_ := wav_channels_ s;
     wav_sample_rate_ := wav_sample_rate_ s;
     wav_bits_per_sample_ := wav_bits_per_sample_ s; trace_ := trace_ s |}.

Definition set_wav_mode_ (v : bool) (s : Esp32Sing) : Esp32Sing :=
  {| base_host_ := base_host_ s; open_timeout_ms_ := open_timeout_ms_ s;
     current_stream_url_ := current_stream_url_ s;
     current_query_value_ := current_query_value_ s;
     current_song_id_ := current_song_id_ s;
     current_song_name_ := current_song_name_ s;
     last_downloaded_data_ := last_downloaded_data_ s;
     song_name_displayed_ := song_name_displayed_ s;
     is_lyric_running_ := is_lyric_running_ s;
     display_mode_ := display_mode_ s; is_playing_ := is_playing_ s;
     is_downloading_ := is_downloading_ s; play_thread_ := play_thread_ s;
     download_thread_ := download_thread_ s;
     lyric_thread_ := lyric_thread_ s; audio_buffer_ := audio_buffer_ s;
     buffer_mutex_ := buffer_mutex_ s; buffer_size_ := buffer_size_ s;
     mp3_decoder_initialized_ := mp3_decoder_initialized_ s; wav_mode_ := v;
     wav_header_parsed_ := wav_header_parsed_ s;
     wav_channels_ := wav_channels_ s;
     wav_sample_rate_ := wav_sample_rate_ s;
     wav_bits_per_sample_ := wav_bits_per_sample_ s; trace_ := trace_ s |}.

Definition set_wav_header_parsed_ (v : bool) (s : Esp32Sing) : Esp32Sing :=
  {| base_host_ := base_host_ s; open_timeout_ms_ := open_timeout_ms_ s;
     current_stream_url_ := current_stream_url_ s;
     current_query_value_ := current_query_value_ s;
     current_song_id_ := current_song_id_ s;
     current_song_name_ := current_song_name_ s;
     last_downloaded_data_ := last_downloaded_data_ s;
     song_name_displayed_ := song_name_displayed_ s;
     is_lyric_running_ := is_lyric_running_ s;
     display_mode_ := display_mode_ s; is_playing_ := is_playing_ s;
     is_downloading_ := is_downloading_ s; play_thread_ := play_thread_ s;
     download_thread_ := download_thread_ s;
     lyric_thread_ := lyric_thread_ s; audio_buffer_ := audio_buffer_ s;
     buffer_mutex_ := buffer_mutex_ s; buffer_size_ := buffer_size_ s;
     mp3_decoder_initialized_ := mp3_decoder_initialized_ s;
     wav_mode_ := wav_mode_ s; wav_header_parsed_ := v;
     wav_channels_ := wav_channels_ s;
     wav_sample_rate_ := wav_sample_rate_ s;
     wav_bits_per_sample_ := wav_bits_per_sample_ s; trace_ := trace_ s |}.

Definition set_wav_channels_ (v : Z) (s : Esp32Sing) : Esp32Sing :=
  {| base_host_ := base_host_ s; open_timeout_ms_ := open_timeout_ms_ s;
     current_stream_url_ := current_stream_url_ s;
     current_query_value_ := current_query_value_ s;
     current_song_id_ := current_song_id_ s;
     current_song_name_ := current_song_name_ s;
     last_downloaded_data_ := last_downloaded_data_ s;
     song_name_displayed_ := song_name_displayed_ s;
     is_lyric_running_ := is_lyric_running_ s;
     display_mode_ := display_mode_ s; is_playing_ := is_playing_ s;
     is_downloading_ := is_downloading_ s; play_thread_ := play_thread_ s;
     download_thread_ := download_thread_ s;
     lyric_thread_ := lyric_thread_ s; audio_buffer_ := audio_buffer_ s;
     buffer_mutex_ := buffer_mutex_ s; buffer_size_ := buffer_size_ s;
     mp3_decoder_initialized_ := mp3_decoder_initialized_ s;
     wav_mode_ := wav_mode_ s; wav_header_parsed_ := wav_header_parsed_ s;
     wav_channels_ := v; wav_sample_rate_ := wav_sample_rate_ s;
     wav_bits_per_sample_ := wav_bits_per_sample_ s; trace_ := trace_ s |}.

Definition set_wav_sample_rate_ (v : Z) (s : Esp32Sing) : Esp32Sing :=
  {| base_host_ := base_host_ s; open_timeout_ms_ := open_timeout_ms_ s;
     current_stream_url_ := current_stream_url_ s;
     current_query_value_ := current_query_value_ s;
     current_song_id_ := current_song_id_ s;
     current_song_name_ := current_song_name_ s;
     last_downloaded_data_ := last_downloaded_data_ s;
     song_name_displayed_ := song_name_displayed_ s;
     is_lyric_running_ := is_lyric_running_ s;
     display_mode_ := display_mode_ s; is_playing_ := is_playing_ s;
     is_downloading_ := is_downloading_ s; play_thread_ := play_thread_ s;
     download_thread_ := download_thread_ s;
     lyric_thread_ := lyric_thread_ s; audio_buffer_ := audio_buffer_ s;
     buffer_mutex_ := buffer_mutex_ s; buffer_size_ := buffer_size_ s;
     mp3_decoder_initialized_ := mp3_decoder_initialized_ s;
     wav_mode_ := wav_mode_ s; wav_header_parsed_ := wav_header_parsed_ s;
     wav_channels_ := wav_channels_ s; wav_sample_rate_ := v;
     wav_bits_per_sample_ := wav_bits_per_sample_ s; trace_ := trace_ s |}.

Definition set_wav_bits_per_sample_ (v : Z) (s : Esp32Sing) : Esp32Sing :=
  {| base_host_ := base_host_ s; open_timeout_ms_ := open_timeout_ms_ s;
     current_stream_url_ := current_stream_url_ s;
     current_query_value_ := current_query_value_ s;
     current_song_id_ := current_song_id_ s;
     current_song_name_ := current_song_name_ s;
     last_downloaded_data_ := last_downloaded_data_ s;
     song_name_displayed_ := song_name_displayed_ s;
     is_lyric_running_ := is_lyric_running_ s;
     display_mode_ := display_mode_ s; is_playing_ := is_playing_ s;
     is_downloading_ := is_downloading_ s; play_thread_ := play_thread_ s;
     download_thread_ := download_thread_ s;
     lyric_thread_ := lyric_thread_ s; audio_buffer_ := audio_buffer_ s;
     buffer_mutex_ := buffer_mutex_ s; buffer_size_ := buffer_size_ s;
     mp3_decoder_initialized_ := mp3_decoder_initialized_ s;
     wav_mode_ := wav_mode_ s; wav_header_parsed_ := wav_header_parsed_ s;
     wav_channels_ := wav_channels_ s;
     wav_sample_rate_ := wav_sample_rate_ s; wav_bits_per_sample_ := v;
     trace_ := trace_ s |}.

Definition set_trace_ (v : list event) (s : Esp32Sing) : Esp32Sing :=
  {| base_host_ := base_host_ s; open_timeout_ms_ := open_timeout_ms_ s;
     current_stream_url_ := current_stream_url_ s;
     current_query_value_ := current_query_value_ s;
     current_song_id_ := current_song_id_ s;
     current_song_name_ := current_song_name_ s;
     last_downloaded_data_ := last_downloaded_data_ s;
     song_name_displayed_ := song_name_displayed_ s;
     is_lyric_running_ := is_lyric_running_ s;
     display_mode_ := display_mode_ s; is_playing_ := is_playing_ s;
     is_downloading_ := is_downloading_ s; play_thread_ := play_thread_ s;
     download_thread_ := download_thread_ s;
     lyric_thread_ := lyric_thread_ s; audio_buffer_ := audio_buffer_ s;
     buffer_mutex_ := buffer_mutex_ s; buffer_size_ := buffer_size_ s;
     mp3_decoder_initialized_ := mp3_decoder_initialized_ s;
     wav_mode_ := wav_mode_ s; wav_header_parsed_ := wav_header_parsed_ s;
     wav_channels_ := wav_channels_ s;
     wav_sample_rate_ := wav_sample_rate_ s;
     wav_bits_per_sample_ := wav_bits_per_sample_ s; trace_ := v |}.

(** The object as the constructor leaves it (the field initialisers of
    esp32_sing.h and the constructor's list), with no host override in
    the settings and the decoder created. *)
Definition Esp32Sing_new : Esp32Sing := {|
  base_host_ := "http://8.134.249.85:18080";
  open_timeout_ms_ := 10000;
  current_stream_url_ := EmptyString;
  current_query_value_ := EmptyString;
  current_song_id_ := EmptyString;
  current_song_name_ := EmptyString;
  last_downloaded_data_ := EmptyString;
  song_name_displayed_ := false;
  is_lyric_running_ := false;
  display_mode_ := DISPLAY_MODE_SPECTRUM;
  is_playing_ := false;
  is_downloading_ := false;
  play_thread_ := false;
  download_thread_ := false;
  lyric_thread_ := false;
  audio_buffer_ := [];
  buffer_mutex_ := false;
  buffer_size_ := 0;
  mp3_decoder_initialized_ := true;
  wav_mode_ := false;
  wav_header_parsed_ := false;
  wav_channels_ := 1;
  wav_sample_rate_ := 16000;
  wav_bits_per_sample_ := 16;
  trace_ := []
|}.

(** ** The monad of member functions *)

(** How a call ends for the thread that makes it: it returns [a];
    it is parked in [buffer_cv_.wait] on a predicate that is false; it
    calls [lock()] on a [buffer_mutex_] that is held, which for the
    owner of a std::mutex is a wait without end; it reads or writes
    outside an allocation; or a loop of the model has run out of the
    steps it was given.  Each carries the object as it is then. *)
Inductive outcome (A : Type) : Type :=
| Done (a : A) (s : Esp32Sing)
| Blocked (s : Esp32Sing)
| Deadlock (s : Esp32Sing)
| Fault (s : Esp32Sing)
| OutOfFuel (s : Esp32Sing).
Arguments Done {A} a s.
Arguments Blocked {A} s.
Arguments Deadlock {A} s.
Arguments Fault {A} s.
Arguments OutOfFuel {A} s.

Definition M (A : Type) : Type := Esp32Sing -> outcome A.

Definition ret {A} (a : A) : M A := fun s => Done a s.

Definition bind {A B} (m : M A) (k : A -> M B) : M B :=
  fun s =>
    match m s with
    | Done a s' => k a s'
    | Blocked s' => Blocked s'
    | Deadlock s' => Deadlock s'
    | Fault s' => Fault s'
    | OutOfFuel s' => OutOfFuel s'
    end.

Declare Scope sing_scope.
Delimit Scope sing_scope with sing.
Notation "x <- m ;; k" := (bind m (fun x => k))
  (at level 61, m at next level, right associativity) : sing_scope.
Notation "m ;; k" := (bind m (fun _ => k))
  (at level 61, right associativity) : sing_scope.
Local Open Scope sing_scope.

Definition gets {A} (f : Esp32Sing -> A) : M A := fun s => Done (f s) s.
Definition modify (f : Esp32Sing -> Esp32Sing) : M unit := fun s => Done tt (f s).
Definition emit (e : event) : M unit := modify (fun s => set_trace_ (trace_ s ++ [e]) s).
Definition fault {A} : M A := fun s => Fault s.
Definition out_of_fuel {A} : M A := fun s => OutOfFuel s.

(** The state an outcome carries. *)
Definition state_of {A} (o : outcome A) : Esp32Sing :=
  match o with
  | Done _ s | Blocked s | Deadlock s | Fault s | OutOfFuel s => s
  end.

(** *** buffer_mutex_ and buffer_cv_ *)

(** [buffer_mutex_.lock()]: std::mutex is not recursive. *)
Definition lock : M unit :=
  fun s => if buffer_mutex_ s then Deadlock s else Done tt (set_buffer_mutex_ true s).

Definition unlock : M unit := modify (set_buffer_mutex_ false).

(** A block [{ std::lock_guard<std::mutex> lock(buffer_mutex_); body }]. *)
Definition lock_guard {A} (body : M A) : M A :=
  lock ;; r <- body ;; unlock ;; ret r.

(** [buffer_cv_.wait(lock, pred)] with the mutex held: returns at once
    when [pred] holds, else the thread parks and the mutex is released. *)
Definition cv_wait (pred : Esp32Sing -> bool) : M unit :=
  fun s => if pred s then Done tt s else Blocked (set_buffer_mutex_ false s).

Definition notify_all : M unit := emit EvNotifyAll.
Definition notify_one : M unit := emit EvNotifyOne.
Definition vTaskDelay (ms : Z) : M unit := emit (EvDelay ms).
Definition heap_caps_free : M unit := emit EvFree.

(** ** The bounded chunk queue *)

Definition queue_empty (s : Esp32Sing) : bool :=
  match audio_buffer_ s with [] => true | _ :: _ => false end.

(** The loop of ClearAudioBuffer: free the front chunk and pop it until
    the queue is empty. *)
Fixpoint clear_loop (q : list SingAudioChunk) : M unit :=
  match q with
  | [] => ret tt
  | _ :: rest =>
      heap_caps_free ;; modify (set_audio_buffer_ rest) ;; clear_loop rest
  end.

Definition ClearAudioBuffer : M unit :=
  lock_guard (
    q <- gets audio_buffer_ ;;
    clear_loop q ;;
    modify (set_buffer_size_ 0)).

Inductive push_result := PushDone | PushDropped.

Definition push_ready (s : Esp32Sing) : bool :=
  (buffer_size_ s <? MAX_BUFFER_SIZE) || negb (is_downloading_ s).

(** The critical section of DownloadAudioStreamFromUrl that hands a chunk
    to the queue; [PushDropped] is the branch that frees it and leaves
    the read loop. *)
Definition push_chunk (chunk_data : list byte) (bytes_read : Z) : M push_result :=
  lock ;;
  cv_wait push_ready ;;
  downloading <- gets is_downloading_ ;;
  if downloading then
    modify (fun s => set_audio_buffer_ (audio_buffer_ s ++ [mkChunk chunk_data bytes_read]) s) ;;
    modify (fun s => set_buffer_size_ (size_t_wrap (buffer_size_ s + bytes_read)) s) ;;
    notify_one ;;
    unlock ;;
    ret PushDone
  else
    heap_caps_free ;;
    unlock ;;
    ret PushDropped.

Inductive pop_result :=
| PopFinished
| PopRetry
| PopChunk (c : SingAudioChunk).

Definition pop_ready (s : Esp32Sing) : bool :=
  negb (queue_empty s) || negb (is_downloading_ s).

(** [chunk = front(); pop(); buffer_size_ -= chunk.size; notify_one()]. *)
Definition take_front : M pop_result :=
  q <- gets audio_buffer_ ;;
  match q with
  | [] => fault
  | c :: rest =>
      modify (set_audio_buffer_ rest) ;;
      modify (fun s => set_buffer_size_ (size_t_wrap (buffer_size_ s - size c)) s) ;;
      notify_one ;;
      unlock ;;
      ret (PopChunk c)
  end.

(** What follows the wait inside the pop: [if (empty) continue;] and the
    removal of the front chunk. *)
Definition pop_after_wait : M pop_result :=
  empty <- gets queue_empty ;;
  if empty then unlock ;; ret PopRetry else take_front.

(** The critical section of PlayAudioStream that takes a chunk. *)
Definition pop_chunk : M pop_result :=
  lock ;;
  empty <- gets queue_empty ;;
  if empty then
    downloading <- gets is_downloading_ ;;
    if negb downloading then unlock ;; ret PopFinished
    else cv_wait pop_ready ;; pop_after_wait
  else take_front.

(** The consumer parked in the pop's wait, woken: it takes the mutex
    again and tests the predicate. *)
Definition pop_resume : M pop_result :=
  lock ;; cv_wait pop_ready ;; pop_after_wait.

Definition priming_ready (s : Esp32Sing) : bool :=
  (MIN_BUFFER_SIZE <=? buffer_size_ s)
  || (negb (is_downloading_ s) && negb (queue_empty s)).

(** The wait at the head of PlayAudioStream. *)
Definition priming_wait : M unit :=
  lock_guard (cv_wait priming_ready).

(** ** Reading bytes *)

Fixpoint bytes_eqb (a b : list byte) : bool :=
  match a, b with
  | [], [] => true
  | x :: a', y :: b' => Byte.eqb x y && bytes_eqb a' b'
  | _, _ => false
  end.

Definition byte_at (d : list byte) (i : Z) : byte :=
  nth (Z.to_nat i) d Byte.x00.

(** The [len] bytes of [d] from offset [off]. *)
Definition bytes_from (d : list byte) (off len : Z) : list byte :=
  firstn (Z.to_nat len) (skipn (Z.to_nat off) d).

(** [memcmp(d + off, lit, strlen(lit)) == 0]. *)
Definition memcmp_is (d : list byte) (off : Z) (lit : string) : bool :=
  bytes_eqb (bytes_from d off (Z.of_nat (String.length lit)))
            (list_byte_of_string lit).

(** [*(uint16_t* )(d + off)] and [*(uint32_t* )(d + off)], little endian. *)
Definition read_u16 (d : list byte) (off : Z) : Z := le_combine (bytes_from d off 2).
Definition read_u32 (d : list byte) (off : Z) : Z := le_combine (bytes_from d off 4).

(** [((int16_t* )d)[i]]. *)
Definition read_i16 (d : list byte) (i : Z) : Z := int16_cast (read_u16 d (2 * i)).

(** [(int) z] for a 32-bit unsigned [z]. *)
Definition int_cast (z : Z) : Z := (z + 2 ^ 31) mod 2 ^ 32 - 2 ^ 31.

(** [memcpy(buf + off, src, length src)] inside [buf]. *)
Definition mem_write (buf : list byte) (off : Z) (src : list byte) : list byte :=
  firstn (Z.to_nat off) buf ++ src ++ skipn (Z.to_nat off + List.length src) buf.

(** ** The metadata tag *)

Definition synchsafe (b6 b7 b8 b9 : Z) : Z :=
  Z.lor (Z.lor (Z.lor (Z.shiftl (Z.land b6 127) 21)
                      (Z.shiftl (Z.land b7 127) 14))
               (Z.shiftl (Z.land b8 127) 7))
        (Z.land b9 127).

Definition SkipId3Tag (data : list byte) (size : Z) : Z :=
  if size <? 10 then 0
  else if negb (memcmp_is data 0 "ID3") then 0
  else
    let b i := byte.unsigned (byte_at data i) in
    let tag_size := size_t_wrap (synchsafe (b 6) (b 7) (b 8) (b 9)) in
    size_t_wrap (10 + tag_size).

(** ** The WAV container *)

(** One turn of the sub-chunk loop at [pos], on the consumer's copy of the
    chunk; the result is the next [pos], the chunk and [id3_processed].
    The loop test has let [pos + 8] wrap, so a [pos] within 8 of 2^32
    reads in front of the allocation. *)
Definition wav_scan_step (pos : Z) (chunk : SingAudioChunk) (id3_processed : bool)
  : M (Z * SingAudioChunk * bool) :=
  if 2 ^ 32 <=? pos + 8 then fault
  else
    let chunk_size := read_u32 (data chunk) (pos + 4) in
    (if memcmp_is (data chunk) pos "fmt " then
       if size_t_wrap (pos + 8 + 16) <=? size chunk then
         modify (set_wav_channels_ (read_u16 (data chunk) (pos + 10))) ;;
         modify (set_wav_sample_rate_ (int_cast (read_u32 (data chunk) (pos + 12)))) ;;
         modify (set_wav_bits_per_sample_ (read_u16 (data chunk) (pos + 22)))
       else ret tt
     else ret tt) ;;
    r <- (if memcmp_is (data chunk) pos "data" then
            let data_offset := pos + 8 in
            let remain := if data_offset <? size chunk
                          then size chunk - data_offset else 0 in
            modify (set_wav_header_parsed_ true) ;;
            if 0 <? remain then
              ret (mkChunk (bytes_from (data chunk) data_offset remain
                              ++ skipn (Z.to_nat remain) (data chunk)) remain,
                   true)
            else
              ret (mkChunk (data chunk) 0, true)
          else ret (chunk, id3_processed)) ;;
    ret (size_t_wrap (pos + uint32_wrap (8 + chunk_size)), fst r, snd r).

(** [while (pos + 8 <= chunk.size)]. *)
Fixpoint wav_scan (fuel : nat) (pos : Z) (chunk : SingAudioChunk) (id3_processed : bool)
  : M (SingAudioChunk * bool) :=
  if size_t_wrap (pos + 8) <=? size chunk then
    match fuel with
    | O => out_of_fuel
    | S fuel' =>
        r <- wav_scan_step pos chunk id3_processed ;;
        let '(pos', chunk', id3') := r in
        wav_scan fuel' pos' chunk' id3'
    end
  else ret (chunk, id3_processed).

Definition wav_signature (chunk : SingAudioChunk) : bool :=
  (44 <=? size chunk)
  && memcmp_is (data chunk) 0 "RIFF"
  && memcmp_is (data chunk) 8 "WAVE".

(** The format detection on a popped chunk, gated by [wav_header_parsed_]. *)
Definition detect_wav (fuel : nat) (chunk : SingAudioChunk) (id3_processed : bool)
  : M (SingAudioChunk * bool) :=
  parsed <- gets wav_header_parsed_ ;;
  if negb parsed then
    if wav_signature chunk then
      modify (set_wav_mode_ true) ;;
      wav_scan fuel 12 chunk id3_processed
    else ret (chunk, id3_processed)
  else ret (chunk, id3_processed).

(** ** The consumer: PlayAudioStream *)

(** The locals of PlayAudioStream.  [read_ptr] is an offset into
    [mp3_input_buffer], [None] for [nullptr].  [id3_skips] is not a
    variable of the program: it lists the values SkipId3Tag has returned
    to this invocation, oldest first.  The counters that are only
    logged ([total_played], [current_play_time_ms_],
    [total_frames_decoded_]) are left out, as are the log lines. *)
Record PlayLocals := mkLocals {
  mp3_input_buffer : list byte;
  read_ptr : option Z;
  bytes_left : Z;
  id3_processed : bool;
  id3_skips : list Z
}.

Definition PlayLocals_new (heap : list byte) : PlayLocals :=
  mkLocals heap None 0 false [].

Record MP3FrameInfo := mkFrameInfo { samprate : Z; nChans : Z; outputSamps : Z }.

(** What the decoder library answers in one turn of the loop. *)
Record Mp3Step := mkMp3Step {
  init_ok : bool;
  sync_offset : Z;
  decode_result : Z;
  decode_consumed : Z;
  pcm_buffer : list Z;
  frame_info : MP3FrameInfo
}.

(** What the surroundings answer in one turn of the loop. *)
Record PlayEnv := mkPlayEnv {
  device_state : DeviceState;
  has_display : bool;
  mp3 : Mp3Step
}.

Inductive loop_ctl := LoopContinue | LoopBreak.

Definition checked_read (buf : list byte) (off len : Z) : M (list byte) :=
  if (0 <=? off) && (0 <=? len) && (off + len <=? Z.of_nat (List.length buf))
  then ret (bytes_from buf off len) else fault.

Definition checked_write (buf : list byte) (off : Z) (src : list byte) : M (list byte) :=
  if (0 <=? off) && (off + Z.of_nat (List.length src) <=? Z.of_nat (List.length buf))
  then ret (mem_write buf off src) else fault.

(** The block [if (!id3_processed && !wav_mode_ && bytes_left >= 10)]
    on the window [buf], which starts at offset 0 and holds [bytes_left]
    bytes: the locals it leaves. *)
Definition skip_tag (buf : list byte) (bytes_left : Z) (id3_processed wav_mode : bool)
    (skips : list Z) : PlayLocals :=
  if negb id3_processed && negb wav_mode && (10 <=? bytes_left) then
    let skip := SkipId3Tag buf (size_t_wrap bytes_left) in
    if 0 <? skip
    then mkLocals buf (Some skip) (int_cast (bytes_left - int_cast skip)) true
                  (skips ++ [skip])
    else mkLocals buf (Some 0) bytes_left true (skips ++ [skip])
  else mkLocals buf (Some 0) bytes_left id3_processed skips.

(** The block [if (chunk.data && chunk.size > 0) { ... }]: format
    detection, compaction of the window, copy of the chunk, the attempt
    at the metadata tag, release of the chunk. *)
Definition feed_chunk (fuel : nat) (chunk : SingAudioChunk) (l : PlayLocals) : M PlayLocals :=
  if 0 <? size chunk then
    r <- detect_wav fuel chunk (id3_processed l) ;;
    let '(chunk, id3) := r in
    buf <- (if (0 <? bytes_left l) && negb (match read_ptr l with Some 0 => true | _ => false end)
            then match read_ptr l with
                 | Some p =>
                     src <- checked_read (mp3_input_buffer l) p (bytes_left l) ;;
                     checked_write (mp3_input_buffer l) 0 src
                 | None => fault
                 end
            else ret (mp3_input_buffer l)) ;;
    let space := size_t_wrap (MP3_INPUT_SIZE - bytes_left l) in
    let copy_size := Z.min (size chunk) space in
    src <- checked_read (data chunk) 0 copy_size ;;
    buf <- checked_write buf (bytes_left l) src ;;
    let bytes_left' := int_cast (bytes_left l + int_cast copy_size) in
    wav <- gets wav_mode_ ;;
    heap_caps_free ;;
    ret (skip_tag buf bytes_left' id3 wav (id3_skips l))
  else ret l.

(** [(int16_t)((left + right) / 2)]: the division of C truncates. *)
Definition downmix_pair (left right : Z) : Z :=
  int16_cast (Z.quot (left + right) 2).

(** The vector [mono] of the WAV branch, from the PCM at [read_ptr]. *)
Definition wav_mono (channels : Z) (pcm16 : list byte) (bytes_left : Z) : list Z :=
  let sample_count := Z.quot bytes_left 2 in
  if channels =? 2 then
    let mono_samples := Z.quot sample_count 2 in
    map (fun i => downmix_pair (read_i16 pcm16 (Z.of_nat i * 2))
                               (read_i16 pcm16 (Z.of_nat i * 2 + 1)))
        (seq 0 (Z.to_nat mono_samples))
  else
    map (fun i => read_i16 pcm16 (Z.of_nat i)) (seq 0 (Z.to_nat sample_count)).

(** The bytes of a vector of 16-bit samples, as memcpy lays them out. *)
Definition pcm_bytes (samples : list Z) : list byte :=
  flat_map (le_split 2) samples.

(** The samples a payload holds. *)
Definition packet_samples (p : AudioStreamPacket) : list Z :=
  map (fun i => read_i16 (payload p) (Z.of_nat i))
      (seq 0 (List.length (payload p) / 2)).

(** The branch [if (wav_mode_) { ... continue; }]. *)
Definition play_wav (l : PlayLocals) : M PlayLocals :=
  if 0 <? bytes_left l then
    match read_ptr l with
    | None => fault
    | Some p =>
        window <- checked_read (mp3_input_buffer l) p (bytes_left l) ;;
        channels <- gets wav_channels_ ;;
        rate <- gets wav_sample_rate_ ;;
        let mono := wav_mono channels window (bytes_left l) in
        emit (EvAddAudioData (mkPacket rate 60 0 (pcm_bytes mono))) ;;
        ret (mkLocals (mp3_input_buffer l) (read_ptr l) 0
                      (id3_processed l) (id3_skips l))
    end
  else vTaskDelay 1 ;; ret l.

(** The vector an MP3 frame is sent as: stereo is averaged pairwise. *)
Definition mp3_mono (info : MP3FrameInfo) (pcm : list Z) : list Z :=
  if nChans info =? 2 then
    map (fun i => downmix_pair (nth (i * 2) pcm 0) (nth (i * 2 + 1) pcm 0))
        (seq 0 (Z.to_nat (Z.quot (outputSamps info) 2)))
  else firstn (Z.to_nat (outputSamps info)) pcm.

(** The MP3 branch of one turn. *)
Definition play_mp3 (e : Mp3Step) (l : PlayLocals) : M (loop_ctl * PlayLocals) :=
  initialized <- gets mp3_decoder_initialized_ ;;
  ok <- (if negb initialized
         then modify (set_mp3_decoder_initialized_ (init_ok e)) ;; ret (init_ok e)
         else ret true) ;;
  if negb ok then modify (set_is_playing_ false) ;; ret (LoopBreak, l)
  else if sync_offset e <? 0 then
    ret (LoopContinue,
         mkLocals (mp3_input_buffer l) (read_ptr l) 0 (id3_processed l) (id3_skips l))
  else
    let adv := (if 0 <? sync_offset e then sync_offset e else 0) + decode_consumed e in
    let l' := mkLocals (mp3_input_buffer l)
                       (option_map (fun p => p + adv) (read_ptr l))
                       (bytes_left l - adv) (id3_processed l) (id3_skips l) in
    if decode_result e =? 0 then
      if (samprate (frame_info e) =? 0) || (nChans (frame_info e) =? 0)
      then ret (LoopContinue, l')
      else
        emit (EvAddAudioData
                (mkPacket (samprate (frame_info e)) 60 0
                          (pcm_bytes (mp3_mono (frame_info e) (pcm_buffer e))))) ;;
        ret (LoopContinue, l')
    else vTaskDelay 1 ;; ret (LoopContinue, l').

(** The text of the now-playing label. *)
Definition now_playing (name : string) : string :=
  String.append "《" (String.append name "》播放中...").

(** The now-playing label, set once. *)
Definition show_song_name (display : bool) : M unit :=
  shown <- gets song_name_displayed_ ;;
  name <- gets current_song_name_ ;;
  if negb shown && negb (String.eqb name EmptyString) then
    if display then
      emit (EvSetMusicInfo (now_playing name)) ;;
      modify (set_song_name_displayed_ true) ;;
      mode <- gets display_mode_ ;;
      match mode with
      | DISPLAY_MODE_SPECTRUM => emit EvDisplayStart
      | DISPLAY_MODE_STATIC => ret tt
      end
    else ret tt
  else ret tt.

(** The block [if (bytes_left < 4096) { ... }]: a chunk is taken from
    the queue and fed to the window.  [Some ctl] is a [break] or a
    [continue] out of the block. *)
Definition fetch (fuel : nat) (l : PlayLocals) : M (option loop_ctl * PlayLocals) :=
  if bytes_left l <? 4096 then
    c <- pop_chunk ;;
    match c with
    | PopFinished => ret (Some LoopBreak, l)
    | PopRetry => ret (Some LoopContinue, l)
    | PopChunk chunk => l' <- feed_chunk fuel chunk l ;; ret (None, l')
    end
  else ret (None, l).

(** What follows the block: the WAV branch or the MP3 branch. *)
Definition decode_and_send (e : Mp3Step) (l : PlayLocals) : M (loop_ctl * PlayLocals) :=
  wav <- gets wav_mode_ ;;
  if wav then l' <- play_wav l ;; ret (LoopContinue, l')
  else play_mp3 e l.

(** One turn of [while (is_playing_)]. *)
Definition play_iteration (fuel : nat) (e : PlayEnv) (l : PlayLocals)
  : M (loop_ctl * PlayLocals) :=
  match device_state e with
  | kDeviceStateListening | kDeviceStateSpeaking =>
      emit EvToggleChatState ;; vTaskDelay 300 ;; ret (LoopContinue, l)
  | kDeviceStateOther => vTaskDelay 50 ;; ret (LoopContinue, l)
  | kDeviceStateIdle =>
      show_song_name (has_display e) ;;
      r <- fetch fuel l ;;
      match r with
      | (Some ctl, l') => ret (ctl, l')
      | (None, l') => decode_and_send (mp3 e) l'
      end
  end.

Fixpoint play_loop (fuel : nat) (envs : list PlayEnv) (l : PlayLocals) : M PlayLocals :=
  playing <- gets is_playing_ ;;
  if playing then
    match envs with
    | [] => out_of_fuel
    | e :: rest =>
        r <- play_iteration fuel e l ;;
        match r with
        | (LoopBreak, l') => ret l'
        | (LoopContinue, l') => play_loop fuel rest l'
        end
    end
  else ret l.

Definition ResetSampleRate : M unit := emit EvResetSampleRate.

(** What PlayAudioStream does once its loop is left. *)
Definition play_exit (display : bool) : M unit :=
  heap_caps_free ;;
  modify (set_is_playing_ false) ;;
  ResetSampleRate ;;
  if display then emit (EvSetMusicInfo EmptyString) else ret tt.

(** PlayAudioStream.  [codec] and [output_enabled] are what the board
    answers, [heap] is the fresh input window ([None]: the allocation
    failed), [display] whether a display exists at the end. *)
Definition PlayAudioStream (codec output_enabled : bool) (heap : option (list byte))
    (display : bool) (fuel : nat) (envs : list PlayEnv) : M unit :=
  if negb codec then modify (set_is_playing_ false)
  else
    (if negb output_enabled then emit EvEnableOutput else ret tt) ;;
    priming_wait ;;
    match heap with
    | None => modify (set_is_playing_ false)
    | Some h =>
        play_loop fuel envs (PlayLocals_new h) ;;
        play_exit display
    end.

(** ** The producer: DownloadAudioStreamFromUrl *)

(** What the transport answers: the result of each [Open] in order, and
    the status code of the response. *)
Record HttpEnv := mkHttpEnv {
  open_results : list bool;
  status_code : Z
}.

(** What one [Read] answers, with the clock and the allocator of that
    turn of the read loop. *)
Record ReadEnv := mkReadEnv {
  bytes_read : Z;
  read_buffer : list byte;
  now_ms : Z;
  alloc_ok : bool
}.

Record DownloadLocals := mkDownloadLocals {
  total_downloaded : Z;
  got_first_byte : bool;
  first_byte_timeout : bool
}.

(** The [n]-th call of [http->Open]. *)
Definition http_open (env : HttpEnv) (n : nat) (method : string) : M bool :=
  url <- gets current_stream_url_ ;;
  emit (EvHttpOpen method url) ;;
  ret (nth n (open_results env) false).

(** [Open], and once more after 500 ms when it failed. *)
Definition open_with_retry (env : HttpEnv) (method : string) : M bool :=
  opened <- http_open env 0 method ;;
  if negb opened then vTaskDelay 500 ;; http_open env 1 method
  else ret opened.

(** The cleanup the producer runs on a fatal response or on the
    first-byte timeout. *)
Definition fatal_cleanup : M unit :=
  ResetSampleRate ;;
  modify (set_is_downloading_ false) ;;
  modify (set_is_playing_ false) ;;
  lock_guard (notify_all ;; ClearAudioBuffer) ;;
  running <- gets is_lyric_running_ ;;
  if running then
    modify (set_is_lyric_running_ false) ;;
    joinable <- gets lyric_thread_ ;;
    if joinable
    then emit (EvThreadJoin ThLyric) ;; modify (set_lyric_thread_ false)
    else ret tt
  else ret tt.

(** One turn of [while (is_downloading_ && is_playing_)]. *)
Definition download_iteration (start_ts_read : Z) (r : ReadEnv) (l : DownloadLocals)
  : M (loop_ctl * DownloadLocals) :=
  if bytes_read r <? 0 then ret (LoopBreak, l)
  else if bytes_read r =? 0 then
    if negb (got_first_byte l) then
      timeout <- gets open_timeout_ms_ ;;
      if timeout <=? now_ms r - start_ts_read
      then ret (LoopBreak, mkDownloadLocals (total_downloaded l) (got_first_byte l) true)
      else vTaskDelay 50 ;; ret (LoopContinue, l)
    else ret (LoopBreak, l)
  else
    let l := mkDownloadLocals (total_downloaded l) true (first_byte_timeout l) in
    if negb (alloc_ok r) then ret (LoopBreak, l)
    else
      p <- push_chunk (bytes_from (read_buffer r) 0 (bytes_read r)) (bytes_read r) ;;
      match p with
      | PushDone =>
          ret (LoopContinue,
               mkDownloadLocals (size_t_wrap (total_downloaded l + bytes_read r))
                                (got_first_byte l) (first_byte_timeout l))
      | PushDropped => ret (LoopBreak, l)
      end.

(** The read loop; the task is parked in [Read] when the answers run out. *)
Fixpoint download_loop (start_ts_read : Z) (reads : list ReadEnv) (l : DownloadLocals)
  : M DownloadLocals :=
  downloading <- gets is_downloading_ ;;
  playing <- gets is_playing_ ;;
  if downloading && playing then
    match reads with
    | [] => out_of_fuel
    | r :: rest =>
        c <- download_iteration start_ts_read r l ;;
        match c with
        | (LoopBreak, l') => ret l'
        | (LoopContinue, l') => download_loop start_ts_read rest l'
        end
    end
  else ret l.

(** What DownloadAudioStreamFromUrl does once its loop is left. *)
Definition download_exit (l : DownloadLocals) : M unit :=
  emit EvHttpClose ;;
  if first_byte_timeout l then vTaskDelay 100 ;; fatal_cleanup
  else
    modify (set_is_downloading_ false) ;;
    lock_guard notify_all.

Definition crlf : string :=
  String (ascii_of_nat 13) (String (ascii_of_nat 10) EmptyString).

(** The name of the form field between its two quotation marks. *)
Definition quoted_query : string :=
  String (ascii_of_nat 34) (String.append "query" (String (ascii_of_nat 34) EmptyString)).

Definition contains (pattern s : string) : bool :=
  match String.index 0 pattern s with Some _ => true | None => false end.

Definition DownloadAudioStreamFromUrl (env : HttpEnv) (start_ts_read : Z)
    (reads : list ReadEnv) : M unit :=
  url <- gets current_stream_url_ ;;
  if String.eqb url EmptyString then modify (set_is_downloading_ false)
  else
    emit (EvSetHeader "User-Agent" "ESP32-Sing-Player/1.0") ;;
    emit (EvSetHeader "Accept" "*/*") ;;
    emit (EvSetHeader "Range" "bytes=0-") ;;
    emit (EvSetHeader "Connection" "close") ;;
    emit EvAuthHeaders ;;
    let use_post := contains "/convert_stream_simple" url in
    opened <-
      (if use_post then
         emit (EvSetHeader "Content-Type"
                 "multipart/form-data; boundary=----ESP32_SING_BOUNDARY") ;;
         emit (EvSetHeader "Transfer-Encoding" "chunked") ;;
         open_with_retry env "POST"
       else open_with_retry env "GET") ;;
    if negb opened then modify (set_is_downloading_ false)
    else
      (if use_post then
         query <- gets current_query_value_ ;;
         emit (EvHttpWrite
                 (String.append "------ESP32_SING_BOUNDARY" (String.append crlf
                 (String.append "Content-Disposition: form-data; name=" (String.append quoted_query
                 (String.append crlf (String.append crlf (String.append query crlf)))))))) ;;
         emit (EvHttpWrite (String.append "------ESP32_SING_BOUNDARY--" crlf)) ;;
         emit (EvHttpWrite EmptyString)
       else ret tt) ;;
      if status_code env =? 404 then
        emit EvHttpClose ;;
        vTaskDelay 100 ;;
        fatal_cleanup ;;
        emit EvPlaySound ;;
        emit EvStartListening
      else if negb (status_code env =? 200) && negb (status_code env =? 206) then
        emit EvHttpClose ;;
        vTaskDelay 100 ;;
        fatal_cleanup
      else
        l <- download_loop start_ts_read reads (mkDownloadLocals 0 false false) ;;
        download_exit l.

(** ** The session controller *)

(** [url_encode_simple]: unreserved characters pass, a space becomes
    %20, a plus %2B, every other byte a percent sign and two upper-case
    hexadecimal digits. *)
Definition hex_digit (n : N) : ascii :=
  ascii_of_N (if (n <? 10)%N then 48 + n else 55 + n)%N.

Definition is_unreserved (c : ascii) : bool :=
  let n := N_of_ascii c in
  ((65 <=? n) && (n <=? 90) || (97 <=? n) && (n <=? 122)
   || (48 <=? n) && (n <=? 57)
   || (n =? 45) || (n =? 95) || (n =? 46) || (n =? 126))%N.

Definition encode_char (c : ascii) : string :=
  let n := N_of_ascii c in
  if is_unreserved c then String c EmptyString
  else if (n =? 32)%N then "%20"
  else if (n =? 43)%N then "%2B"
  else String "%" (String (hex_digit (n / 16)) (String (hex_digit (n mod 16)) EmptyString)).

Fixpoint url_encode_simple (str : string) : string :=
  match str with
  | EmptyString => EmptyString
  | String c rest => String.append (encode_char c) (url_encode_simple rest)
  end.

(** [join()]: the caller waits for the task, which runs what it has left
    to do. *)
Definition join (t : thread_id) (rest : M unit) : M unit :=
  rest ;;
  emit (EvThreadJoin t) ;;
  match t with
  | ThDownload => modify (set_download_thread_ false)
  | ThPlay => modify (set_play_thread_ false)
  | ThLyric => modify (set_lyric_thread_ false)
  end.

Definition detach (t : thread_id) : M unit :=
  emit (EvThreadDetach t) ;;
  match t with
  | ThDownload => modify (set_download_thread_ false)
  | ThPlay => modify (set_play_thread_ false)
  | ThLyric => modify (set_lyric_thread_ false)
  end.

(** [while (!finished && waits < max_waits)] with the test of
    [joinable()] in its body; [n] is what is left of [max_waits]. *)
Fixpoint poll_joinable (handle : Esp32Sing -> bool) (n : nat) : M unit :=
  match n with
  | O => ret tt
  | S n' =>
      vTaskDelay 10 ;;
      joinable <- gets handle ;;
      if negb joinable then ret tt else poll_joinable handle n'
  end.

(** The same loop without a test in its body. *)
Fixpoint poll_blind (n : nat) : M unit :=
  match n with
  | O => ret tt
  | S n' => vTaskDelay 10 ;; poll_blind n'
  end.

(** The wait for the previous play thread, as StartStreaming and
    StartStreamingById have it. *)
Definition abandon_play_thread : M unit :=
  joinable <- gets play_thread_ ;;
  if joinable then
    modify (set_is_playing_ false) ;;
    lock_guard notify_all ;;
    poll_blind 100 ;;
    joinable <- gets play_thread_ ;;
    if joinable then detach ThPlay else ret tt
  else ret tt.

(** StartStreaming.  The thread configuration (stack size, priority,
    name) is left out. *)
Definition StartStreaming (music_url : string) : M bool :=
  if String.eqb music_url EmptyString then ret false
  else
    modify (set_is_downloading_ false) ;;
    modify (set_is_playing_ false) ;;
    lock_guard notify_all ;;
    joinable <- gets download_thread_ ;;
    (if joinable then
       poll_joinable download_thread_ 100 ;;
       joinable <- gets download_thread_ ;;
       if joinable then detach ThDownload else ret tt
     else ret tt) ;;
    abandon_play_thread ;;
    ClearAudioBuffer ;;
    modify (set_wav_mode_ false) ;;
    modify (set_wav_header_parsed_ false) ;;
    modify (set_wav_channels_ 1) ;;
    modify (set_wav_sample_rate_ 16000) ;;
    modify (set_wav_bits_per_sample_ 16) ;;
    modify (set_current_stream_url_ music_url) ;;
    modify (set_is_downloading_ true) ;;
    emit (EvThreadStart ThDownload) ;;
    modify (set_download_thread_ true) ;;
    modify (set_is_playing_ true) ;;
    emit (EvThreadStart ThPlay) ;;
    modify (set_play_thread_ true) ;;
    ret true.

(** [download_rest] is what the previous download task has left to do
    when it is joined. *)
Definition StartStreamingById (download_rest : M unit) (song_id : string) : M bool :=
  if String.eqb song_id EmptyString then ret false
  else
    modify (set_is_downloading_ false) ;;
    modify (set_is_playing_ false) ;;
    lock_guard notify_all ;;
    joinable <- gets download_thread_ ;;
    (if joinable then join ThDownload download_rest else ret tt) ;;
    abandon_play_thread ;;
    ClearAudioBuffer ;;
    modify (set_current_song_id_ song_id) ;;
    modify (set_is_downloading_ true) ;;
    emit (EvThreadStart ThDownload) ;;
    modify (set_download_thread_ true) ;;
    modify (set_is_playing_ true) ;;
    emit (EvThreadStart ThPlay) ;;
    modify (set_play_thread_ true) ;;
    ret true.

(** [download_rest] and [play_rest] are what the two tasks have left to
    do when they are joined. *)
Definition StopStreaming (download_rest play_rest : M unit) : M bool :=
  ResetSampleRate ;;
  playing <- gets is_playing_ ;;
  downloading <- gets is_downloading_ ;;
  if negb playing && negb downloading then ret true
  else
    modify (set_is_downloading_ false) ;;
    modify (set_is_playing_ false) ;;
    lock_guard notify_all ;;
    joinable <- gets download_thread_ ;;
    (if joinable then join ThDownload download_rest else ret tt) ;;
    joinable <- gets play_thread_ ;;
    (if joinable then
       modify (set_is_playing_ false) ;;
       lock_guard notify_all ;;
       poll_joinable play_thread_ 100 ;;
       joinable <- gets play_thread_ ;;
       if joinable then join ThPlay play_rest else ret tt
     else ret tt) ;;
    ret true.

(** The destructor. *)
Definition Esp32Sing_destroy (download_rest play_rest : M unit) : M unit :=
  modify (set_is_downloading_ false) ;;
  modify (set_is_playing_ false) ;;
  modify (set_is_lyric_running_ false) ;;
  lock_guard notify_all ;;
  joinable <- gets download_thread_ ;;
  (if joinable then join ThDownload download_rest else ret tt) ;;
  joinable <- gets play_thread_ ;;
  (if joinable then join ThPlay play_rest else ret tt) ;;
  joinable <- gets lyric_thread_ ;;
  (if joinable then join ThLyric (ret tt) else ret tt) ;;
  ClearAudioBuffer ;;
  modify (set_mp3_decoder_initialized_ false).

Definition Download (song_name artist_name : string) : M bool :=
  if String.eqb song_name EmptyString && String.eqb artist_name EmptyString then ret false
  else
    modify (set_current_song_name_ song_name) ;;
    let raw_query :=
      if negb (String.eqb artist_name EmptyString) && negb (String.eqb song_name EmptyString)
      then String.append artist_name (String.append "+" song_name)
      else if negb (String.eqb song_name EmptyString) then song_name
      else artist_name in
    modify (set_current_query_value_ raw_query) ;;
    host <- gets base_host_ ;;
    let full_url :=
      String.append host (String.append "/stream"
        (String.append "?raw_query=" (url_encode_simple raw_query))) in
    modify (set_current_stream_url_ full_url) ;;
    modify (set_last_downloaded_data_ full_url) ;;
    ok <- StartStreaming full_url ;;
    if negb ok then ret false else ret true.

Definition DownloadAudioStreamById (env : HttpEnv) (start_ts_read : Z)
    (reads : list ReadEnv) (song_id : string) : M unit :=
  id <- gets current_song_id_ ;;
  let query_raw := if String.eqb song_id EmptyString then id else song_id in
  modify (set_current_query_value_ query_raw) ;;
  host <- gets base_host_ ;;
  modify (set_current_stream_url_
            (String.append host (String.append "/stream?raw_query=" (url_encode_simple query_raw)))) ;;
  DownloadAudioStreamFromUrl env start_ts_read reads.

(** ** Runs of queue operations *)

Inductive queue_op :=
| OpPush (chunk_data : list byte) (bytes_read : Z)
| OpPop
| OpClear
| OpSetDownloading (b : bool).

(** A push carries what one [Read] into the 4096-byte buffer returned. *)
Definition op_ok (op : queue_op) : Prop :=
  match op with
  | OpPush _ n => 0 < n <= READ_CHUNK_SIZE
  | _ => True
  end.

Definition apply_op (s : Esp32Sing) (op : queue_op) : Esp32Sing :=
  match op with
  | OpPush d n => state_of (push_chunk d n s)
  | OpPop => state_of (pop_chunk s)
  | OpClear => state_of (ClearAudioBuffer s)
  | OpSetDownloading b => set_is_downloading_ b s
  end.

Definition run_ops (ops : list queue_op) (s : Esp32Sing) : Esp32Sing :=
  fold_left apply_op ops s.

(** The sum of the lengths of the resident chunks. *)
Definition queued_bytes (q : list SingAudioChunk) : Z :=
  fold_right (fun c acc => size c + acc) 0 q.

(** The queue between two critical sections. *)
Record queue_ok (s : Esp32Sing) : Prop := mk_queue_ok {
  ok_mutex : buffer_mutex_ s = false;
  ok_chunks : Forall (fun c => 0 < size c <= READ_CHUNK_SIZE) (audio_buffer_ s);
  ok_size : buffer_size_ s = queued_bytes (audio_buffer_ s);
  ok_bound : buffer_size_ s < MAX_BUFFER_SIZE + READ_CHUNK_SIZE
}.

(** What the queue promises at a point between two critical sections:
    the byte count is the sum of the resident lengths and is not
    negative; a push that is let in appends the chunk and adds its
    length; a pop of a non-empty queue removes the front chunk and
    subtracts its length; a clear empties the queue and zeroes the
    count. *)
Definition queue_contract (s : Esp32Sing) : Prop :=
  buffer_size_ s = queued_bytes (audio_buffer_ s)
  /\ 0 <= buffer_size_ s
  /\ (forall d n,
        0 < n <= READ_CHUNK_SIZE ->
        is_downloading_ s = true -> buffer_size_ s < MAX_BUFFER_SIZE ->
        exists s', push_chunk d n s = Done PushDone s'
          /\ audio_buffer_ s' = audio_buffer_ s ++ [mkChunk d n]
          /\ buffer_size_ s' = buffer_size_ s + n)
  /\ (forall c q,
        audio_buffer_ s = c :: q ->
        exists s', pop_chunk s = Done (PopChunk c) s'
          /\ audio_buffer_ s' = q
          /\ buffer_size_ s' = buffer_size_ s - size c)
  /\ (exists s', ClearAudioBuffer s = Done tt s'
          /\ audio_buffer_ s' = []
          /\ buffer_size_ s' = 0).

(** A short run: the producer starts, pushes three bytes, then two; the
    consumer pops once; the queue is cleared. *)
Definition sample_ops : list queue_op :=
  [OpSetDownloading true;
   OpPush [Byte.x01; Byte.x02; Byte.x03] 3;
   OpPush [Byte.x04; Byte.x05] 2;
   OpPop;
   OpClear].

(** A session whose transport never opens: the controller starts it on
    a fresh object, then the producer runs with both [Open] calls
    failing. *)
Definition open_failure_session : outcome unit :=
  (StartStreaming "http://8.134.249.85:18080/stream?raw_query=x" ;;
   DownloadAudioStreamFromUrl (mkHttpEnv [false; false] 0) 0 [])
    Esp32Sing_new.

(** What the pop of PlayAudioStream does in a state [s] between two
    critical sections. *)
Definition pop_contract (s : Esp32Sing) : Prop :=
  (* producer finished, queue empty: end of stream, at once *)
  (is_downloading_ s = false -> audio_buffer_ s = [] ->
     pop_chunk s = Done PopFinished s)
  (* producer active, queue empty: the consumer parks, and a wake-up
     lets it through exactly when a chunk is there or the producer has
     stopped *)
  /\ (is_downloading_ s = true -> audio_buffer_ s = [] ->
        pop_chunk s = Blocked s
        /\ forall s', buffer_mutex_ s' = false ->
             (pop_resume s' = Blocked s'
              <-> audio_buffer_ s' = [] /\ is_downloading_ s' = true))
  (* otherwise: the front chunk leaves, the count drops by its length,
     one waiter is woken *)
  /\ (forall c q,
        audio_buffer_ s = c :: q ->
        exists s', pop_chunk s = Done (PopChunk c) s'
          /\ audio_buffer_ s' = q
          /\ buffer_size_ s' = buffer_size_ s - size c
          /\ trace_ s' = trace_ s ++ [EvNotifyOne]).

(** The ten bytes of a tag header: the signature, version 2.3, no
    flags, and the four size bytes. *)
Definition id3_header (b6 b7 b8 b9 : byte) : list byte :=
  list_byte_of_string "ID3" ++ [Byte.x03; Byte.x00; Byte.x00; b6; b7; b8; b9].

(** An idle turn of the consumer's loop in which the decoder finds no
    sync word. *)
Definition idle_no_sync : PlayEnv :=
  mkPlayEnv kDeviceStateIdle false
            (mkMp3Step true (-1) 0 0 [] (mkFrameInfo 0 0 0)).

(** A consumer about to play two queued chunks, both starting with a
    tag header, after the producer has finished. *)
Definition two_tagged_chunks : Esp32Sing :=
  set_is_playing_ true
    (run_ops [OpSetDownloading true;
              OpPush (id3_header Byte.x00 Byte.x00 Byte.x00 Byte.x01 ++ [Byte.xff]) 11;
              OpPush (id3_header Byte.x00 Byte.x00 Byte.x00 Byte.x02 ++ [Byte.xff]) 11;
              OpSetDownloading false]
             Esp32Sing_new).

(** What the design says of the metadata tag: the value SkipId3Tag
    computes, the example of the document, and that one invocation of
    PlayAudioStream asks SkipId3Tag at most once. *)
Definition id3_contract : Prop :=
  (forall (data : list byte) (size : Z),
      10 <= size -> memcmp_is data 0 "ID3" = true ->
      let b i := byte.unsigned (byte_at data i) in
      SkipId3Tag data size = 10 + synchsafe (b 6) (b 7) (b 8) (b 9)
      /\ synchsafe (b 6) (b 7) (b 8) (b 9)
         = (b 6 mod 128) * 2 ^ 21 + (b 7 mod 128) * 2 ^ 14
           + (b 8 mod 128) * 2 ^ 7 + b 9 mod 128
      /\ 0 <= synchsafe (b 6) (b 7) (b 8) (b 9) < 2 ^ 28)
  /\ SkipId3Tag (id3_header Byte.x00 Byte.x00 Byte.x02 Byte.x01) 10 = 267
  /\ (forall fuel envs heap s l' s',
        play_loop fuel envs (PlayLocals_new heap) s = Done l' s' ->
        (List.length (id3_skips l') <= 1)%nat).

(** What one invocation of PlayAudioStream keeps true of its locals:
    SkipId3Tag has been asked at most once, and not at all while
    [id3_processed] is false. *)
Definition id3_once (l : PlayLocals) : Prop :=
  (List.length (id3_skips l) <= 1)%nat
  /\ (id3_processed l = false -> id3_skips l = []).

(** Where the scan goes after the sub-chunk at [pos]: 8 bytes of header
    and the declared length further, in 32-bit arithmetic. *)
Definition next_subchunk (chunk : SingAudioChunk) (pos : Z) : Z :=
  size_t_wrap (pos + uint32_wrap (8 + read_u32 (data chunk) (pos + 4))).

(** The canonical 44-byte header: RIFF, the file size less 8, WAVE, a
    16-byte fmt sub-chunk for PCM, and the header of the data
    sub-chunk. *)
Definition wav_header (channels rate bits data_len : Z) : list byte :=
  list_byte_of_string "RIFF" ++ le_split 4 (36 + data_len)
  ++ list_byte_of_string "WAVE"
  ++ list_byte_of_string "fmt " ++ le_split 4 16
  ++ le_split 2 1 ++ le_split 2 channels ++ le_split 4 rate
  ++ le_split 4 (rate * channels * bits / 8)
  ++ le_split 2 (channels * bits / 8) ++ le_split 2 bits
  ++ list_byte_of_string "data" ++ le_split 4 data_len.

(** A first buffer that holds the container signature and nothing
    else. *)
Definition riff_only : SingAudioChunk :=
  mkChunk (list_byte_of_string "RIFF"
           ++ [Byte.x04; Byte.x00; Byte.x00; Byte.x00]
           ++ list_byte_of_string "WAVE") 12.

(** A first buffer with the canonical header for stereo, 16 kHz, 16 bits
    and two frames of PCM: (1, 3) and (-2, -3). *)
Definition stereo_frames : list byte :=
  le_split 2 1 ++ le_split 2 3 ++ le_split 2 (-2) ++ le_split 2 (-3).

Definition stereo_first_chunk : SingAudioChunk :=
  mkChunk (wav_header 2 16000 16 8 ++ stereo_frames) 52.

(** The object when the two tasks of a session start. *)
Definition session_started : Esp32Sing :=
  state_of (StartStreaming "http://8.134.249.85:18080/stream?raw_query=x" Esp32Sing_new).

(** ** The layout of a WAV file *)

(** A sub-chunk of a RIFF file: a tag of four bytes and a body. *)
Record Subchunk := mkSubchunk { sub_tag : list byte; sub_body : list byte }.

(** The bytes of a sub-chunk: the tag, the length of the body as a
    32-bit little-endian number, the body.  Nothing pads the body. *)
Definition encode_subchunk (c : Subchunk) : list byte :=
  sub_tag c ++ le_split 4 (Z.of_nat (List.length (sub_body c))) ++ sub_body c.

(** A sub-chunk with a tag of four bytes that is neither that of the
    format nor that of the data. *)
Definition other_subchunk (c : Subchunk) : bool :=
  (List.length (sub_tag c) =? 4)%nat
  && negb (bytes_eqb (sub_tag c) (list_byte_of_string "fmt "))
  && negb (bytes_eqb (sub_tag c) (list_byte_of_string "data")).

(** The body of a format sub-chunk: the audio format, the channel count,
    the sample rate, the byte rate, the block alignment, the bits per
    sample, and what an extended format adds. *)
Definition fmt_body (format channels rate byte_rate block_align bits : Z)
    (extra : list byte) : list byte :=
  le_split 2 format ++ le_split 2 channels ++ le_split 4 rate
  ++ le_split 4 byte_rate ++ le_split 2 block_align ++ le_split 2 bits ++ extra.

(** The head of a WAV file and the PCM that follows it: the signature,
    sub-chunks in front of the format, the format, sub-chunks behind it,
    the header of the data sub-chunk with its declared length, the
    PCM. *)
Definition wav_file (riff_size : Z) (before : list Subchunk) (fmt : list byte)
    (after : list Subchunk) (data_len : Z) (pcm : list byte) : list byte :=
  list_byte_of_string "RIFF" ++ le_split 4 riff_size ++ list_byte_of_string "WAVE"
  ++ flat_map encode_subchunk before
  ++ encode_subchunk (mkSubchunk (list_byte_of_string "fmt ") fmt)
  ++ flat_map encode_subchunk after
  ++ list_byte_of_string "data" ++ le_split 4 data_len ++ pcm.

(** A first buffer with a LIST sub-chunk in front of the format, an
    extended format of 18 bytes for mono at 44100 Hz and 16 bits, a
    fact sub-chunk behind it, and four bytes of PCM. *)
Definition listed_first_chunk : SingAudioChunk :=
  let d := wav_file 66
             [mkSubchunk (list_byte_of_string "LIST") [Byte.x49; Byte.x4e; Byte.x46; Byte.x4f]]
             (fmt_body 1 1 44100 88200 2 16 [Byte.x00; Byte.x00])
             [mkSubchunk (list_byte_of_string "fact") [Byte.x02; Byte.x00; Byte.x00; Byte.x00]]
             4 [Byte.x01; Byte.x00; Byte.xff; Byte.xff] in
  mkChunk d (Z.of_nat (List.length d)).

(** What the format detection does with a chunk that carries the
    signature: WAV mode is entered; the sub-chunk loop starts at offset
    12.  When the buffer is the head of a WAV file (sub-chunks laid end
    to end, a format of at least 16 bytes, a data sub-chunk that
    declares at least the PCM the buffer holds), the loop walks the
    sub-chunks, takes the channel count, the sample rate and the bits
    per sample from the format, marks the header parsed and leaves the
    PCM at the head of the chunk.  A turn of the loop at [pos] takes the
    tag from [pos] and the length from [pos + 4], little endian, goes on
    at [next_subchunk], and on the tag of the format sub-chunk reads the
    channel count, the sample rate and the bits per sample at
    [pos + 10], [pos + 12] and [pos + 22]. *)
Definition wav_detect_contract (fuel : nat) (chunk : SingAudioChunk) (id3 : bool)
    (s : Esp32Sing) : Prop :=
  wav_mode_ (state_of (detect_wav fuel chunk id3 s)) = true
  /\ detect_wav fuel chunk id3 s = wav_scan fuel 12 chunk id3 (set_wav_mode_ true s)
  /\ (forall riff_size before format channels rate byte_rate block_align bits extra
             after data_len pcm,
        data chunk
        = wav_file riff_size before
            (fmt_body format channels rate byte_rate block_align bits extra)
            after data_len pcm ->
        size chunk = Z.of_nat (List.length (data chunk)) ->
        forallb other_subchunk before = true ->
        forallb other_subchunk after = true ->
        Z.of_nat (List.length pcm) <= data_len ->
        size chunk - Z.of_nat (List.length pcm) + data_len + 8 < 2 ^ 32 ->
        (List.length before + List.length after + 2 <= fuel)%nat ->
        detect_wav fuel chunk id3 s
        = Done (mkChunk (pcm ++ skipn (List.length pcm) (data chunk))
                        (Z.of_nat (List.length pcm)), true)
               (set_wav_header_parsed_ true
                  (set_wav_bits_per_sample_ (bits mod 2 ^ 16)
                     (set_wav_sample_rate_ (int_cast (rate mod 2 ^ 32))
                        (set_wav_channels_ (channels mod 2 ^ 16)
                           (set_wav_mode_ true s))))))
  /\ (forall pos c i s1,
        0 <= pos -> pos + 8 <= size c -> size c <= READ_CHUNK_SIZE ->
        exists c' i' s1',
          wav_scan_step pos c i s1 = Done (next_subchunk c pos, c', i') s1'
          /\ (memcmp_is (data c) pos "fmt " = true -> pos + 24 <= size c ->
                c' = c /\ i' = i
                /\ wav_channels_ s1' = read_u16 (data c) (pos + 10)
                /\ wav_sample_rate_ s1' = int_cast (read_u32 (data c) (pos + 12))
                /\ wav_bits_per_sample_ s1' = read_u16 (data c) (pos + 22))
          /\ (memcmp_is (data c) pos "data" = true ->
                wav_header_parsed_ s1' = true /\ i' = true
                /\ size c' = size c - (pos + 8))
          /\ (memcmp_is (data c) pos "fmt " = false ->
              memcmp_is (data c) pos "data" = false ->
                c' = c /\ i' = i /\ s1' = s1)).

(** The format detection as a whole: what it does with a buffer of at
    least 44 bytes that carries the signature while the header has not
    been parsed, and that it does nothing at all with a buffer of fewer
    than 44 bytes, whatever its bytes and whatever the state of the
    container. *)
Definition wav_detection_contract : Prop :=
  (forall fuel chunk id3 s,
      44 <= size chunk ->
      memcmp_is (data chunk) 0 "RIFF" = true ->
      memcmp_is (data chunk) 8 "WAVE" = true ->
      wav_header_parsed_ s = false ->
      wav_detect_contract fuel chunk id3 s)
  /\ (forall fuel chunk id3 s,
      size chunk < 44 -> detect_wav fuel chunk id3 s = Done (chunk, id3) s).

(** ** Stereo frames *)

(** The bytes of stereo PCM: for each frame the left and the right
    sample, 16 bits each, little endian. *)
Definition stereo_pcm (frames : list (Z * Z)) : list byte :=
  flat_map (fun f => le_split 2 (fst f) ++ le_split 2 (snd f)) frames.

(** The bytes of the mono PCM that averages each frame, the quotient cut
    towards zero: one 16-bit sample, little endian, for each frame. *)
Definition mono_pcm (frames : list (Z * Z)) : list byte :=
  flat_map (fun f => le_split 2 (Z.quot (fst f + snd f) 2)) frames.



(** The packets handed to the application, oldest first. *)
Definition sent_packets (t : list event) : list AudioStreamPacket :=
  flat_map (fun e => match e with EvAddAudioData p => [p] | _ => [] end) t.




(** A consumer at its first turn with [stereo_first_chunk] queued. *)
Definition stereo_session : Esp32Sing :=
  set_audio_buffer_ [stereo_first_chunk] (set_buffer_size_ 52 session_started).

(** The headers DownloadAudioStreamFromUrl sets before it opens the
    transport, and the method it opens it with. *)
Definition use_post (url : string) : bool := contains "/convert_stream_simple" url.

Definition request_method (url : string) : string :=
  if use_post url then "POST" else "GET".

Definition request_headers (url : string) : list event :=
  [EvSetHeader "User-Agent" "ESP32-Sing-Player/1.0";
   EvSetHeader "Accept" "*/*";
   EvSetHeader "Range" "bytes=0-";
   EvSetHeader "Connection" "close";
   EvAuthHeaders]
  ++ (if use_post url
      then [EvSetHeader "Content-Type"
              "multipart/form-data; boundary=----ESP32_SING_BOUNDARY";
            EvSetHeader "Transfer-Encoding" "chunked"]
      else []).

(** What the design says of the transport open, for a producer started on
    [s] with a URL: a first [Open] that succeeds is the only one; one
    that fails is followed, 500 ms later, by exactly one more; when
    that fails too the producer clears [is_downloading_] and returns,
    having done nothing else. *)
Definition open_retry_contract (env : HttpEnv) (start_ts_read : Z)
    (reads : list ReadEnv) (s : Esp32Sing) : Prop :=
  let url := current_stream_url_ s in
  let m := request_method url in
  (nth 0 (open_results env) false = true ->
     open_with_retry env m s
     = Done true (set_trace_ (trace_ s ++ [EvHttpOpen m url]) s))
  /\ (nth 0 (open_results env) false = false ->
      nth 1 (open_results env) false = true ->
        open_with_retry env m s
        = Done true (set_trace_ (trace_ s ++ [EvHttpOpen m url; EvDelay 500;
                                              EvHttpOpen m url]) s))
  /\ (nth 0 (open_results env) false = false ->
      nth 1 (open_results env) false = false ->
        DownloadAudioStreamFromUrl env start_ts_read reads s
        = Done tt (set_is_downloading_ false
                     (set_trace_ (trace_ s ++ request_headers url
                                  ++ [EvHttpOpen m url; EvDelay 500;
                                      EvHttpOpen m url]) s))).

(** A session in which the producer has queued two chunks and both
    tasks are running. *)
Definition streaming_session : Esp32Sing :=
  run_ops [OpPush [Byte.x01; Byte.x02; Byte.x03] 3; OpPush [Byte.x04; Byte.x05] 2]
          session_started.

(** What the producer has left to do when it finds its loop condition
    false after some bytes have arrived. *)
Definition producer_rest : M unit := download_exit (mkDownloadLocals 5 true false).

(** What the consumer has left to do when it finds [is_playing_] false
    at the head of its loop. *)
Definition consumer_rest : M unit := play_exit true.

(** A consumer whose queue holds the header in one chunk and the two
    stereo frames in the next, after the producer has finished. *)
Definition split_session : Esp32Sing :=
  set_is_downloading_ false
    (set_audio_buffer_ [mkChunk (wav_header 2 16000 16 8) 44; mkChunk stereo_frames 8]
       (set_buffer_size_ 52 session_started)).


(** A consumer whose queue holds the first twenty bytes of the header in
    one chunk and the rest of it, with the two stereo frames, in the
    next, after the producer has finished. *)
Definition short_first_read_session : Esp32Sing :=
  set_is_downloading_ false
    (set_audio_buffer_
       [mkChunk (firstn 20 (wav_header 2 16000 16 8)) 20;
        mkChunk (skipn 20 (wav_header 2 16000 16 8) ++ stereo_frames) 32]
       (set_buffer_size_ 52 session_started)).

(** A first buffer with the signature and a sub-chunk, tagged LIST, that
    declares a length of 2^32 - 8. *)
Definition stalling_chunk : SingAudioChunk :=
  mkChunk (list_byte_of_string "RIFF" ++ le_split 4 36
           ++ list_byte_of_string "WAVE"
           ++ list_byte_of_string "LIST" ++ le_split 4 (2 ^ 32 - 8)
           ++ repeat Byte.x00 24) 44.

(** A transport that opens at once with status 200, delivers three
    bytes and then the end of the stream. *)
Definition short_stream : list ReadEnv :=
  [mkReadEnv 3 [Byte.x01; Byte.x02; Byte.x03] 5 true;
   mkReadEnv 0 [] 6 true].

(** A computation that, when it returns, has left the queue and its byte
    count as they were. *)
Definition keeps_queue {A} (m : M A) : Prop :=
  forall s a s',
    m s = Done a s' ->
    audio_buffer_ s' = audio_buffer_ s /\ buffer_size_ s' = buffer_size_ s.

(** ** Runs, sessions and windows *)

(** [n] pops in a row, as the consumer makes them, with the chunks they
    return in order; the run ends early at a pop that returns none. *)
Fixpoint pop_all (n : nat) : M (list SingAudioChunk) :=
  match n with
  | O => ret []
  | S n' =>
      r <- pop_chunk ;;
      match r with
      | PopChunk c => cs <- pop_all n' ;; ret (c :: cs)
      | _ => ret []
      end
  end.

(** The chunk the read loop makes of what one [Read] returned: a copy
    of the first [bytes_read] bytes of the buffer, with that length. *)
Definition chunk_of_read (r : ReadEnv) : SingAudioChunk :=
  mkChunk (bytes_from (read_buffer r) 0 (bytes_read r)) (bytes_read r).

(** A [Read] into the 4096-byte buffer that returned data, in a turn in
    which the chunk could be allocated. *)
Definition data_read (r : ReadEnv) : Prop :=
  0 < bytes_read r <= READ_CHUNK_SIZE /\ alloc_ok r = true.

Definition read_total (reads : list ReadEnv) : Z :=
  fold_right (fun r acc => bytes_read r + acc) 0 reads.

(** A zero-byte [Read] before the first-byte deadline. *)
Definition early_poll (start_ts_read timeout : Z) (r : ReadEnv) : Prop :=
  bytes_read r = 0 /\ now_ms r - start_ts_read < timeout.

(** What StartStreaming does to the outside between its entry and its
    return, on an object [s]: the wake-up, for each previous thread that
    is still joinable the hundred waits of 10 ms and the detach, the
    release of the resident chunks, the start of the two new tasks. *)
Definition restart_events (s : Esp32Sing) : list event :=
  [EvNotifyAll]
  ++ (if download_thread_ s
      then repeat (EvDelay 10) 100 ++ [EvThreadDetach ThDownload] else [])
  ++ (if play_thread_ s
      then [EvNotifyAll] ++ repeat (EvDelay 10) 100 ++ [EvThreadDetach ThPlay] else [])
  ++ repeat EvFree (List.length (audio_buffer_ s))
  ++ [EvThreadStart ThDownload; EvThreadStart ThPlay].

(** The object StartStreaming returns on. *)
Definition restarted (music_url : string) (s : Esp32Sing) : Esp32Sing :=
  set_play_thread_ true
    (set_download_thread_ true
       (set_is_playing_ true
          (set_is_downloading_ true
             (set_current_stream_url_ music_url
                (set_wav_bits_per_sample_ 16
                   (set_wav_sample_rate_ 16000
                      (set_wav_channels_ 1
                         (set_wav_header_parsed_ false
                            (set_wav_mode_ false
                               (set_buffer_size_ 0
                                  (set_audio_buffer_ []
                                     (set_trace_ (trace_ s ++ restart_events s) s)))))))))))).

(** GetDownloadResult. *)
Definition GetDownloadResult : M string := gets last_downloaded_data_.

(** The query text Download sends for a song and an artist. *)
Definition raw_query_of (song_name artist_name : string) : string :=
  if negb (String.eqb artist_name EmptyString) && negb (String.eqb song_name EmptyString)
  then String.append artist_name (String.append "+" song_name)
  else if negb (String.eqb song_name EmptyString) then song_name
  else artist_name.

(** The events that start, join or detach a thread. *)
Definition is_thread_event (e : event) : bool :=
  match e with
  | EvThreadStart _ | EvThreadJoin _ | EvThreadDetach _ => true
  | _ => false
  end.

(** A task remainder that runs to its end when it can take the mutex,
    gives the mutex back and leaves the thread handles alone; [evs] is
    what it does on its way, none of which starts, joins or detaches a
    thread. *)
Definition task_exit (rest : M unit) : Prop :=
  forall s, buffer_mutex_ s = false ->
    exists s' evs, rest s = Done tt s'
      /\ buffer_mutex_ s' = false
      /\ download_thread_ s' = download_thread_ s
      /\ play_thread_ s' = play_thread_ s
      /\ lyric_thread_ s' = lyric_thread_ s
      /\ trace_ s' = trace_ s ++ evs
      /\ existsb is_thread_event evs = false.

(** A task remainder that leaves the container state and the current
    URL as they are. *)
Definition keeps_container (rest : M unit) : Prop :=
  forall s s', rest s = Done tt s' ->
    wav_mode_ s' = wav_mode_ s
    /\ wav_header_parsed_ s' = wav_header_parsed_ s
    /\ wav_channels_ s' = wav_channels_ s
    /\ wav_sample_rate_ s' = wav_sample_rate_ s
    /\ wav_bits_per_sample_ s' = wav_bits_per_sample_ s
    /\ current_stream_url_ s' = current_stream_url_ s.


(** The handle of a thread. *)
Definition handle_of (t : thread_id) : Esp32Sing -> bool :=
  match t with
  | ThDownload => download_thread_
  | ThPlay => play_thread_
  | ThLyric => lyric_thread_
  end.

(** ** Reading an encoded query back *)

(** The value of an upper-case hexadecimal digit. *)
Definition hex_value (c : ascii) : option N :=
  let n := N_of_ascii c in
  if ((48 <=? n) && (n <=? 57))%N then Some (n - 48)%N
  else if ((65 <=? n) && (n <=? 70))%N then Some (n - 55)%N
  else None.

(** Percent-decoding: a percent sign and two upper-case hexadecimal
    digits stand for one byte, every other character for itself. *)
Fixpoint url_decode (s : string) : option string :=
  match s with
  | EmptyString => Some EmptyString
  | String c rest =>
      if Ascii.eqb c "%" then
        match rest with
        | String h (String l rest') =>
            match hex_value h, hex_value l, url_decode rest' with
            | Some a, Some b, Some r => Some (String (ascii_of_N (16 * a + b)) r)
            | _, _, _ => None
            end
        | _ => None
        end
      else option_map (String c) (url_decode rest)
  end.

(** ** The request signature *)

(** [std::to_string] of an [int64_t]. *)
Definition to_string (z : Z) : string := NilZero.string_of_int (Z.to_int z).

(** [mac.erase(std::remove(mac.begin(), mac.end(), c), mac.end())]. *)
Fixpoint remove_char (c : ascii) (s : string) : string :=
  match s with
  | EmptyString => EmptyString
  | String x rest =>
      if Ascii.eqb x c then remove_char c rest else String x (remove_char c rest)
  end.

(** [get_device_chip_id_sing], on the MAC address the board reports. *)
Definition get_device_chip_id_sing (mac : string) : string :=
  remove_char ":" mac.

(** [snprintf(hex, sizeof(hex), "%02X", b)]. *)
Definition hex_byte (b : byte) : string :=
  let n := Z.to_N (byte.unsigned b) in
  String (hex_digit (n / 16)) (String (hex_digit (n mod 16)) EmptyString).

(** The loop over [hash[0]] to [hash[15]]. *)
Definition key_of_hash (hash : list byte) : string :=
  String.concat EmptyString (map (fun i => hex_byte (nth i hash Byte.x00)) (seq 0 16)).

Definition secret_key : string := "your-esp32-secret-key-2024".

(** The text that is signed: the MAC address, the chip id, the time in
    seconds and the secret, with colons between them. *)
Definition signed_text (mac : string) (timestamp : Z) : string :=
  let chip_id := get_device_chip_id_sing mac in
  String.append mac (String.append ":" (String.append chip_id (String.append ":"
    (String.append (to_string timestamp) (String.append ":" secret_key))))).

(** [generate_dynamic_key_sing]; [sha256] is the digest function of the
    library, which fills the 32 bytes of [hash]. *)
Definition generate_dynamic_key_sing (sha256 : list byte -> list byte)
    (mac : string) (timestamp : Z) : string :=
  let data := signed_text mac timestamp in
  key_of_hash (sha256 (list_byte_of_string data)).

(** Reading a key back: two hexadecimal digits for each byte. *)
Fixpoint unhex (fuel : nat) (s : string) : option (list byte) :=
  match fuel with
  | O => match s with EmptyString => Some [] | _ => None end
  | S fuel' =>
      match s with
      | String h (String l rest) =>
          match hex_value h, hex_value l, unhex fuel' rest with
          | Some a, Some b, Some bs => Some (byte.of_Z (Z.of_N (16 * a + b)) :: bs)
          | _, _, _ => None
          end
      | _ => None
      end
  end.

(** The unconsumed bytes of the input window: [bytes_left] bytes from
    [read_ptr]. *)
Definition window (l : PlayLocals) : list byte :=
  match read_ptr l with
  | Some p => bytes_from (mp3_input_buffer l) p (bytes_left l)
  | None => []
  end.

(** Where [read_ptr] and [bytes_left] stay inside the window buffer. *)
Definition window_ok (l : PlayLocals) : Prop :=
  Z.of_nat (List.length (mp3_input_buffer l)) = MP3_INPUT_SIZE
  /\ 0 <= bytes_left l
  /\ match read_ptr l with
     | Some p => 0 <= p /\ p + bytes_left l <= MP3_INPUT_SIZE
     | None => bytes_left l = 0
     end.

(** A task remainder that sets neither run flag. *)
Definition leaves_stopped (rest : M unit) : Prop :=
  forall s s', rest s = Done tt s' ->
    is_downloading_ s = false -> is_playing_ s = false ->
    is_downloading_ s' = false /\ is_playing_ s' = false.

(** What a turn of the consumer's loop does when the device is not
    idle. *)
Definition busy_turn_events (e : PlayEnv) : list event :=
  match device_state e with
  | kDeviceStateListening | kDeviceStateSpeaking => [EvToggleChatState; EvDelay 300]
  | kDeviceStateOther => [EvDelay 50]
  | kDeviceStateIdle => []
  end.



(** * Properties *)

Arguments MAX_BUFFER_SIZE : simpl never.
Arguments MIN_BUFFER_SIZE : simpl never.
Arguments READ_CHUNK_SIZE : simpl never.
Arguments MP3_INPUT_SIZE : simpl never.
Arguments size_t_wrap : simpl never.
Arguments uint32_wrap : simpl never.
Arguments int_cast : simpl never.
Arguments int16_cast : simpl never.
Arguments bytes_from : simpl never.
Arguments memcmp_is : simpl never.
Arguments read_u16 : simpl never.
Arguments read_u32 : simpl never.
Arguments read_i16 : simpl never.
Arguments SkipId3Tag : simpl never.

Lemma MAX_BUFFER_SIZE_eq : MAX_BUFFER_SIZE = 131072.
Proof. reflexivity. Qed.
Lemma MIN_BUFFER_SIZE_eq : MIN_BUFFER_SIZE = 16384.
Proof. reflexivity. Qed.
Lemma READ_CHUNK_SIZE_eq : READ_CHUNK_SIZE = 4096.
Proof. reflexivity. Qed.
Lemma MP3_INPUT_SIZE_eq : MP3_INPUT_SIZE = 8192.
Proof. reflexivity. Qed.

(** Brings the values of the constants to [lia]. *)
Ltac consts :=
  pose proof MAX_BUFFER_SIZE_eq; pose proof MIN_BUFFER_SIZE_eq;
  pose proof READ_CHUNK_SIZE_eq; pose proof MP3_INPUT_SIZE_eq.

Ltac run :=
  repeat (cbv beta iota delta
            [bind ret gets modify emit fault out_of_fuel lock unlock lock_guard
             cv_wait notify_all notify_one vTaskDelay heap_caps_free
             ResetSampleRate]; cbn).

Lemma queued_bytes_app q c :
  queued_bytes (q ++ [c]) = queued_bytes q + size c.
Proof.
  induction q as [|x q IH]; simpl; [lia|]. rewrite IH. lia.
Qed.

Lemma queued_bytes_nonneg q :
  Forall (fun c => 0 < size c <= READ_CHUNK_SIZE) q -> 0 <= queued_bytes q.
Proof.
  induction 1; simpl; lia.
Qed.

Arguments queued_bytes : simpl never.

Lemma size_t_wrap_small z : 0 <= z < 2 ^ 32 -> size_t_wrap z = z.
Proof. intros H. unfold size_t_wrap. apply Z.mod_small. exact H. Qed.

(** The loop of ClearAudioBuffer empties the queue and touches nothing
    else but the trace. *)
Lemma clear_loop_done q : forall s,
  audio_buffer_ s = q ->
  exists s', clear_loop q s = Done tt s'
    /\ audio_buffer_ s' = []
    /\ buffer_mutex_ s' = buffer_mutex_ s
    /\ is_downloading_ s' = is_downloading_ s
    /\ is_playing_ s' = is_playing_ s
    /\ buffer_size_ s' = buffer_size_ s.
Proof.
  induction q as [|c q IH]; intros s Hq.
  - exists s. simpl. unfold ret. repeat split. exact Hq.
  - simpl. run.
    match goal with |- context [clear_loop q ?s0] =>
      destruct (IH s0 eq_refl) as (s' & E & Hq' & Hm & Hd & Hp & Hs) end.
    exists s'. rewrite E. cbn in *.
    repeat split; assumption.
Qed.

(** ClearAudioBuffer, entered with the mutex free, returns with an
    empty queue and a byte count of zero. *)
Lemma ClearAudioBuffer_done s :
  buffer_mutex_ s = false ->
  exists s', ClearAudioBuffer s = Done tt s'
    /\ audio_buffer_ s' = []
    /\ buffer_size_ s' = 0
    /\ buffer_mutex_ s' = false
    /\ is_downloading_ s' = is_downloading_ s
    /\ is_playing_ s' = is_playing_ s.
Proof.
  intros Hm. unfold ClearAudioBuffer. run. rewrite Hm. cbn.
  match goal with |- context [clear_loop ?q ?s0] =>
    destruct (clear_loop_done q s0 eq_refl) as (s1 & E & Hq & _ & Hd & Hp & _) end.
  rewrite E. cbn. eexists. split; [reflexivity|]. cbn.
  repeat split; assumption.
Qed.

(** ClearAudioBuffer, entered by a thread that holds the mutex, does not
    return. *)
Lemma ClearAudioBuffer_relock s :
  buffer_mutex_ s = true -> ClearAudioBuffer s = Deadlock s.
Proof.
  intros Hm. unfold ClearAudioBuffer. run. rewrite Hm. reflexivity.
Qed.

Section QueueSteps.

Variable s : Esp32Sing.
Hypothesis Hok : queue_ok s.

Lemma push_done d n :
  is_downloading_ s = true -> buffer_size_ s < MAX_BUFFER_SIZE -> 0 < n <= READ_CHUNK_SIZE ->
  exists s', push_chunk d n s = Done PushDone s'
    /\ audio_buffer_ s' = audio_buffer_ s ++ [mkChunk d n]
    /\ buffer_size_ s' = buffer_size_ s + n
    /\ is_downloading_ s' = true
    /\ trace_ s' = trace_ s ++ [EvNotifyOne]
    /\ queue_ok s'.
Proof.
  intros Hd Hlt Hn. destruct Hok as [Hm Hc Hs Hb].
  assert (Hnn : 0 <= buffer_size_ s)
    by (rewrite Hs; apply queued_bytes_nonneg; exact Hc).
  unfold push_chunk, push_ready. run. rewrite Hm. cbn.
  apply Z.ltb_lt in Hlt. rewrite Hlt. cbn. rewrite Hd. cbn.
  apply Z.ltb_lt in Hlt. consts.
  rewrite size_t_wrap_small by lia.
  eexists. split; [reflexivity|]. cbn.
  repeat split; try reflexivity; try assumption; cbn.
  - apply Forall_app. split; [exact Hc|]. constructor; [cbn; lia | constructor].
  - rewrite queued_bytes_app. cbn. lia.
  - lia.
Qed.

Lemma push_blocked d n :
  is_downloading_ s = true -> MAX_BUFFER_SIZE <= buffer_size_ s ->
  push_chunk d n s = Blocked s.
Proof.
  intros Hd Hge. destruct Hok as [Hm _ _ _].
  unfold push_chunk, push_ready. run. rewrite Hm. cbn.
  apply Z.ltb_ge in Hge. rewrite Hge, Hd. cbn.
  f_equal. destruct s; cbn in *. subst. reflexivity.
Qed.

Lemma push_dropped d n :
  is_downloading_ s = false ->
  exists s', push_chunk d n s = Done PushDropped s'
    /\ audio_buffer_ s' = audio_buffer_ s
    /\ buffer_size_ s' = buffer_size_ s
    /\ queue_ok s'.
Proof.
  intros Hd. destruct Hok as [Hm Hc Hs Hb].
  unfold push_chunk, push_ready. run. rewrite Hm. cbn. rewrite Hd.
  rewrite orb_true_r. cbn. rewrite Hd.
  eexists. split; [reflexivity|]. cbn.
  repeat split; try reflexivity; assumption.
Qed.

Lemma pop_finished :
  audio_buffer_ s = [] -> is_downloading_ s = false ->
  pop_chunk s = Done PopFinished s.
Proof.
  intros Hq Hd. destruct Hok as [Hm _ _ _].
  unfold pop_chunk, queue_empty. run. rewrite Hm. cbn. rewrite Hq. cbn.
  rewrite Hd. cbn.
  f_equal. destruct s; cbn in *. subst. reflexivity.
Qed.

Lemma pop_blocked :
  audio_buffer_ s = [] -> is_downloading_ s = true ->
  pop_chunk s = Blocked s.
Proof.
  intros Hq Hd. destruct Hok as [Hm _ _ _].
  unfold pop_chunk, pop_ready, queue_empty. run. rewrite Hm. cbn.
  rewrite Hq. cbn. rewrite Hd. cbn. rewrite Hq, Hd. cbn.
  f_equal. destruct s; cbn in *. subst. reflexivity.
Qed.

Lemma pop_front c q :
  audio_buffer_ s = c :: q ->
  exists s', pop_chunk s = Done (PopChunk c) s'
    /\ audio_buffer_ s' = q
    /\ buffer_size_ s' = buffer_size_ s - size c
    /\ is_downloading_ s' = is_downloading_ s
    /\ trace_ s' = trace_ s ++ [EvNotifyOne]
    /\ queue_ok s'
    /\ wav_mode_ s' = wav_mode_ s
    /\ wav_header_parsed_ s' = wav_header_parsed_ s
    /\ wav_channels_ s' = wav_channels_ s
    /\ wav_sample_rate_ s' = wav_sample_rate_ s.
Proof.
  intros Hq. destruct Hok as [Hm Hc Hs Hb].
  rewrite Hq in Hc, Hs. inversion Hc as [|? ? Hc1 Hc2]; subst.
  pose proof (queued_bytes_nonneg _ Hc2) as Hnn.
  change (queued_bytes (c :: q)) with (size c + queued_bytes q) in Hs.
  unfold pop_chunk, take_front, queue_empty. run. rewrite Hm. cbn.
  rewrite Hq. cbn. rewrite Hq. cbn.
  consts.
  rewrite size_t_wrap_small by lia.
  eexists. split; [reflexivity|]. cbn.
  repeat split; try reflexivity; try assumption; cbn; lia.
Qed.

Lemma clear_done :
  exists s', ClearAudioBuffer s = Done tt s'
    /\ audio_buffer_ s' = []
    /\ buffer_size_ s' = 0
    /\ queue_ok s'.
Proof.
  destruct Hok as [Hm _ _ _].
  destruct (ClearAudioBuffer_done s Hm) as (s' & E & Hq & Hs & Hm' & _).
  exists s'. repeat split; try assumption.
  - rewrite Hq. constructor.
  - rewrite Hq, Hs. reflexivity.
  - rewrite Hs. consts. lia.
Qed.

End QueueSteps.

Lemma apply_op_ok s op : queue_ok s -> op_ok op -> queue_ok (apply_op s op).
Proof.
  intros Hok Hop. destruct op as [d n| | |b]; cbn.
  - destruct (is_downloading_ s) eqn:Hd.
    + destruct (Z.lt_ge_cases (buffer_size_ s) MAX_BUFFER_SIZE) as [Hlt|Hge].
      * destruct (push_done s Hok d n Hd Hlt Hop) as (s' & E & _ & _ & _ & _ & H').
        rewrite E. exact H'.
      * rewrite (push_blocked s Hok d n Hd Hge). exact Hok.
    + destruct (push_dropped s Hok d n Hd) as (s' & E & _ & _ & H').
      rewrite E. exact H'.
  - destruct (audio_buffer_ s) as [|c q] eqn:Hq.
    + destruct (is_downloading_ s) eqn:Hd.
      * rewrite (pop_blocked s Hok Hq Hd). exact Hok.
      * rewrite (pop_finished s Hok Hq Hd). exact Hok.
    + destruct (pop_front s Hok c q Hq) as (s' & E & _ & _ & _ & _ & H' & _).
      rewrite E. exact H'.
  - destruct (clear_done s Hok) as (s' & E & _ & _ & H'). rewrite E. exact H'.
  - destruct Hok as [Hm Hc Hs Hb]. split; assumption.
Qed.

Lemma run_ops_ok ops : forall s,
  queue_ok s -> Forall op_ok ops -> queue_ok (run_ops ops s).
Proof.
  induction ops as [|op ops IH]; intros s Hok Hall; cbn.
  - exact Hok.
  - inversion Hall; subst. apply IH; [apply apply_op_ok|]; assumption.
Qed.

Lemma Esp32Sing_new_ok : queue_ok Esp32Sing_new.
Proof.
  split; cbn; [reflexivity | constructor | reflexivity | reflexivity].
Qed.

(** C1.  After every sequence of push, pop and clear operations (and
    changes of the producer flag) on a well-formed queue, the tracked
    byte count [buffer_size_] equals the sum of the lengths of the
    resident chunks and is not negative; from there a push adds the
    chunk's length, a pop subtracts the popped chunk's length, and a
    clear empties the queue and resets the count to zero. *)
Theorem queue_size_tracks_resident_chunks (ops : list queue_op) (s0 : Esp32Sing) :
  queue_ok s0 -> Forall op_ok ops -> queue_contract (run_ops ops s0).
Proof.
  intros H0 Hops.
  pose proof (run_ops_ok ops s0 H0 Hops) as Hok.
  set (s := run_ops ops s0) in *.
  pose proof Hok as [Hm Hc Hs Hb].
  split; [exact Hs|].
  split; [rewrite Hs; apply queued_bytes_nonneg; exact Hc|].
  split; [|split].
  - intros d n Hn Hd Hlt.
    destruct (push_done s Hok d n Hd Hlt Hn) as (s' & E & Hq & Hz & _).
    exists s'. auto.
  - intros c q Hq.
    destruct (pop_front s Hok c q Hq) as (s' & E & Hq' & Hz & _).
    exists s'. auto.
  - destruct (clear_done s Hok) as (s' & E & Hq & Hz & _).
    exists s'. auto.
Qed.

Lemma queue_size_tracks_resident_chunks_witness :
  queue_ok Esp32Sing_new /\ Forall op_ok sample_ops
  /\ queue_contract (run_ops sample_ops Esp32Sing_new).
Proof.
  assert (H0 : queue_ok Esp32Sing_new) by exact Esp32Sing_new_ok.
  assert (H1 : Forall op_ok sample_ops).
  { unfold sample_ops. repeat constructor; cbn; rewrite READ_CHUNK_SIZE_eq; lia. }
  split; [exact H0|]. split; [exact H1|].
  exact (queue_size_tracks_resident_chunks sample_ops Esp32Sing_new H0 H1).
Defined.

(** The run of [sample_ops] on a fresh object, evaluated. *)
Example sample_ops_run :
  let s := run_ops (firstn 4 sample_ops) Esp32Sing_new in
  map size (audio_buffer_ s) = [2] /\ buffer_size_ s = 2.
Proof. vm_compute. split; reflexivity. Qed.

Lemma set_mutex_twice b s :
  buffer_mutex_ s = false -> set_buffer_mutex_ false (set_buffer_mutex_ b s) = s.
Proof. intros H. destruct s; cbn in *. subst. reflexivity. Qed.

(** A consumer woken in the pop's wait goes back to sleep exactly when
    the queue is still empty and the producer still active. *)
Lemma pop_resume_blocked_iff s :
  buffer_mutex_ s = false ->
  (pop_resume s = Blocked s <-> audio_buffer_ s = [] /\ is_downloading_ s = true).
Proof.
  intros Hm. unfold pop_resume, pop_after_wait, take_front, pop_ready, queue_empty.
  run. rewrite Hm. cbn.
  destruct (audio_buffer_ s) as [|c q] eqn:Hq; cbn.
  - destruct (is_downloading_ s) eqn:Hd; cbn.
    + rewrite set_mutex_twice by exact Hm. split; auto.
    + repeat (rewrite Hq; cbn).
      split; intros H; [discriminate H | destruct H; discriminate].
  - repeat (rewrite Hq; cbn).
    split; intros H; [discriminate H | destruct H; discriminate].
Qed.

(** Woken with an empty queue and a stopped producer, the consumer
    goes round its loop once more. *)
Lemma pop_resume_retry s :
  buffer_mutex_ s = false -> audio_buffer_ s = [] -> is_downloading_ s = false ->
  pop_resume s = Done PopRetry s.
Proof.
  intros Hm Hq Hd. unfold pop_resume, pop_after_wait, pop_ready, queue_empty.
  run. rewrite Hm. cbn. rewrite Hq. cbn. rewrite Hd. cbn. rewrite Hq. cbn.
  rewrite set_mutex_twice by exact Hm. reflexivity.
Qed.

(** C3.  With the producer flag false and the queue empty the pop
    reports end-of-stream at once, without waiting and without changing
    the object; with the queue empty and the producer active it waits,
    and is let through exactly when the queue is non-empty or the
    producer has stopped; otherwise it removes the front chunk (the
    queue is first-in first-out: a push appends at the back), lowers
    the byte count by that chunk's length and wakes one waiter. *)
Theorem pop_end_of_stream_wait_or_front (s : Esp32Sing) :
  queue_ok s -> pop_contract s.
Proof.
  intros Hok. split; [|split].
  - intros Hd Hq. apply pop_finished; assumption.
  - intros Hd Hq. split.
    + apply pop_blocked; assumption.
    + intros s' Hm. apply pop_resume_blocked_iff. exact Hm.
  - intros c q Hq.
    destruct (pop_front s Hok c q Hq) as (s' & E & Hq' & Hz & _ & Ht & _).
    exists s'. auto.
Qed.

Lemma pop_end_of_stream_wait_or_front_witness :
  queue_ok Esp32Sing_new /\ pop_contract Esp32Sing_new.
Proof.
  split; [exact Esp32Sing_new_ok|].
  apply (pop_end_of_stream_wait_or_front Esp32Sing_new). exact Esp32Sing_new_ok.
Defined.

(** Chunks leave in the order they came: after pushes of [a] then [b]
    into an empty queue, two pops return [a] then [b]. *)
Example pop_order :
  let s := run_ops [OpSetDownloading true; OpPush [Byte.x01] 1; OpPush [Byte.x02; Byte.x03] 2]
                   Esp32Sing_new in
  exists s1 s2,
    pop_chunk s = Done (PopChunk (mkChunk [Byte.x01] 1)) s1
    /\ pop_chunk s1 = Done (PopChunk (mkChunk [Byte.x02; Byte.x03] 2)) s2
    /\ audio_buffer_ s2 = [] /\ buffer_size_ s2 = 0.
Proof.
  cbv zeta. eexists. eexists.
  split; [vm_compute; reflexivity|].
  split; [vm_compute; reflexivity|].
  split; reflexivity.
Qed.

(** The priming wait lets the consumer through exactly when the byte
    count has reached [MIN_BUFFER_SIZE], or the producer has finished
    and left at least one chunk. *)
Lemma priming_wait_passes_iff s :
  buffer_mutex_ s = false ->
  (priming_wait s = Done tt s
   <-> MIN_BUFFER_SIZE <= buffer_size_ s
       \/ (is_downloading_ s = false /\ audio_buffer_ s <> [])).
Proof.
  intros Hm. unfold priming_wait, priming_ready, queue_empty. run.
  rewrite Hm. cbn.
  destruct (Z.leb_spec MIN_BUFFER_SIZE (buffer_size_ s)) as [Hge|Hlt]; cbn.
  - rewrite set_mutex_twice by exact Hm. split; auto.
  - destruct (is_downloading_ s); cbn.
    + split; [discriminate|]. intros [H|[H _]]; [lia | discriminate].
    + destruct (audio_buffer_ s); cbn.
      * split; [discriminate|]. intros [H|[_ H]]; [lia | congruence].
      * rewrite set_mutex_twice by exact Hm. split; [|reflexivity].
        intros _. right. split; [reflexivity | discriminate].
Qed.

(** When it does not let the consumer through, the consumer is parked. *)
Lemma priming_wait_blocked s :
  buffer_mutex_ s = false ->
  buffer_size_ s < MIN_BUFFER_SIZE ->
  audio_buffer_ s = [] ->
  priming_wait s = Blocked s.
Proof.
  intros Hm Hlt Hq. unfold priming_wait, priming_ready, queue_empty. run.
  rewrite Hm. cbn. apply Z.leb_gt in Hlt. rewrite Hlt, Hq. cbn.
  rewrite andb_false_r. rewrite set_mutex_twice by exact Hm. reflexivity.
Qed.

(** C2, on the code.  In a session whose transport open fails twice the
    producer finishes with the queue empty, and the consumer then stays
    parked at the priming wait of PlayAudioStream: the wait's predicate
    asks for a resident chunk besides the finished producer.  A
    StopStreaming that follows clears the flags, notifies, and waits in
    its join of the play thread without end.  The document has the
    consumer proceed here. *)
Theorem priming_wait_parks_consumer_when_producer_finished_empty :
  exists s,
    open_failure_session = Done tt s
    /\ is_downloading_ s = false
    /\ is_playing_ s = true
    /\ audio_buffer_ s = []
    /\ buffer_size_ s = 0
    /\ priming_wait s = Blocked s
    /\ (forall heap display fuel envs,
          PlayAudioStream true true heap display fuel envs s = Blocked s)
    /\ exists s',
         StopStreaming (ret tt) (PlayAudioStream true true None true 0 []) s
         = Blocked s'
         /\ is_playing_ s' = false /\ play_thread_ s' = true.
Proof.
  eexists. split; [vm_compute; reflexivity|].
  do 5 (split; [reflexivity|]).
  split; [intros heap display fuel envs; reflexivity|].
  eexists. split; [vm_compute; reflexivity|]. split; reflexivity.
Qed.

(** ** The metadata tag *)

Lemma lor_add_disjoint a b n :
  0 <= n -> a mod 2 ^ n = 0 -> 0 <= b < 2 ^ n -> Z.lor a b = a + b.
Proof.
  intros Hn Ha Hb.
  rewrite <- (Z.add_lor_land a b).
  replace (Z.land a b) with 0; [lia|].
  symmetry. apply Z.bits_inj'. intros i Hi.
  rewrite Z.land_spec, Z.bits_0.
  destruct (Z.lt_ge_cases i n) as [Hlt|Hge].
  - rewrite <- (Z.mod_pow2_bits_low a n i) by lia.
    rewrite Ha, Z.bits_0. reflexivity.
  - destruct (Z.eq_dec b 0) as [->|Hb0]; [rewrite Z.bits_0; apply andb_false_r|].
    rewrite (Z.bits_above_log2 b i); [apply andb_false_r | lia |].
    apply Z.log2_lt_pow2; [lia|].
    apply Z.lt_le_trans with (2 ^ n); [lia|]. apply Z.pow_le_mono_r; lia.
Qed.

(** The four masked bytes are the base-128 digits of the size, most
    significant first. *)
Lemma synchsafe_sum b6 b7 b8 b9 :
  synchsafe b6 b7 b8 b9 =
  (b6 mod 128) * 2 ^ 21 + (b7 mod 128) * 2 ^ 14 + (b8 mod 128) * 2 ^ 7 + b9 mod 128.
Proof.
  unfold synchsafe. change 127 with (Z.ones 7).
  rewrite !Z.land_ones by lia. rewrite !Z.shiftl_mul_pow2 by lia.
  change (2 ^ 7) with 128.
  pose proof (Z.mod_pos_bound b6 128 eq_refl).
  pose proof (Z.mod_pos_bound b7 128 eq_refl).
  pose proof (Z.mod_pos_bound b8 128 eq_refl).
  pose proof (Z.mod_pos_bound b9 128 eq_refl).
  set (x6 := b6 mod 128) in *. set (x7 := b7 mod 128) in *.
  set (x8 := b8 mod 128) in *. set (x9 := b9 mod 128) in *.
  change (2 ^ 21) with 2097152. change (2 ^ 14) with 16384.
  rewrite (lor_add_disjoint (x6 * 2097152) (x7 * 16384) 21);
    [|lia | apply Z.mod_mul; lia | change (2 ^ 21) with 2097152; lia].
  rewrite (lor_add_disjoint _ (x8 * 128) 14);
    [|lia | change (2 ^ 14) with 16384; Z.div_mod_to_equations; lia
      | change (2 ^ 14) with 16384; lia].
  rewrite (lor_add_disjoint _ x9 7);
    [reflexivity | lia | change (2 ^ 7) with 128; Z.div_mod_to_equations; lia
      | change (2 ^ 7) with 128; lia].
Qed.

Lemma synchsafe_range b6 b7 b8 b9 : 0 <= synchsafe b6 b7 b8 b9 < 2 ^ 28.
Proof.
  rewrite synchsafe_sum.
  pose proof (Z.mod_pos_bound b6 128 eq_refl).
  pose proof (Z.mod_pos_bound b7 128 eq_refl).
  pose proof (Z.mod_pos_bound b8 128 eq_refl).
  pose proof (Z.mod_pos_bound b9 128 eq_refl).
  change (2 ^ 21) with 2097152. change (2 ^ 14) with 16384.
  change (2 ^ 7) with 128. change (2 ^ 28) with 268435456. lia.
Qed.

Lemma SkipId3Tag_tagged data size :
  10 <= size -> memcmp_is data 0 "ID3" = true ->
  SkipId3Tag data size
  = 10 + synchsafe (byte.unsigned (byte_at data 6)) (byte.unsigned (byte_at data 7))
                   (byte.unsigned (byte_at data 8)) (byte.unsigned (byte_at data 9)).
Proof.
  intros Hsize Hsig. unfold SkipId3Tag.
  apply Z.ltb_ge in Hsize. rewrite Hsize, Hsig. cbn [negb].
  match goal with |- context [synchsafe ?a ?b ?c ?d] =>
    pose proof (synchsafe_range a b c d) as Hr end.
  change (2 ^ 28) with 268435456 in Hr.
  rewrite (size_t_wrap_small (synchsafe _ _ _ _)) by (change (2 ^ 32) with 4294967296; lia).
  apply size_t_wrap_small. change (2 ^ 32) with 4294967296. lia.
Qed.

(** Without the signature, or with fewer than ten bytes, nothing is
    skipped. *)
Lemma SkipId3Tag_untagged data size :
  size < 10 \/ memcmp_is data 0 "ID3" = false -> SkipId3Tag data size = 0.
Proof.
  intros [H|H]; unfold SkipId3Tag.
  - apply Z.ltb_lt in H. rewrite H. reflexivity.
  - rewrite H. destruct (size <? 10); reflexivity.
Qed.

(** ** Reasoning about runs *)

Lemma bind_Done {A B} (m : M A) (k : A -> M B) s b s' :
  bind m k s = Done b s' ->
  exists a s0, m s = Done a s0 /\ k a s0 = Done b s'.
Proof.
  unfold bind. destruct (m s) as [a s0| | | |]; try discriminate.
  intros H. exists a, s0. split; [reflexivity | exact H].
Qed.

(** The sub-chunk loop never clears [id3_processed]. *)
Lemma wav_scan_step_id3 pos chunk id3 s r s' :
  wav_scan_step pos chunk id3 s = Done r s' ->
  id3 = true -> snd r = true.
Proof.
  unfold wav_scan_step. intros H Hid.
  destruct (2 ^ 32 <=? pos + 8); [discriminate H|].
  apply bind_Done in H. destruct H as (u & s1 & _ & H).
  apply bind_Done in H. destruct H as (r1 & s2 & H1 & H).
  inversion H; subst; clear H. cbn.
  destruct (memcmp_is (data chunk) pos "data").
  - apply bind_Done in H1. destruct H1 as (u1 & s3 & _ & H1).
    destruct (0 <? _) in H1; inversion H1; reflexivity.
  - inversion H1. reflexivity.
Qed.

Lemma wav_scan_id3 fuel : forall pos chunk id3 s r s',
  wav_scan fuel pos chunk id3 s = Done r s' ->
  id3 = true -> snd r = true.
Proof.
  induction fuel as [|fuel IH]; intros pos chunk id3 s r s' H Hid; cbn in H.
  - destruct (size_t_wrap (pos + 8) <=? size chunk); [discriminate H|].
    inversion H. exact Hid.
  - destruct (size_t_wrap (pos + 8) <=? size chunk).
    + apply bind_Done in H. destruct H as (r1 & s1 & H1 & H).
      destruct r1 as [[pos' chunk'] id3'].
      apply (IH _ _ _ _ _ _ H).
      apply (wav_scan_step_id3 _ _ _ _ _ _ H1 Hid).
    + inversion H. exact Hid.
Qed.

Lemma detect_wav_id3 fuel chunk id3 s r s' :
  detect_wav fuel chunk id3 s = Done r s' ->
  id3 = true -> snd r = true.
Proof.
  unfold detect_wav. intros H Hid.
  apply bind_Done in H. destruct H as (parsed & s1 & _ & H).
  destruct (negb parsed); [|inversion H; exact Hid].
  destruct (wav_signature chunk); [|inversion H; exact Hid].
  apply bind_Done in H. destruct H as (u & s2 & _ & H).
  apply (wav_scan_id3 _ _ _ _ _ _ _ H Hid).
Qed.

Lemma skip_tag_id3_once buf n id3 wav skips :
  (List.length skips <= 1)%nat -> (id3 = false -> skips = []) ->
  id3_once (skip_tag buf n id3 wav skips).
Proof.
  intros Hlen Hnil. unfold skip_tag.
  destruct id3; cbn [negb andb].
  - split; [exact Hlen | discriminate].
  - rewrite (Hnil eq_refl).
    destruct (negb wav && (10 <=? n)).
    + destruct (0 <? SkipId3Tag buf (size_t_wrap n)); split; cbn; try lia; discriminate.
    + split; cbn; [lia | reflexivity].
Qed.

Lemma ret_Done {A} (a b : A) s s' : ret a s = Done b s' -> a = b /\ s = s'.
Proof. intros H. inversion H. split; reflexivity. Qed.

Lemma feed_chunk_id3_once fuel chunk l s l' s' :
  feed_chunk fuel chunk l s = Done l' s' -> id3_once l -> id3_once l'.
Proof.
  unfold feed_chunk. intros H [Hlen Hnil].
  destruct (0 <? size chunk);
    [|apply ret_Done in H; destruct H as [<- _]; split; assumption].
  apply bind_Done in H. destruct H as (r & s1 & Hdet & H).
  pose proof (detect_wav_id3 _ _ _ _ _ _ Hdet) as Hmono.
  destruct r as [chunk1 id3]. cbn in Hmono.
  apply bind_Done in H. destruct H as (buf0 & s2 & _ & H).
  apply bind_Done in H. destruct H as (src & s3 & _ & H).
  apply bind_Done in H. destruct H as (buf & s4 & _ & H).
  apply bind_Done in H. destruct H as (wav & s5 & _ & H).
  apply bind_Done in H. destruct H as (u & s6 & _ & H).
  apply ret_Done in H. destruct H as [<- _].
  apply skip_tag_id3_once; [exact Hlen|].
  intros Hid3. apply Hnil.
  destruct (id3_processed l); [|reflexivity].
  rewrite Hmono in Hid3 by reflexivity. discriminate Hid3.
Qed.

Lemma play_wav_id3_once l s l' s' :
  play_wav l s = Done l' s' -> id3_once l -> id3_once l'.
Proof.
  unfold play_wav. intros H Hinv.
  destruct (0 <? bytes_left l).
  - destruct (read_ptr l); [|discriminate H].
    apply bind_Done in H. destruct H as (w & s1 & _ & H).
    apply bind_Done in H. destruct H as (c & s2 & _ & H).
    apply bind_Done in H. destruct H as (r & s3 & _ & H).
    apply bind_Done in H. destruct H as (u & s4 & _ & H).
    inversion H; subst. exact Hinv.
  - apply bind_Done in H. destruct H as (u & s1 & _ & H).
    inversion H; subst. exact Hinv.
Qed.

Lemma play_mp3_id3_once e l s c l' s' :
  play_mp3 e l s = Done (c, l') s' -> id3_once l -> id3_once l'.
Proof.
  unfold play_mp3. intros H Hinv.
  apply bind_Done in H. destruct H as (i & s1 & _ & H).
  apply bind_Done in H. destruct H as (ok & s2 & _ & H).
  destruct (negb ok).
  { apply bind_Done in H. destruct H as (u & s3 & _ & H).
    inversion H; subst. exact Hinv. }
  destruct (sync_offset e <? 0); [inversion H; subst; exact Hinv|].
  destruct (decode_result e =? 0).
  - destruct (_ || _); [inversion H; subst; exact Hinv|].
    apply bind_Done in H. destruct H as (u & s3 & _ & H).
    inversion H; subst. exact Hinv.
  - apply bind_Done in H. destruct H as (u & s3 & _ & H).
    inversion H; subst. exact Hinv.
Qed.

Lemma fetch_id3_once fuel l s r s' :
  fetch fuel l s = Done r s' -> id3_once l -> id3_once (snd r).
Proof.
  unfold fetch. intros H Hinv.
  destruct (bytes_left l <? 4096); [|inversion H; exact Hinv].
  apply bind_Done in H. destruct H as (p & s3 & _ & H).
  destruct p as [| |chunk]; try (inversion H; exact Hinv).
  apply bind_Done in H. destruct H as (l1 & s4 & Hfeed & H).
  inversion H; subst. cbn.
  apply (feed_chunk_id3_once _ _ _ _ _ _ Hfeed Hinv).
Qed.

Lemma decode_and_send_id3_once e l s c l' s' :
  decode_and_send e l s = Done (c, l') s' -> id3_once l -> id3_once l'.
Proof.
  unfold decode_and_send. intros H Hinv.
  apply bind_Done in H. destruct H as (wav & s3 & _ & H).
  destruct wav.
  - apply bind_Done in H. destruct H as (l2 & s4 & Hwav & H).
    inversion H; subst. apply (play_wav_id3_once _ _ _ _ Hwav Hinv).
  - apply (play_mp3_id3_once _ _ _ _ _ _ H Hinv).
Qed.

Lemma play_iteration_id3_once fuel e l s c l' s' :
  play_iteration fuel e l s = Done (c, l') s' -> id3_once l -> id3_once l'.
Proof.
  unfold play_iteration. intros H Hinv.
  destruct (device_state e).
  - apply bind_Done in H. destruct H as (u & s1 & _ & H).
    apply bind_Done in H. destruct H as (r & s2 & Hfetch & H).
    pose proof (fetch_id3_once _ _ _ _ _ Hfetch Hinv) as Hr.
    destruct r as [[ctl|] l1]; cbn in Hr.
    + inversion H; subst. exact Hr.
    + apply (decode_and_send_id3_once _ _ _ _ _ _ H Hr).
  - apply bind_Done in H. destruct H as (u & s1 & _ & H).
    apply bind_Done in H. destruct H as (v & s2 & _ & H).
    inversion H; subst. exact Hinv.
  - apply bind_Done in H. destruct H as (u & s1 & _ & H).
    apply bind_Done in H. destruct H as (v & s2 & _ & H).
    inversion H; subst. exact Hinv.
  - apply bind_Done in H. destruct H as (u & s1 & _ & H).
    inversion H; subst. exact Hinv.
Qed.

Lemma play_loop_id3_once fuel envs : forall l s l' s',
  play_loop fuel envs l s = Done l' s' -> id3_once l -> id3_once l'.
Proof.
  induction envs as [|e envs IH]; intros l s l' s' H Hinv; cbn [play_loop] in H.
  - apply bind_Done in H. destruct H as (playing & s1 & _ & H).
    destruct playing; [discriminate H | inversion H; subst; exact Hinv].
  - apply bind_Done in H. destruct H as (playing & s1 & _ & H).
    destruct playing; [|inversion H; subst; exact Hinv].
    apply bind_Done in H. destruct H as (r & s2 & Hit & H).
    destruct r as [[|] l1].
    + apply (IH _ _ _ _ H).
      apply (play_iteration_id3_once _ _ _ _ _ _ _ Hit Hinv).
    + inversion H; subst.
      apply (play_iteration_id3_once _ _ _ _ _ _ _ Hit Hinv).
Qed.

(** C7.  For every buffer of at least 10 bytes that begins with the
    signature ID3, SkipId3Tag returns 10 plus the 28-bit synchsafe
    integer made of the low 7 bits of bytes 6 to 9, most significant
    first; the size bytes 00 00 02 01 give a skip of 267; and one
    invocation of PlayAudioStream (one session) asks for this skip at
    most once. *)
Theorem id3_skip_value_and_once : id3_contract.
Proof.
  split; [|split].
  - intros data size Hsize Hsig b. split; [|split].
    + apply SkipId3Tag_tagged; assumption.
    + apply synchsafe_sum.
    + apply synchsafe_range.
  - vm_compute. reflexivity.
  - intros fuel envs heap s l' s' H.
    apply (play_loop_id3_once _ _ _ _ _ _ H).
    split; cbn; [lia | reflexivity].
Qed.

Lemma id3_skip_value_and_once_witness :
  10 <= 10
  /\ memcmp_is (id3_header Byte.x00 Byte.x00 Byte.x02 Byte.x01) 0 "ID3" = true
  /\ SkipId3Tag (id3_header Byte.x00 Byte.x00 Byte.x02 Byte.x01) 10
     = 10 + synchsafe 0 0 2 1.
Proof.
  split; [lia|]. split; [reflexivity|].
  destruct id3_skip_value_and_once as [Hvalue _].
  destruct (Hvalue (id3_header Byte.x00 Byte.x00 Byte.x02 Byte.x01) 10
                   ltac:(lia) eq_refl) as [H _].
  exact H.
Defined.

(** Two chunks that both begin with a tag: the first tag is skipped (11
    bytes), the second is handed to the decoder as it is. *)
Example second_tag_not_skipped :
  exists l' s',
    play_loop 0 [idle_no_sync; idle_no_sync; idle_no_sync]
              (PlayLocals_new (repeat Byte.x00 (Z.to_nat MP3_INPUT_SIZE))) two_tagged_chunks
    = Done l' s'
    /\ id3_skips l' = [11] /\ audio_buffer_ s' = [].
Proof.
  eexists. eexists. split; [vm_compute; reflexivity|].
  split; reflexivity.
Qed.

(** ** The WAV container *)

Lemma bytes_eqb_eq a : forall b, bytes_eqb a b = true <-> a = b.
Proof.
  induction a as [|x a IH]; intros [|y b]; cbn; split; intros H;
    try reflexivity; try discriminate.
  - apply andb_true_iff in H. destruct H as [Hx Hab].
    apply Byte.byte_dec_bl in Hx. apply IH in Hab. subst. reflexivity.
  - inversion H; subst. apply andb_true_iff. split.
    + apply Byte.byte_dec_lb. reflexivity.
    + apply IH. reflexivity.
Qed.

(** The same four bytes cannot be both of two different tags. *)
Lemma memcmp_is_exclusive d pos (a b : string) :
  String.length a = String.length b ->
  list_byte_of_string a <> list_byte_of_string b ->
  memcmp_is d pos a = true -> memcmp_is d pos b = false.
Proof.
  unfold memcmp_is. intros Hlen Hne Ha.
  apply bytes_eqb_eq in Ha.
  destruct (bytes_eqb _ (list_byte_of_string b)) eqn:Hb; [|reflexivity].
  apply bytes_eqb_eq in Hb. rewrite Hlen in Ha. congruence.
Qed.

Lemma fmt_is_not_data d pos :
  memcmp_is d pos "fmt " = true -> memcmp_is d pos "data" = false.
Proof.
  apply memcmp_is_exclusive; [reflexivity | discriminate].
Qed.

Section ScanStep.

Variables (pos : Z) (chunk : SingAudioChunk) (id3 : bool) (s : Esp32Sing).
Hypothesis Hpos : pos + 8 < 2 ^ 32.

Lemma wav_scan_step_fmt :
  memcmp_is (data chunk) pos "fmt " = true ->
  pos + 24 <= size chunk -> 0 <= pos -> size chunk < 2 ^ 32 ->
  wav_scan_step pos chunk id3 s
  = Done (next_subchunk chunk pos, chunk, id3)
         (set_wav_bits_per_sample_ (read_u16 (data chunk) (pos + 22))
            (set_wav_sample_rate_ (int_cast (read_u32 (data chunk) (pos + 12)))
               (set_wav_channels_ (read_u16 (data chunk) (pos + 10)) s))).
Proof.
  intros Hfmt Hlen H0 Hsz. unfold wav_scan_step.
  apply Z.leb_gt in Hpos. rewrite Hpos. rewrite Hfmt.
  rewrite (fmt_is_not_data _ _ Hfmt).
  rewrite (size_t_wrap_small (pos + 8 + 16)) by lia.
  replace (pos + 8 + 16 <=? size chunk) with true by (symmetry; apply Z.leb_le; lia).
  reflexivity.
Qed.

Lemma wav_scan_step_short_fmt :
  memcmp_is (data chunk) pos "fmt " = true ->
  size chunk < pos + 24 -> 0 <= pos -> pos + 24 < 2 ^ 32 ->
  wav_scan_step pos chunk id3 s = Done (next_subchunk chunk pos, chunk, id3) s.
Proof.
  intros Hfmt Hlen H0 Hhi. unfold wav_scan_step.
  apply Z.leb_gt in Hpos. rewrite Hpos. rewrite Hfmt.
  rewrite (fmt_is_not_data _ _ Hfmt).
  apply Z.leb_gt in Hpos.
  rewrite (size_t_wrap_small (pos + 8 + 16)) by lia.
  replace (pos + 8 + 16 <=? size chunk) with false by (symmetry; apply Z.leb_gt; lia).
  reflexivity.
Qed.

Lemma wav_scan_step_data :
  memcmp_is (data chunk) pos "data" = true ->
  pos + 8 < size chunk ->
  wav_scan_step pos chunk id3 s
  = Done (next_subchunk chunk pos,
          mkChunk (bytes_from (data chunk) (pos + 8) (size chunk - (pos + 8))
                     ++ skipn (Z.to_nat (size chunk - (pos + 8))) (data chunk))
                  (size chunk - (pos + 8)),
          true)
         (set_wav_header_parsed_ true s).
Proof.
  intros Hdata Hlen. unfold wav_scan_step.
  apply Z.leb_gt in Hpos. rewrite Hpos. rewrite Hdata.
  destruct (memcmp_is (data chunk) pos "fmt ") eqn:Hfmt.
  { rewrite (fmt_is_not_data _ _ Hfmt) in Hdata. discriminate Hdata. }
  replace (pos + 8 <? size chunk) with true by (symmetry; apply Z.ltb_lt; lia).
  replace (0 <? size chunk - (pos + 8)) with true by (symmetry; apply Z.ltb_lt; lia).
  reflexivity.
Qed.

Lemma wav_scan_step_data_at_end :
  memcmp_is (data chunk) pos "data" = true ->
  size chunk <= pos + 8 ->
  wav_scan_step pos chunk id3 s
  = Done (next_subchunk chunk pos, mkChunk (data chunk) 0, true)
         (set_wav_header_parsed_ true s).
Proof.
  intros Hdata Hlen. unfold wav_scan_step.
  apply Z.leb_gt in Hpos. rewrite Hpos. rewrite Hdata.
  destruct (memcmp_is (data chunk) pos "fmt ") eqn:Hfmt.
  { rewrite (fmt_is_not_data _ _ Hfmt) in Hdata. discriminate Hdata. }
  replace (pos + 8 <? size chunk) with false by (symmetry; apply Z.ltb_ge; lia).
  reflexivity.
Qed.

Lemma wav_scan_step_other :
  memcmp_is (data chunk) pos "fmt " = false ->
  memcmp_is (data chunk) pos "data" = false ->
  wav_scan_step pos chunk id3 s = Done (next_subchunk chunk pos, chunk, id3) s.
Proof.
  intros Hfmt Hdata. unfold wav_scan_step.
  apply Z.leb_gt in Hpos. rewrite Hpos. rewrite Hfmt, Hdata.
  reflexivity.
Qed.

End ScanStep.

(** The scan leaves [wav_mode_] alone, however it ends. *)
Lemma wav_scan_step_wav_mode pos chunk id3 s :
  wav_mode_ (state_of (wav_scan_step pos chunk id3 s)) = wav_mode_ s.
Proof.
  unfold wav_scan_step.
  destruct (2 ^ 32 <=? pos + 8); [reflexivity|].
  destruct (memcmp_is (data chunk) pos "fmt ");
    destruct (memcmp_is (data chunk) pos "data");
    repeat match goal with
           | |- context [if ?c then _ else _] => destruct c
           end; reflexivity.
Qed.

Lemma wav_scan_wav_mode fuel : forall pos chunk id3 s,
  wav_mode_ (state_of (wav_scan fuel pos chunk id3 s)) = wav_mode_ s.
Proof.
  induction fuel as [|fuel IH]; intros pos chunk id3 s; cbn [wav_scan].
  - destruct (size_t_wrap (pos + 8) <=? size chunk); reflexivity.
  - destruct (size_t_wrap (pos + 8) <=? size chunk); [|reflexivity].
    unfold bind at 1.
    pose proof (wav_scan_step_wav_mode pos chunk id3 s) as Hstep.
    destruct (wav_scan_step pos chunk id3 s) as [[[pos' chunk'] id3'] s1|s1|s1|s1|s1];
      cbn in Hstep; cbn; try exact Hstep.
    rewrite IH. exact Hstep.
Qed.

Lemma detect_wav_unfold fuel chunk id3 s :
  wav_header_parsed_ s = false -> wav_signature chunk = true ->
  detect_wav fuel chunk id3 s = wav_scan fuel 12 chunk id3 (set_wav_mode_ true s).
Proof.
  intros Hp Hsig. unfold detect_wav. run. rewrite Hp, Hsig. reflexivity.
Qed.

Lemma detect_wav_skipped fuel chunk id3 s :
  wav_header_parsed_ s = true \/ wav_signature chunk = false ->
  detect_wav fuel chunk id3 s = Done (chunk, id3) s.
Proof.
  intros H. unfold detect_wav. run.
  destruct H as [H|H]; rewrite H; cbn; [reflexivity|].
  destruct (wav_header_parsed_ s); reflexivity.
Qed.

Lemma firstn_bytes_from_prefix (a b : list byte) n :
  n = Z.of_nat (List.length a) -> firstn (Z.to_nat n) (a ++ b) = a.
Proof.
  intros ->. rewrite Nat2Z.id. rewrite firstn_app, Nat.sub_diag.
  rewrite firstn_all. cbn. apply app_nil_r.
Qed.

Lemma bytes_from_length d off len :
  0 <= off -> 0 <= len -> off + len <= Z.of_nat (List.length d) ->
  List.length (bytes_from d off len) = Z.to_nat len.
Proof.
  intros H0 H1 H2. unfold bytes_from.
  rewrite firstn_length_le; [reflexivity|].
  rewrite length_skipn. lia.
Qed.

(** *** Reading inside a concatenation *)

Lemma bytes_from_app_skip (pre rest : list byte) off n :
  0 <= off ->
  bytes_from (pre ++ rest) (Z.of_nat (List.length pre) + off) n = bytes_from rest off n.
Proof.
  intros H. unfold bytes_from.
  replace (Z.to_nat (Z.of_nat (List.length pre) + off))
    with (List.length pre + Z.to_nat off)%nat by lia.
  rewrite skipn_app. rewrite skipn_all2 by lia.
  replace (List.length pre + Z.to_nat off - List.length pre)%nat with (Z.to_nat off) by lia.
  reflexivity.
Qed.

Lemma bytes_from_mid (pre x rest : list byte) off n :
  off = Z.of_nat (List.length pre) -> n = Z.of_nat (List.length x) ->
  bytes_from (pre ++ x ++ rest) off n = x.
Proof.
  intros -> ->.
  replace (Z.of_nat (List.length pre)) with (Z.of_nat (List.length pre) + 0) by lia.
  rewrite bytes_from_app_skip by lia. unfold bytes_from. cbn [Z.to_nat skipn].
  apply firstn_bytes_from_prefix. reflexivity.
Qed.

Lemma memcmp_is_mid (pre t rest : list byte) off lit :
  off = Z.of_nat (List.length pre) -> List.length t = String.length lit ->
  memcmp_is (pre ++ t ++ rest) off lit = bytes_eqb t (list_byte_of_string lit).
Proof.
  intros Hoff Hlen. unfold memcmp_is.
  rewrite (bytes_from_mid pre t rest) by (rewrite ?Hlen; auto). reflexivity.
Qed.

Lemma read_u32_mid (pre rest : list byte) off v :
  off = Z.of_nat (List.length pre) ->
  read_u32 (pre ++ le_split 4 v ++ rest) off = v mod 2 ^ 32.
Proof.
  intros Hoff. unfold read_u32.
  rewrite bytes_from_mid by (rewrite ?length_le_split; auto).
  rewrite le_combine_split. reflexivity.
Qed.

Lemma read_u16_mid (pre rest : list byte) off v :
  off = Z.of_nat (List.length pre) ->
  read_u16 (pre ++ le_split 2 v ++ rest) off = v mod 2 ^ 16.
Proof.
  intros Hoff. unfold read_u16.
  rewrite bytes_from_mid by (rewrite ?length_le_split; auto).
  rewrite le_combine_split. reflexivity.
Qed.

Lemma encode_subchunk_length c :
  List.length (sub_tag c) = 4%nat ->
  Z.of_nat (List.length (encode_subchunk c)) = 8 + Z.of_nat (List.length (sub_body c)).
Proof.
  intros H. unfold encode_subchunk. rewrite !length_app, length_le_split, H. lia.
Qed.

(** *** The walk over the sub-chunks *)

Section Walk.

Variables (chunk : SingAudioChunk) (id3 : bool).
Hypothesis Hsize : size chunk = Z.of_nat (List.length (data chunk)).
Hypothesis Hsmall : size chunk + 8 < 2 ^ 32.

(** A sub-chunk whose tag is four bytes, at [pos]. *)
Lemma next_subchunk_at pre c rest :
  data chunk = pre ++ encode_subchunk c ++ rest ->
  List.length (sub_tag c) = 4%nat ->
  next_subchunk chunk (Z.of_nat (List.length pre))
  = Z.of_nat (List.length (pre ++ encode_subchunk c)).
Proof.
  intros Hd Ht. unfold next_subchunk.
  assert (Hlen : Z.of_nat (List.length (data chunk))
                 = Z.of_nat (List.length pre) + Z.of_nat (List.length (encode_subchunk c))
                   + Z.of_nat (List.length rest)).
  { rewrite Hd, !length_app. lia. }
  pose proof (encode_subchunk_length c Ht) as He.
  replace (read_u32 (data chunk) (Z.of_nat (List.length pre) + 4))
    with (Z.of_nat (List.length (sub_body c)) mod 2 ^ 32).
  2:{ rewrite Hd. unfold encode_subchunk.
      replace (pre ++ (sub_tag c ++ le_split 4 (Z.of_nat (List.length (sub_body c)))
                       ++ sub_body c) ++ rest)
        with ((pre ++ sub_tag c)
              ++ le_split 4 (Z.of_nat (List.length (sub_body c))) ++ sub_body c ++ rest)
        by (rewrite <- !app_assoc; reflexivity).
      rewrite read_u32_mid; [reflexivity|]. rewrite length_app, Ht. lia. }
  rewrite length_app. unfold uint32_wrap, size_t_wrap.
  rewrite (Z.mod_small (Z.of_nat (List.length (sub_body c)))) by lia.
  rewrite (Z.mod_small (8 + _)) by lia.
  rewrite Z.mod_small by lia. lia.
Qed.

Lemma wav_scan_others : forall junk pre rest fuel s,
  data chunk = pre ++ flat_map encode_subchunk junk ++ rest ->
  forallb other_subchunk junk = true ->
  wav_scan (List.length junk + fuel) (Z.of_nat (List.length pre)) chunk id3 s
  = wav_scan fuel (Z.of_nat (List.length (pre ++ flat_map encode_subchunk junk)))
      chunk id3 s.
Proof.
  induction junk as [|c junk IH]; intros pre rest fuel s Hd Hall.
  - cbn [flat_map List.length Nat.add]. rewrite app_nil_r. reflexivity.
  - cbn [forallb] in Hall. apply andb_true_iff in Hall. destruct Hall as [Hc Hall].
    unfold other_subchunk in Hc.
    apply andb_true_iff in Hc. destruct Hc as [Hc Hdata].
    apply andb_true_iff in Hc. destruct Hc as [Ht Hfmt].
    apply Nat.eqb_eq in Ht. apply negb_true_iff in Hfmt, Hdata.
    cbn [flat_map] in Hd. rewrite <- app_assoc in Hd.
    pose proof (encode_subchunk_length c Ht) as He.
    assert (Hlen : Z.of_nat (List.length (data chunk))
                   = Z.of_nat (List.length pre)
                     + Z.of_nat (List.length (encode_subchunk c))
                     + Z.of_nat (List.length (flat_map encode_subchunk junk ++ rest))).
    { rewrite Hd, !length_app. lia. }
    cbn [List.length Nat.add wav_scan].
    rewrite size_t_wrap_small by lia.
    replace (Z.of_nat (List.length pre) + 8 <=? size chunk) with true
      by (symmetry; apply Z.leb_le; lia).
    unfold bind at 1.
    rewrite wav_scan_step_other.
    + rewrite (next_subchunk_at pre c _ Hd Ht).
      cbn [flat_map]. rewrite app_assoc.
      apply IH with (rest := rest); [|exact Hall].
      rewrite Hd. rewrite <- !app_assoc. reflexivity.
    + lia.
    + rewrite Hd. unfold encode_subchunk. rewrite <- !app_assoc.
      rewrite memcmp_is_mid; [exact Hfmt | reflexivity | exact Ht].
    + rewrite Hd. unfold encode_subchunk. rewrite <- !app_assoc.
      rewrite memcmp_is_mid; [exact Hdata | reflexivity | exact Ht].
Qed.

(** The format sub-chunk at [pos]. *)
Lemma wav_scan_step_format pre format channels rate byte_rate block_align bits extra
    rest s :
  data chunk
  = pre ++ encode_subchunk
             (mkSubchunk (list_byte_of_string "fmt ")
                (fmt_body format channels rate byte_rate block_align bits extra))
    ++ rest ->
  wav_scan_step (Z.of_nat (List.length pre)) chunk id3 s
  = Done (Z.of_nat (List.length
            (pre ++ encode_subchunk
                      (mkSubchunk (list_byte_of_string "fmt ")
                         (fmt_body format channels rate byte_rate block_align bits
                            extra)))),
          chunk, id3)
         (set_wav_bits_per_sample_ (bits mod 2 ^ 16)
            (set_wav_sample_rate_ (int_cast (rate mod 2 ^ 32))
               (set_wav_channels_ (channels mod 2 ^ 16) s))).
Proof.
  intros Hd.
  set (c := mkSubchunk (list_byte_of_string "fmt ")
              (fmt_body format channels rate byte_rate block_align bits extra)) in *.
  assert (Ht : List.length (sub_tag c) = 4%nat) by reflexivity.
  pose proof (encode_subchunk_length c Ht) as He.
  assert (Hb : (16 <= List.length (sub_body c))%nat).
  { cbn [c sub_body]. unfold fmt_body. rewrite !length_app, !length_le_split. lia. }
  assert (Hlen : Z.of_nat (List.length (data chunk))
                 = Z.of_nat (List.length pre)
                   + Z.of_nat (List.length (encode_subchunk c))
                   + Z.of_nat (List.length rest)).
  { rewrite Hd, !length_app. lia. }
  rewrite wav_scan_step_fmt; try lia.
  - rewrite (next_subchunk_at pre c rest Hd Ht).
    set (lenb := le_split 4 (Z.of_nat (List.length (sub_body c)))).
    assert (Hl : List.length lenb = 4%nat) by apply length_le_split.
    assert (Hd' : data chunk
                  = pre ++ list_byte_of_string "fmt " ++ lenb
                    ++ le_split 2 format ++ le_split 2 channels ++ le_split 4 rate
                    ++ le_split 4 byte_rate ++ le_split 2 block_align
                    ++ le_split 2 bits ++ extra ++ rest).
    { rewrite Hd. unfold encode_subchunk, fmt_body. cbn [c sub_tag sub_body].
      fold lenb. rewrite <- !app_assoc. reflexivity. }
    assert (Hbits : read_u16 (data chunk) (Z.of_nat (List.length pre) + 22)
                    = bits mod 2 ^ 16).
    { rewrite Hd'.
      replace (pre ++ list_byte_of_string "fmt " ++ lenb
               ++ le_split 2 format ++ le_split 2 channels ++ le_split 4 rate
               ++ le_split 4 byte_rate ++ le_split 2 block_align
               ++ le_split 2 bits ++ extra ++ rest)
        with ((pre ++ list_byte_of_string "fmt " ++ lenb
               ++ le_split 2 format ++ le_split 2 channels ++ le_split 4 rate
               ++ le_split 4 byte_rate ++ le_split 2 block_align)
              ++ le_split 2 bits ++ extra ++ rest)
        by (rewrite <- !app_assoc; reflexivity).
      apply read_u16_mid. rewrite !length_app, !length_le_split, Hl. cbn. lia. }
    assert (Hrate : read_u32 (data chunk) (Z.of_nat (List.length pre) + 12)
                    = rate mod 2 ^ 32).
    { rewrite Hd'.
      replace (pre ++ list_byte_of_string "fmt " ++ lenb
               ++ le_split 2 format ++ le_split 2 channels ++ le_split 4 rate
               ++ le_split 4 byte_rate ++ le_split 2 block_align
               ++ le_split 2 bits ++ extra ++ rest)
        with ((pre ++ list_byte_of_string "fmt " ++ lenb
               ++ le_split 2 format ++ le_split 2 channels)
              ++ le_split 4 rate
              ++ (le_split 4 byte_rate ++ le_split 2 block_align
                  ++ le_split 2 bits ++ extra ++ rest))
        by (rewrite <- !app_assoc; reflexivity).
      apply read_u32_mid. rewrite !length_app, !length_le_split, Hl. cbn. lia. }
    assert (Hch : read_u16 (data chunk) (Z.of_nat (List.length pre) + 10)
                  = channels mod 2 ^ 16).
    { rewrite Hd'.
      replace (pre ++ list_byte_of_string "fmt " ++ lenb
               ++ le_split 2 format ++ le_split 2 channels ++ le_split 4 rate
               ++ le_split 4 byte_rate ++ le_split 2 block_align
               ++ le_split 2 bits ++ extra ++ rest)
        with ((pre ++ list_byte_of_string "fmt " ++ lenb ++ le_split 2 format)
              ++ le_split 2 channels
              ++ (le_split 4 rate ++ le_split 4 byte_rate ++ le_split 2 block_align
                  ++ le_split 2 bits ++ extra ++ rest))
        by (rewrite <- !app_assoc; reflexivity).
      apply read_u16_mid. rewrite !length_app, !length_le_split, Hl. cbn. lia. }
    rewrite Hbits, Hrate, Hch. reflexivity.
  - rewrite Hd. unfold encode_subchunk. cbn [c sub_tag]. rewrite <- !app_assoc.
    rewrite memcmp_is_mid; reflexivity.
Qed.

(** The data sub-chunk at [pos], the last thing in the buffer but for
    the PCM. *)
Lemma wav_scan_data pre data_len pcm fuel s :
  data chunk = pre ++ list_byte_of_string "data" ++ le_split 4 data_len ++ pcm ->
  Z.of_nat (List.length pcm) <= data_len ->
  size chunk - Z.of_nat (List.length pcm) + data_len + 8 < 2 ^ 32 ->
  wav_scan (S fuel) (Z.of_nat (List.length pre)) chunk id3 s
  = Done (mkChunk (pcm ++ skipn (List.length pcm) (data chunk))
                  (Z.of_nat (List.length pcm)), true)
         (set_wav_header_parsed_ true s).
Proof.
  intros Hd Hdl Hhi.
  assert (Hlen : Z.of_nat (List.length (data chunk))
                 = Z.of_nat (List.length pre) + 8 + Z.of_nat (List.length pcm)).
  { rewrite Hd, !length_app, length_le_split. cbn. lia. }
  assert (Hdata : memcmp_is (data chunk) (Z.of_nat (List.length pre)) "data" = true).
  { rewrite Hd. rewrite memcmp_is_mid; reflexivity. }
  assert (Hnext : next_subchunk chunk (Z.of_nat (List.length pre))
                  = Z.of_nat (List.length pre) + 8 + data_len).
  { unfold next_subchunk. rewrite Hd.
    replace (pre ++ list_byte_of_string "data" ++ le_split 4 data_len ++ pcm)
      with ((pre ++ list_byte_of_string "data") ++ le_split 4 data_len ++ pcm)
      by (rewrite <- !app_assoc; reflexivity).
    rewrite read_u32_mid by (rewrite length_app; cbn; lia).
    unfold uint32_wrap, size_t_wrap.
    rewrite (Z.mod_small data_len) by lia.
    rewrite (Z.mod_small (8 + _)) by lia.
    rewrite Z.mod_small by lia. lia. }
  cbn [wav_scan].
  rewrite size_t_wrap_small by lia.
  replace (Z.of_nat (List.length pre) + 8 <=? size chunk) with true
    by (symmetry; apply Z.leb_le; lia).
  unfold bind at 1.
  destruct pcm as [|b pcm'].
  - rewrite wav_scan_step_data_at_end; [| lia | exact Hdata | cbn in Hlen; lia].
    rewrite Hnext. cbn [List.length skipn app Z.of_nat].
    destruct fuel; cbn [wav_scan size];
      rewrite size_t_wrap_small by (cbn in Hhi; lia);
      (replace (Z.of_nat (List.length pre) + 8 + data_len + 8 <=? 0) with false
        by (symmetry; apply Z.leb_gt; lia)); reflexivity.
  - set (pcm := b :: pcm') in *.
    assert (Hpos : 0 < Z.of_nat (List.length pcm)) by (cbn; lia).
    rewrite wav_scan_step_data; [| lia | exact Hdata | lia].
    rewrite Hnext.
    replace (size chunk - (Z.of_nat (List.length pre) + 8))
      with (Z.of_nat (List.length pcm)) by lia.
    rewrite Nat2Z.id.
    replace (bytes_from (data chunk) (Z.of_nat (List.length pre) + 8)
               (Z.of_nat (List.length pcm))) with pcm.
    2:{ rewrite Hd.
        replace (pre ++ list_byte_of_string "data" ++ le_split 4 data_len ++ pcm)
          with ((pre ++ list_byte_of_string "data" ++ le_split 4 data_len) ++ pcm ++ [])
          by (rewrite <- !app_assoc, app_nil_r; reflexivity).
        symmetry. apply bytes_from_mid; [|reflexivity].
        rewrite !length_app, length_le_split. cbn. lia. }
    destruct fuel; cbn [wav_scan size];
      rewrite size_t_wrap_small by lia;
      (replace (Z.of_nat (List.length pre) + 8 + data_len + 8
                <=? Z.of_nat (List.length pcm)) with false
        by (symmetry; apply Z.leb_gt; lia)); reflexivity.
Qed.

End Walk.

(** The format detection on the head of a WAV file. *)
Lemma detect_wav_file fuel chunk id3 s riff_size before format channels rate
    byte_rate block_align bits extra after data_len pcm :
  wav_header_parsed_ s = false ->
  data chunk
  = wav_file riff_size before
      (fmt_body format channels rate byte_rate block_align bits extra)
      after data_len pcm ->
  size chunk = Z.of_nat (List.length (data chunk)) ->
  forallb other_subchunk before = true ->
  forallb other_subchunk after = true ->
  Z.of_nat (List.length pcm) <= data_len ->
  size chunk - Z.of_nat (List.length pcm) + data_len + 8 < 2 ^ 32 ->
  (List.length before + List.length after + 2 <= fuel)%nat ->
  detect_wav fuel chunk id3 s
  = Done (mkChunk (pcm ++ skipn (List.length pcm) (data chunk))
                  (Z.of_nat (List.length pcm)), true)
         (set_wav_header_parsed_ true
            (set_wav_bits_per_sample_ (bits mod 2 ^ 16)
               (set_wav_sample_rate_ (int_cast (rate mod 2 ^ 32))
                  (set_wav_channels_ (channels mod 2 ^ 16)
                     (set_wav_mode_ true s))))).
Proof.
  intros Hparsed Hd Hsize Hb Ha Hdl Hhi Hfuel.
  set (sig := list_byte_of_string "RIFF" ++ le_split 4 riff_size
              ++ list_byte_of_string "WAVE").
  set (fmt := mkSubchunk (list_byte_of_string "fmt ")
                (fmt_body format channels rate byte_rate block_align bits extra)).
  assert (Hd1 : data chunk
                = sig ++ flat_map encode_subchunk before
                  ++ (encode_subchunk fmt ++ flat_map encode_subchunk after
                      ++ list_byte_of_string "data" ++ le_split 4 data_len ++ pcm)).
  { rewrite Hd. unfold wav_file, sig. rewrite <- !app_assoc. reflexivity. }
  assert (Hsmall : size chunk + 8 < 2 ^ 32) by lia.
  assert (Hsl : List.length sig = 12%nat).
  { unfold sig. rewrite !length_app, length_le_split. reflexivity. }
  assert (Hfl : (16 <= List.length (sub_body fmt))%nat).
  { cbn [fmt sub_body]. unfold fmt_body. rewrite !length_app, !length_le_split. lia. }
  assert (Hsig : wav_signature chunk = true).
  { unfold wav_signature.
    assert (H44 : 44 <= size chunk).
    { rewrite Hsize, Hd1. rewrite !length_app, Hsl, length_le_split.
      change (List.length (list_byte_of_string "data")) with 4%nat.
      pose proof (encode_subchunk_length fmt eq_refl). lia. }
    apply Z.leb_le in H44. rewrite H44.
    assert (Hriff : memcmp_is (data chunk) 0 "RIFF" = true).
    { rewrite Hd1. unfold sig. rewrite <- !app_assoc.
      match goal with |- memcmp_is (_ ++ ?r) _ _ = _ =>
        exact (memcmp_is_mid [] (list_byte_of_string "RIFF") r 0 "RIFF" eq_refl eq_refl)
      end. }
    assert (Hwave : memcmp_is (data chunk) 8 "WAVE" = true).
    { rewrite Hd1. unfold sig. rewrite <- !app_assoc.
      match goal with |- memcmp_is (_ ++ _ ++ _ ++ ?r) _ _ = _ =>
        exact (memcmp_is_mid (list_byte_of_string "RIFF" ++ le_split 4 riff_size)
                 (list_byte_of_string "WAVE") r 8 "WAVE" eq_refl eq_refl)
      end. }
    rewrite Hriff, Hwave. reflexivity. }
  rewrite detect_wav_unfold by assumption.
  replace fuel
    with (List.length before
          + S (List.length after + S (fuel - (List.length before + List.length after + 2))))%nat
    by lia.
  replace 12 with (Z.of_nat (List.length sig)) by (rewrite Hsl; reflexivity).
  rewrite (wav_scan_others chunk id3 Hsize Hsmall before sig _ _ _ Hd1 Hb).
  assert (Hd2 : data chunk
                = (sig ++ flat_map encode_subchunk before) ++ encode_subchunk fmt
                  ++ (flat_map encode_subchunk after
                      ++ list_byte_of_string "data" ++ le_split 4 data_len ++ pcm)).
  { rewrite Hd1. rewrite <- !app_assoc. reflexivity. }
  assert (Hlen : Z.of_nat (List.length (data chunk))
                 = Z.of_nat (List.length (sig ++ flat_map encode_subchunk before))
                   + Z.of_nat (List.length (encode_subchunk fmt))
                   + Z.of_nat (List.length (flat_map encode_subchunk after))
                   + 8 + Z.of_nat (List.length pcm)).
  { rewrite Hd2, !length_app, length_le_split.
    change (List.length (list_byte_of_string "data")) with 4%nat. lia. }
  pose proof (encode_subchunk_length fmt eq_refl) as He.
  cbn [wav_scan].
  rewrite size_t_wrap_small by lia.
  replace (Z.of_nat (List.length (sig ++ flat_map encode_subchunk before)) + 8
           <=? size chunk) with true by (symmetry; apply Z.leb_le; lia).
  unfold bind at 1.
  rewrite (wav_scan_step_format chunk id3 Hsize Hsmall _ _ _ _ _ _ _ _ _ _ Hd2).
  cbv beta iota.
  assert (Hd3 : data chunk
                = ((sig ++ flat_map encode_subchunk before) ++ encode_subchunk fmt)
                  ++ flat_map encode_subchunk after
                  ++ (list_byte_of_string "data" ++ le_split 4 data_len ++ pcm)).
  { rewrite Hd2. rewrite <- !app_assoc. reflexivity. }
  rewrite (wav_scan_others chunk id3 Hsize Hsmall after _ _ _ _ Hd3 Ha).
  apply wav_scan_data with (data_len := data_len); try assumption.
  rewrite Hd3 at 1. rewrite <- !app_assoc. reflexivity.
Qed.

Lemma detect_wav_short fuel chunk id3 s :
  size chunk < 44 -> detect_wav fuel chunk id3 s = Done (chunk, id3) s.
Proof.
  intros H. apply detect_wav_skipped. right. unfold wav_signature.
  replace (44 <=? size chunk) with false by (symmetry; apply Z.leb_gt; lia).
  reflexivity.
Qed.

(** C6, as the code has it.  A buffer of at least 44 bytes, taken while
    the header has not been parsed, whose bytes 0..3 are RIFF and bytes
    8..11 are WAVE, puts the demuxer in WAV mode; the sub-chunk loop
    starts at offset 12 and reads (4-byte tag, 4-byte little-endian
    length) pairs, each sub-chunk ending 8 bytes and its length after
    its tag.  When the buffer is the head of a WAV file, that is the
    signature, any sub-chunks other than the format and the data, a
    format sub-chunk of 16 bytes or more, any further such sub-chunks,
    and the header of the data sub-chunk with a declared length that
    is not less than the PCM the buffer holds behind it, the detection
    ends with the channel count, the sample rate and the bits per
    sample the format holds at offsets 10, 12 and 22 after its tag,
    with the header marked as parsed, and with the PCM at the head of
    the chunk.  A buffer of fewer than 44 bytes is not examined at all:
    the detection leaves it and the object as they are. *)
Theorem wav_detected_from_44_bytes : wav_detection_contract.
Proof.
  split; [|intros; apply detect_wav_short; assumption].
  intros fuel chunk id3 s Hsize Hriff Hwave Hparsed.
  assert (Hsig : wav_signature chunk = true).
  { unfold wav_signature. rewrite Hriff, Hwave.
    apply Z.leb_le in Hsize. rewrite Hsize. reflexivity. }
  pose proof (detect_wav_unfold fuel chunk id3 s Hparsed Hsig) as Hdet.
  split; [rewrite Hdet, wav_scan_wav_mode; reflexivity|].
  split; [exact Hdet|].
  split; [intros; eapply detect_wav_file; eassumption|].
  intros pos c i s1 Hpos Hlen Hsz. rewrite READ_CHUNK_SIZE_eq in Hsz.
  assert (Hp8 : pos + 8 < 2 ^ 32) by lia.
  destruct (memcmp_is (data c) pos "fmt ") eqn:Hfmt.
  - pose proof (fmt_is_not_data _ _ Hfmt) as Hdata.
    destruct (Z.le_gt_cases (pos + 24) (size c)) as [Hfull|Hshort].
    + eexists. eexists. eexists.
      split; [apply wav_scan_step_fmt; try assumption; lia|].
      split; [|split].
      * intros _ _. repeat split; reflexivity.
      * rewrite Hdata. discriminate.
      * discriminate.
    + eexists. eexists. eexists.
      split; [apply wav_scan_step_short_fmt; try assumption; lia|].
      split; [|split].
      * intros _ H. exfalso. lia.
      * rewrite Hdata. discriminate.
      * discriminate.
  - destruct (memcmp_is (data c) pos "data") eqn:Hdata.
    + destruct (Z.lt_ge_cases (pos + 8) (size c)) as [Hmore|Hend].
      * eexists. eexists. eexists.
        split; [apply wav_scan_step_data; assumption|].
        split; [discriminate|]. split; [|discriminate].
        intros _. cbn. repeat split.
      * eexists. eexists. eexists.
        split; [apply wav_scan_step_data_at_end; assumption|].
        split; [discriminate|]. split; [|discriminate].
        intros _. cbn. repeat split; try lia.
    + eexists. eexists. eexists.
      split; [apply wav_scan_step_other; assumption|].
      split; [discriminate|]. split; [discriminate|].
      intros _ _. repeat split; reflexivity.
Qed.

Lemma wav_detected_from_44_bytes_witness :
  44 <= size listed_first_chunk
  /\ memcmp_is (data listed_first_chunk) 0 "RIFF" = true
  /\ memcmp_is (data listed_first_chunk) 8 "WAVE" = true
  /\ wav_header_parsed_ session_started = false
  /\ wav_detect_contract 4 listed_first_chunk false session_started
  /\ detect_wav 4 listed_first_chunk false session_started
     = Done (mkChunk ([Byte.x01; Byte.x00; Byte.xff; Byte.xff]
                      ++ skipn 4 (data listed_first_chunk)) 4, true)
            (set_wav_header_parsed_ true
               (set_wav_bits_per_sample_ 16
                  (set_wav_sample_rate_ 44100
                     (set_wav_channels_ 1 (set_wav_mode_ true session_started)))))
  /\ size riff_only < 44
  /\ detect_wav 4 riff_only false session_started = Done (riff_only, false) session_started.
Proof.
  assert (H1 : 44 <= size listed_first_chunk) by (vm_compute; discriminate).
  assert (H2 : memcmp_is (data listed_first_chunk) 0 "RIFF" = true) by reflexivity.
  assert (H3 : memcmp_is (data listed_first_chunk) 8 "WAVE" = true) by reflexivity.
  assert (H4 : wav_header_parsed_ session_started = false) by reflexivity.
  assert (H5 : size riff_only < 44) by reflexivity.
  do 4 (split; [assumption|]).
  pose proof (proj1 wav_detected_from_44_bytes 4%nat listed_first_chunk false
                session_started H1 H2 H3 H4) as C.
  split; [exact C|].
  split.
  { destruct C as (_ & _ & Hfile & _).
    exact (Hfile 66
             [mkSubchunk (list_byte_of_string "LIST")
                [Byte.x49; Byte.x4e; Byte.x46; Byte.x4f]]
             1 1 44100 88200 2 16 [Byte.x00; Byte.x00]
             [mkSubchunk (list_byte_of_string "fact")
                [Byte.x02; Byte.x00; Byte.x00; Byte.x00]]
             4 [Byte.x01; Byte.x00; Byte.xff; Byte.xff]
             eq_refl eq_refl eq_refl eq_refl
             ltac:(vm_compute; discriminate) ltac:(vm_compute; reflexivity)
             ltac:(vm_compute; lia)). }
  split; [exact H5|].
  exact (proj2 wav_detected_from_44_bytes 4%nat riff_only false session_started H5).
Defined.

(** C6 as the document states it fails on a first buffer of 12 bytes
    that is exactly the signature: the test [chunk.size >= 44] keeps the
    demuxer out of WAV mode, and the bytes go to the MP3 window. *)
Lemma riff_signature_in_12_bytes_not_wav :
  12 <= size riff_only
  /\ memcmp_is (data riff_only) 0 "RIFF" = true
  /\ memcmp_is (data riff_only) 8 "WAVE" = true
  /\ wav_header_parsed_ session_started = false
  /\ wav_mode_ (state_of (detect_wav 8 riff_only false session_started)) = false
  /\ wav_mode_ (state_of (feed_chunk 8 riff_only
                            (PlayLocals_new (repeat Byte.x00 (Z.to_nat MP3_INPUT_SIZE)))
                            session_started)) = false.
Proof.
  split; [cbn; lia|].
  repeat split; vm_compute; reflexivity.
Qed.

(** The format detection on the sample first buffer. *)
Example detect_stereo_first_chunk :
  exists c s,
    detect_wav 4 stereo_first_chunk false session_started = Done (c, true) s
    /\ wav_mode_ s = true /\ wav_header_parsed_ s = true
    /\ wav_channels_ s = 2 /\ wav_sample_rate_ s = 16000
    /\ wav_bits_per_sample_ s = 16
    /\ size c = 8 /\ firstn 8 (data c) = stereo_frames.
Proof.
  eexists. eexists. split; [vm_compute; reflexivity|].
  repeat split; reflexivity.
Qed.

(** ** Samples *)

Lemma int16_cast_range z : -32768 <= int16_cast z <= 32767.
Proof.
  unfold int16_cast.
  pose proof (Z.mod_pos_bound (z + 32768) 65536 eq_refl). lia.
Qed.

Lemma int16_cast_id z : -32768 <= z <= 32767 -> int16_cast z = z.
Proof.
  intros H. unfold int16_cast. rewrite Z.mod_small by lia. lia.
Qed.

Lemma int16_cast_mod z : int16_cast (z mod 65536) = int16_cast z.
Proof.
  unfold int16_cast. f_equal.
  rewrite <- (Z.add_mod_idemp_l z 32768 65536) by lia. reflexivity.
Qed.

Lemma read_i16_range d i : -32768 <= read_i16 d i <= 32767.
Proof. apply int16_cast_range. Qed.

(** The average of two 16-bit samples fits 16 bits: the cast changes
    nothing. *)
Lemma downmix_pair_quot l r :
  -32768 <= l <= 32767 -> -32768 <= r <= 32767 ->
  downmix_pair l r = Z.quot (l + r) 2.
Proof.
  intros Hl Hr. unfold downmix_pair. apply int16_cast_id.
  pose proof (Z.quot_rem' (l + r) 2) as Hq.
  pose proof (Z.rem_bound_abs (l + r) 2 ltac:(lia)) as Hrem.
  destruct (Z.le_gt_cases 0 (l + r)) as [Hpos|Hneg].
  - pose proof (Z.rem_nonneg (l + r) 2 ltac:(lia) Hpos). lia.
  - pose proof (Z.rem_nonpos (l + r) 2 ltac:(lia) ltac:(lia)). lia.
Qed.

Lemma le_split_int16_cast z : le_split 2 (int16_cast z) = le_split 2 z.
Proof.
  rewrite (le_split_mod (int16_cast z)), (le_split_mod z). f_equal.
  change (2 ^ (Z.of_nat 2 * 8)) with 65536. unfold int16_cast.
  rewrite Zminus_mod, Zmod_mod, <- Zminus_mod. f_equal. lia.
Qed.



Lemma mono_pcm_length frames :
  List.length (mono_pcm frames) = (2 * List.length frames)%nat.
Proof.
  unfold mono_pcm. induction frames as [|f frames IH]; [reflexivity|].
  cbn [flat_map List.length]. rewrite !length_app, !length_le_split, IH. lia.
Qed.






Lemma pcm_bytes_length m : List.length (pcm_bytes m) = (2 * List.length m)%nat.
Proof.
  unfold pcm_bytes. induction m as [|x m IH]; cbn [flat_map]; [reflexivity|].
  rewrite length_app, length_le_split, IH. cbn. lia.
Qed.

Lemma pcm_bytes_skipn m : forall i,
  skipn (2 * i) (pcm_bytes m) = pcm_bytes (skipn i m).
Proof.
  unfold pcm_bytes. induction m as [|x m IH]; intros i.
  - rewrite !skipn_nil. reflexivity.
  - destruct i as [|i]; [reflexivity|].
    replace (2 * S i)%nat with (2 + 2 * i)%nat by lia.
    cbn [flat_map skipn]. change (le_split 2 x ++ flat_map (le_split 2) m)
      with (byte.of_Z x :: byte.of_Z (Z.shiftr x 8) :: flat_map (le_split 2) m).
    cbn [Nat.add skipn]. apply IH.
Qed.

(** A sample written by memcpy is the sample read back. *)
Lemma read_i16_pcm_bytes m i :
  (i < List.length m)%nat ->
  read_i16 (pcm_bytes m) (Z.of_nat i) = int16_cast (nth i m 0).
Proof.
  intros Hi. unfold read_i16, read_u16, bytes_from.
  replace (Z.to_nat (2 * Z.of_nat i)) with (2 * i)%nat by lia.
  rewrite pcm_bytes_skipn.
  destruct (skipn i m) as [|x rest] eqn:Hskip.
  - apply (f_equal (@List.length Z)) in Hskip. rewrite length_skipn in Hskip.
    cbn in Hskip. lia.
  - assert (Hx : nth i m 0 = x).
    { rewrite <- (firstn_skipn i m) at 1. rewrite Hskip.
      rewrite app_nth2; rewrite firstn_length_le by lia; [|lia].
      rewrite Nat.sub_diag. reflexivity. }
    rewrite Hx. unfold pcm_bytes. cbn [flat_map].
    change (Z.to_nat 2) with 2%nat.
    change (firstn 2 (le_split 2 x ++ flat_map (le_split 2) rest))
      with (le_split 2 x).
    rewrite le_combine_split. change (2 ^ (Z.of_nat 2 * 8)) with 65536.
    apply int16_cast_mod.
Qed.

Lemma packet_samples_pcm_bytes rate dur ts m :
  Forall (fun z => -32768 <= z <= 32767) m ->
  packet_samples (mkPacket rate dur ts (pcm_bytes m)) = m.
Proof.
  intros Hm. unfold packet_samples. cbn [payload].
  rewrite pcm_bytes_length.
  replace (2 * List.length m / 2)%nat with (List.length m)
    by (rewrite Nat.mul_comm, Nat.div_mul; lia).
  apply (nth_ext _ _ 0 0).
  - rewrite length_map, length_seq. reflexivity.
  - intros i Hi. rewrite length_map, length_seq in Hi.
    rewrite (nth_indep _ 0 (read_i16 (pcm_bytes m) (Z.of_nat 0)))
      by (rewrite length_map, length_seq; exact Hi).
    rewrite (map_nth (fun i => read_i16 (pcm_bytes m) (Z.of_nat i))).
    rewrite seq_nth by exact Hi. cbn [Nat.add].
    rewrite read_i16_pcm_bytes by exact Hi.
    apply int16_cast_id.
    rewrite Forall_forall in Hm. apply Hm. apply nth_In. exact Hi.
Qed.

(** The stereo branch: half as many samples as the buffer holds, each
    the truncating average of a left and a right sample. *)
Lemma wav_mono_stereo_length pcm16 n :
  0 <= n -> Z.of_nat (List.length (wav_mono 2 pcm16 n)) = Z.quot (Z.quot n 2) 2.
Proof.
  intros Hn. unfold wav_mono. cbn [Z.eqb Pos.eqb].
  rewrite length_map, length_seq.
  rewrite Z2Nat.id; [reflexivity|].
  apply Z.quot_pos; [|lia]. apply Z.quot_pos; lia.
Qed.

Lemma wav_mono_stereo_nth pcm16 n i :
  (i < List.length (wav_mono 2 pcm16 n))%nat ->
  nth i (wav_mono 2 pcm16 n) 0
  = Z.quot (read_i16 pcm16 (2 * Z.of_nat i) + read_i16 pcm16 (2 * Z.of_nat i + 1)) 2.
Proof.
  unfold wav_mono. cbn [Z.eqb Pos.eqb]. rewrite length_map, length_seq. intros Hi.
  set (f := fun i : nat => downmix_pair (read_i16 pcm16 (Z.of_nat i * 2))
                             (read_i16 pcm16 (Z.of_nat i * 2 + 1))).
  rewrite (nth_indep _ 0 (f 0%nat)) by (rewrite length_map, length_seq; exact Hi).
  rewrite (map_nth f). rewrite seq_nth by exact Hi. cbn [Nat.add].
  unfold f. rewrite downmix_pair_quot by apply read_i16_range.
  rewrite (Z.mul_comm (Z.of_nat i) 2). reflexivity.
Qed.

Lemma wav_mono_in_range channels pcm16 n :
  Forall (fun z => -32768 <= z <= 32767) (wav_mono channels pcm16 n).
Proof.
  unfold wav_mono. destruct (channels =? 2); apply Forall_forall; intros z Hz;
    apply in_map_iff in Hz; destruct Hz as (i & <- & _).
  - apply int16_cast_range.
  - apply read_i16_range.
Qed.

(** ** A canonical header in the first buffer *)

Section CanonicalHeader.

Variables (data_len : Z) (pcm : list byte).
Let d := wav_header 2 16000 16 data_len ++ pcm.











End CanonicalHeader.


(** ** A turn of the consumer's loop in WAV mode *)

Lemma int_cast_small z : - 2 ^ 31 <= z < 2 ^ 31 -> int_cast z = z.
Proof.
  intros H. unfold int_cast. rewrite Z.mod_small by lia. lia.
Qed.



(** The now-playing label touches the trace and its own flag only. *)
Lemma show_song_name_done display s :
  exists b evs,
    show_song_name display s
    = Done tt (set_trace_ (trace_ s ++ evs) (set_song_name_displayed_ b s))
    /\ forall p, ~ In (EvAddAudioData p) evs.
Proof.
  unfold show_song_name. run.
  destruct (negb (song_name_displayed_ s) && negb (String.eqb (current_song_name_ s) EmptyString));
    [destruct display; [destruct (display_mode_ s) eqn:Hmode|]|].
  - exists true, [EvSetMusicInfo (now_playing (current_song_name_ s)); EvDisplayStart].
    split.
    + cbn. f_equal. destruct s; cbn.
      rewrite <- app_assoc. reflexivity.
    + intros p [H|[H|[]]]; discriminate H.
  - exists true, [EvSetMusicInfo (now_playing (current_song_name_ s))]. split.
    + cbn. f_equal.
    + intros p [H|[]]; discriminate H.
  - exists (song_name_displayed_ s), []. split; [|intros p []].
    cbn. f_equal. destruct s; cbn. rewrite app_nil_r. reflexivity.
  - exists (song_name_displayed_ s), []. split; [|intros p []].
    cbn. f_equal. destruct s; cbn. rewrite app_nil_r. reflexivity.
Qed.


(** The WAV branch on a window that starts at offset 0. *)
Lemma play_wav_emit buf n id3 skips s :
  0 < n -> n <= Z.of_nat (List.length buf) ->
  play_wav (mkLocals buf (Some 0) n id3 skips) s
  = Done (mkLocals buf (Some 0) 0 id3 skips)
         (set_trace_
            (trace_ s ++
             [EvAddAudioData
                (mkPacket (wav_sample_rate_ s) 60 0
                   (pcm_bytes (wav_mono (wav_channels_ s) (bytes_from buf 0 n) n)))])
            s).
Proof.
  intros Hn Hlen. unfold play_wav. cbn [bytes_left read_ptr mp3_input_buffer
                                        id3_processed id3_skips].
  replace (0 <? n) with true by (symmetry; apply Z.ltb_lt; lia).
  unfold checked_read.
  replace ((0 <=? 0) && (0 <=? n) && (0 + n <=? Z.of_nat (List.length buf)))
    with true
    by (symmetry; rewrite !andb_true_iff; repeat split; apply Z.leb_le; lia).
  reflexivity.
Qed.


Lemma queue_ok_set_trace t s : queue_ok s -> queue_ok (set_trace_ t s).
Proof. intros [Hm Hc Hs Hb]. split; assumption. Qed.









(** It fails, too, when the first read is shorter than the header: the
    first twenty bytes carry the signature but are not examined, and the
    second buffer does not begin with it, so the session never enters
    WAV mode.  The bytes go to the MP3 branch; with a decoder that finds
    no frame in them, nothing is sent. *)
Example header_split_across_buffers :
  wav_header 2 16000 16 8 ++ stereo_pcm [(1, 3); (-2, -3)]
  = firstn 20 (wav_header 2 16000 16 8)
    ++ skipn 20 (wav_header 2 16000 16 8) ++ stereo_frames
  /\ exists l' s',
       play_loop 2 [idle_no_sync; idle_no_sync; idle_no_sync]
         (PlayLocals_new (repeat Byte.x00 (Z.to_nat MP3_INPUT_SIZE)))
         short_first_read_session
       = Done l' s'
       /\ audio_buffer_ s' = []
       /\ wav_mode_ s' = false /\ wav_header_parsed_ s' = false
       /\ sent_packets (trace_ s') = [].
Proof.
  split; [reflexivity|].
  eexists. eexists. split; [vm_compute; reflexivity|].
  repeat split; reflexivity.
Qed.

(** The declared length matters.  A header that declares no data (as a
    stream of unknown length may) lets the sub-chunk loop go on inside
    the PCM, eight bytes behind the data tag: here the PCM spells a data
    tag itself at its offset 44, and of its 14 frames only the last is
    left to play. *)
Example short_declared_length_cuts_pcm :
  let pcm := repeat Byte.x00 44 ++ list_byte_of_string "data" ++ le_split 4 0
             ++ le_split 2 1 ++ le_split 2 3 in
  List.length pcm = 56%nat
  /\ exists c s,
       detect_wav 4 (mkChunk (wav_header 2 16000 16 0 ++ pcm) 100) false session_started
       = Done (c, true) s
       /\ size c = 4
       /\ firstn 4 (data c) = le_split 2 1 ++ le_split 2 3.
Proof.
  split; [reflexivity|].
  eexists. eexists. split; [vm_compute; reflexivity|].
  split; reflexivity.
Qed.

(** The sample first buffer, played: frames (1, 3) and (-2, -3) become
    the samples 2 and -2; the average -2.5 is cut towards zero. *)
Example stereo_first_chunk_played :
  exists l' s' p,
    play_iteration 2 idle_no_sync
      (PlayLocals_new (repeat Byte.x00 (Z.to_nat MP3_INPUT_SIZE))) stereo_session
    = Done (LoopContinue, l') s'
    /\ trace_ s' = trace_ stereo_session ++ [EvNotifyOne; EvFree; EvAddAudioData p]
    /\ sample_rate p = 16000
    /\ packet_samples p = [2; -2]
    /\ bytes_left l' = 0.
Proof.
  eexists. eexists. eexists.
  split; [vm_compute; reflexivity|].
  repeat split; reflexivity.
Qed.

(** The header in one chunk and the PCM in the next: the first turn
    sends nothing, the second sends the packet, the third finds the
    queue empty and the producer finished. *)
Example split_session_played :
  exists l' s' p,
    play_loop 2 [idle_no_sync; idle_no_sync; idle_no_sync]
      (PlayLocals_new (repeat Byte.x00 (Z.to_nat MP3_INPUT_SIZE))) split_session
    = Done l' s'
    /\ trace_ s' = trace_ split_session
                   ++ [EvNotifyOne; EvFree; EvDelay 1;
                       EvNotifyOne; EvFree; EvAddAudioData p]
    /\ sample_rate p = 16000
    /\ packet_samples p = [2; -2]
    /\ audio_buffer_ s' = [] /\ buffer_size_ s' = 0.
Proof.
  eexists. eexists. eexists.
  split; [vm_compute; reflexivity|].
  repeat split; reflexivity.
Qed.

(** The sub-chunk loop need not end: a declared length of 2^32 - 8 makes
    [pos += 8 + chunk_size] a step of zero. *)
Lemma wav_scan_stalls fuel id3 s :
  wav_scan fuel 12 stalling_chunk id3 s = OutOfFuel s.
Proof.
  induction fuel as [|fuel IH]; cbn [wav_scan].
  - reflexivity.
  - change (size_t_wrap (12 + 8) <=? size stalling_chunk) with true. cbv iota.
    unfold bind at 1.
    rewrite wav_scan_step_other; [| vm_compute; reflexivity | reflexivity | reflexivity].
    change (next_subchunk stalling_chunk 12) with 12.
    exact IH.
Qed.

(** ** The producer *)

Lemma bind_emit {B} e (k : unit -> M B) s :
  bind (emit e) k s = k tt (set_trace_ (trace_ s ++ [e]) s).
Proof. reflexivity. Qed.

Lemma bind_gets {A B} (f : Esp32Sing -> A) (k : A -> M B) s :
  bind (gets f) k s = k (f s) s.
Proof. reflexivity. Qed.

Lemma bind_modify {B} f (k : unit -> M B) s :
  bind (modify f) k s = k tt (f s).
Proof. reflexivity. Qed.

Lemma bind_ret {A B} (a : A) (k : A -> M B) s : bind (ret a) k s = k a s.
Proof. reflexivity. Qed.

Lemma bind_bind {A B C} (m : M A) (k : A -> M B) (h : B -> M C) s :
  bind (bind m k) h s = bind m (fun a => bind (k a) h) s.
Proof. unfold bind. destruct (m s); reflexivity. Qed.

Lemma set_trace_set_trace t1 t2 s :
  set_trace_ t2 (set_trace_ t1 s) = set_trace_ t2 s.
Proof. reflexivity. Qed.

(** Runs the leading [emit]s of a computation, keeping the object as
    one update of the trace. *)
Ltac run_emits :=
  repeat (first [rewrite bind_bind | rewrite bind_emit];
          cbn [trace_ set_trace_]; rewrite ?set_trace_set_trace).

Lemma open_with_retry_first env m s :
  nth 0 (open_results env) false = true ->
  open_with_retry env m s
  = Done true (set_trace_ (trace_ s ++ [EvHttpOpen m (current_stream_url_ s)]) s).
Proof.
  intros H. unfold open_with_retry, http_open. run. rewrite H. reflexivity.
Qed.

Lemma open_with_retry_second env m s :
  nth 0 (open_results env) false = false ->
  open_with_retry env m s
  = Done (nth 1 (open_results env) false)
         (set_trace_ (trace_ s ++ [EvHttpOpen m (current_stream_url_ s); EvDelay 500;
                                   EvHttpOpen m (current_stream_url_ s)]) s).
Proof.
  intros H. unfold open_with_retry, http_open. run. rewrite H. cbn.
  f_equal. destruct s; cbn. rewrite <- !app_assoc. reflexivity.
Qed.

(** C9.  A transport open that fails is tried again exactly once, 500 ms
    later; when the second open fails too the session is over: the
    producer clears the downloading flag and returns, with no third
    open and no restart of the session. *)
Theorem open_retried_once_then_fatal (env : HttpEnv) (start_ts_read : Z)
    (reads : list ReadEnv) (s : Esp32Sing) :
  current_stream_url_ s <> EmptyString ->
  open_retry_contract env start_ts_read reads s.
Proof.
  intros Hurl. unfold open_retry_contract. cbv zeta.
  split; [|split].
  - apply open_with_retry_first.
  - intros H0 H1. rewrite open_with_retry_second by exact H0. rewrite H1. reflexivity.
  - intros H0 H1. unfold DownloadAudioStreamFromUrl.
    unfold bind at 1. unfold gets at 1.
    apply String.eqb_neq in Hurl. rewrite Hurl.
    unfold request_headers, request_method, use_post.
    destruct (contains "/convert_stream_simple" (current_stream_url_ s)).
    + run_emits. unfold bind at 1.
      rewrite open_with_retry_second by exact H0.
      cbn [current_stream_url_ set_trace_ trace_]. rewrite H1. cbn [negb].
      unfold modify. f_equal. destruct s; cbn. rewrite <- !app_assoc. reflexivity.
    + run_emits. unfold bind at 1.
      rewrite open_with_retry_second by exact H0.
      cbn [current_stream_url_ set_trace_ trace_]. rewrite H1. cbn [negb].
      unfold modify. f_equal. destruct s; cbn. rewrite <- !app_assoc. reflexivity.
Qed.

Lemma open_retried_once_then_fatal_witness :
  current_stream_url_ session_started <> EmptyString
  /\ open_retry_contract (mkHttpEnv [false; false] 0) 0 [] session_started.
Proof.
  assert (H : current_stream_url_ session_started <> EmptyString) by discriminate.
  split; [exact H|].
  exact (open_retried_once_then_fatal (mkHttpEnv [false; false] 0) 0 [] session_started H).
Defined.

(** The cleanup takes [buffer_mutex_] and, still holding it, calls
    ClearAudioBuffer, which takes it again: the thread stops there, with
    the run flags cleared and the mutex held. *)
Lemma fatal_cleanup_deadlock s :
  buffer_mutex_ s = false ->
  fatal_cleanup s
  = Deadlock (set_buffer_mutex_ true
                (set_is_playing_ false
                   (set_is_downloading_ false
                      (set_trace_ (trace_ s ++ [EvResetSampleRate; EvNotifyAll]) s)))).
Proof.
  intros Hm. unfold fatal_cleanup, ResetSampleRate, notify_all.
  rewrite bind_emit, !bind_modify.
  unfold bind at 1. unfold lock_guard. unfold bind at 1. unfold lock at 1.
  cbn [buffer_mutex_ set_is_playing_ set_is_downloading_ set_trace_]. rewrite Hm.
  rewrite bind_bind, bind_emit. unfold bind at 1. unfold bind at 1.
  rewrite ClearAudioBuffer_relock by reflexivity.
  f_equal. destruct s; cbn. rewrite <- !app_assoc. reflexivity.
Qed.

(** Status 200 and 206 go on to the read loop. *)
Lemma status_ok_streams env start_ts_read reads s :
  current_stream_url_ s <> EmptyString ->
  use_post (current_stream_url_ s) = false ->
  nth 0 (open_results env) false = true ->
  status_code env = 200 \/ status_code env = 206 ->
  DownloadAudioStreamFromUrl env start_ts_read reads s
  = (l <- download_loop start_ts_read reads (mkDownloadLocals 0 false false) ;;
     download_exit l)
      (set_trace_ (trace_ s ++ request_headers (current_stream_url_ s)
                   ++ [EvHttpOpen "GET" (current_stream_url_ s)]) s).
Proof.
  intros Hurl Hpost Hopen Hstatus. unfold DownloadAudioStreamFromUrl.
  rewrite bind_gets. apply String.eqb_neq in Hurl. rewrite Hurl.
  unfold request_headers. rewrite Hpost.
  unfold use_post in Hpost. rewrite Hpost.
  run_emits. unfold bind at 1.
  rewrite open_with_retry_first by exact Hopen.
  cbn [current_stream_url_ set_trace_ trace_ negb]. rewrite set_trace_set_trace.
  rewrite bind_ret.
  replace ((trace_ s ++ [EvSetHeader "User-Agent" "ESP32-Sing-Player/1.0"]) ++
            [EvSetHeader "Accept" "*/*"]) with
    (trace_ s ++ [EvSetHeader "User-Agent" "ESP32-Sing-Player/1.0";
                  EvSetHeader "Accept" "*/*"]) by (rewrite <- app_assoc; reflexivity).
  rewrite <- !app_assoc. cbn [app].
  destruct Hstatus as [-> | ->]; reflexivity.
Qed.

(** Every status other than 200 and 206, 404 among them, ends in the
    cleanup, and so in the second lock. *)
Lemma fatal_status_deadlocks env start_ts_read reads s :
  current_stream_url_ s <> EmptyString ->
  use_post (current_stream_url_ s) = false ->
  nth 0 (open_results env) false = true ->
  status_code env <> 200 -> status_code env <> 206 ->
  buffer_mutex_ s = false ->
  DownloadAudioStreamFromUrl env start_ts_read reads s
  = Deadlock
      (set_buffer_mutex_ true
         (set_is_playing_ false
            (set_is_downloading_ false
               (set_trace_
                  (trace_ s ++ request_headers (current_stream_url_ s)
                   ++ [EvHttpOpen "GET" (current_stream_url_ s); EvHttpClose;
                       EvDelay 100; EvResetSampleRate; EvNotifyAll]) s)))).
Proof.
  intros Hurl Hpost Hopen H200 H206 Hm. unfold DownloadAudioStreamFromUrl.
  rewrite bind_gets. apply String.eqb_neq in Hurl. rewrite Hurl.
  unfold request_headers. rewrite Hpost.
  unfold use_post in Hpost. rewrite Hpost.
  run_emits. unfold bind at 1.
  rewrite open_with_retry_first by exact Hopen.
  cbn [current_stream_url_ set_trace_ trace_ negb]. rewrite set_trace_set_trace.
  rewrite bind_ret.
  apply Z.eqb_neq in H200, H206. rewrite H200, H206. cbn [negb andb].
  destruct (status_code env =? 404).
  - unfold vTaskDelay. run_emits. unfold bind at 1.
    rewrite fatal_cleanup_deadlock by exact Hm.
    f_equal. destruct s; cbn. rewrite <- !app_assoc. reflexivity.
  - unfold vTaskDelay. run_emits.
    rewrite fatal_cleanup_deadlock by exact Hm.
    f_equal. destruct s; cbn. rewrite <- !app_assoc. reflexivity.
Qed.

(** C8, on the code.  A response with status 404 (and likewise any
    status other than 200 and 206) makes the producer clear both run
    flags and then stop for ever inside its cleanup, where it takes
    [buffer_mutex_] twice: ClearAudioBuffer is not run, no feedback
    tone is played and the device is not asked to listen; the mutex
    stays held, so that a later StartStreaming stops at its first lock.
    The document has the cleanup run to its end. *)
Theorem not_found_cleanup_deadlocks :
  exists s,
    DownloadAudioStreamFromUrl (mkHttpEnv [true] 404) 0 [] session_started
    = Deadlock s
    /\ is_downloading_ s = false /\ is_playing_ s = false
    /\ buffer_mutex_ s = true
    /\ ~ In EvFree (trace_ s)
    /\ ~ In EvPlaySound (trace_ s)
    /\ ~ In EvStartListening (trace_ s)
    /\ DownloadAudioStreamFromUrl (mkHttpEnv [true] 500) 0 [] session_started
       = Deadlock s
    /\ StartStreaming "http://8.134.249.85:18080/stream?raw_query=y" s
       = Deadlock s.
Proof.
  eexists. split; [vm_compute; reflexivity|].
  do 3 (split; [reflexivity|]).
  do 3 (split;
        [intros H; cbn in H;
         repeat (destruct H as [H|H]; [discriminate H|]); exact H|]).
  split; vm_compute; reflexivity.
Qed.

(** ** The session controller *)

(** C10.  StartStreaming with an empty URL and StartStreamingById with
    an empty song id return false at once and leave the object as it
    was: the prior session is not cancelled, the run flags and the queue
    are untouched, no task is started.  Download returns false when the
    song name and the artist name are both empty. *)
Theorem empty_request_rejected (s : Esp32Sing) (download_rest : M unit) :
  StartStreaming EmptyString s = Done false s
  /\ StartStreamingById download_rest EmptyString s = Done false s
  /\ Download EmptyString EmptyString s = Done false s.
Proof.
  repeat split; reflexivity.
Qed.

(** With a URL the controller does cancel and restart: the contrast to
    the empty request. *)
Example start_streaming_restarts :
  exists s,
    StartStreaming "http://8.134.249.85:18080/stream?raw_query=y" streaming_session
    = Done true s
    /\ audio_buffer_ s = [] /\ buffer_size_ s = 0
    /\ is_downloading_ s = true /\ is_playing_ s = true
    /\ In (EvThreadDetach ThDownload) (trace_ s)
    /\ In (EvThreadDetach ThPlay) (trace_ s)
    /\ StartStreaming EmptyString streaming_session = Done false streaming_session.
Proof.
  eexists. split; [vm_compute; reflexivity|].
  do 4 (split; [reflexivity|]).
  split; [vm_compute; tauto|]. split; [vm_compute; tauto|]. reflexivity.
Qed.

(** The request line Download builds. *)
Example download_url :
  exists s,
    Download "a b" "c+d" Esp32Sing_new = Done true s
    /\ current_stream_url_ s
       = "http://8.134.249.85:18080/stream?raw_query=c%2Bd%2Ba%20b"%string
    /\ current_query_value_ s = "c+d+a b"%string.
Proof.
  eexists. split; [vm_compute; reflexivity|]. split; reflexivity.
Qed.

(** StartStreaming puts the container state back to its defaults;
    StartStreamingById leaves it as the last session left it. *)
Example start_by_id_keeps_container_state :
  let after_wav :=
    set_wav_mode_ true (set_wav_header_parsed_ true (set_wav_channels_ 2 streaming_session)) in
  exists s1 s2,
    StartStreaming "http://8.134.249.85:18080/stream?raw_query=y" after_wav = Done true s1
    /\ wav_mode_ s1 = false /\ wav_header_parsed_ s1 = false /\ wav_channels_ s1 = 1
    /\ StartStreamingById producer_rest "y" after_wav = Done true s2
    /\ wav_mode_ s2 = true /\ wav_header_parsed_ s2 = true /\ wav_channels_ s2 = 2.
Proof.
  cbv zeta. eexists. eexists.
  split; [vm_compute; reflexivity|].
  do 3 (split; [reflexivity|]).
  split; [vm_compute; reflexivity|].
  repeat split; reflexivity.
Qed.

Lemma keeps_queue_bind {A B} (m : M A) (k : A -> M B) :
  keeps_queue m -> (forall a, keeps_queue (k a)) -> keeps_queue (bind m k).
Proof.
  intros Hm Hk s b s' H.
  apply bind_Done in H. destruct H as (a & s0 & H1 & H2).
  destruct (Hm _ _ _ H1) as [Hq1 Hs1]. destruct (Hk a _ _ _ H2) as [Hq2 Hs2].
  split; congruence.
Qed.

Lemma keeps_queue_ret {A} (a : A) : keeps_queue (ret a).
Proof. intros s b s' H. inversion H; subst. split; reflexivity. Qed.

Lemma keeps_queue_gets {A} (f : Esp32Sing -> A) : keeps_queue (gets f).
Proof. intros s b s' H. inversion H; subst. split; reflexivity. Qed.

Lemma keeps_queue_modify f :
  (forall s, audio_buffer_ (f s) = audio_buffer_ s /\ buffer_size_ (f s) = buffer_size_ s) ->
  keeps_queue (modify f).
Proof. intros Hf s b s' H. inversion H; subst. apply Hf. Qed.

Lemma keeps_queue_emit e : keeps_queue (emit e).
Proof. apply keeps_queue_modify. intros s. split; reflexivity. Qed.

Lemma keeps_queue_lock : keeps_queue lock.
Proof.
  intros s b s' H. unfold lock in H.
  destruct (buffer_mutex_ s); [discriminate H|]. inversion H; subst.
  split; reflexivity.
Qed.

Lemma keeps_queue_lock_guard {A} (m : M A) :
  keeps_queue m -> keeps_queue (lock_guard m).
Proof.
  intros Hm. unfold lock_guard.
  apply keeps_queue_bind; [apply keeps_queue_lock|]. intros _.
  apply keeps_queue_bind; [exact Hm|]. intros a.
  apply keeps_queue_bind; [|intros _; apply keeps_queue_ret].
  apply keeps_queue_modify. intros s. split; reflexivity.
Qed.

Lemma keeps_queue_join t rest : keeps_queue rest -> keeps_queue (join t rest).
Proof.
  intros Hr. unfold join.
  apply keeps_queue_bind; [exact Hr|]. intros _.
  apply keeps_queue_bind; [apply keeps_queue_emit|]. intros _.
  destruct t; apply keeps_queue_modify; intros s; split; reflexivity.
Qed.

Lemma keeps_queue_poll_joinable handle n : keeps_queue (poll_joinable handle n).
Proof.
  induction n as [|n IH]; cbn [poll_joinable]; [apply keeps_queue_ret|].
  apply keeps_queue_bind; [apply keeps_queue_emit|]. intros _.
  apply keeps_queue_bind; [apply keeps_queue_gets|]. intros j.
  destruct (negb j); [apply keeps_queue_ret | exact IH].
Qed.

(** X15.  StopStreaming has no way to the queue: whenever the two
    tasks it joins leave the queue and its byte count alone on their
    way out, the chunks that were resident when it was called, and the
    byte count, are the same when it returns. *)
Lemma StopStreaming_keeps_queue download_rest play_rest :
  keeps_queue download_rest -> keeps_queue play_rest ->
  keeps_queue (StopStreaming download_rest play_rest).
Proof.
  intros Hd Hp. unfold StopStreaming, ResetSampleRate, notify_all.
  apply keeps_queue_bind; [apply keeps_queue_emit|]. intros _.
  apply keeps_queue_bind; [apply keeps_queue_gets|]. intros playing.
  apply keeps_queue_bind; [apply keeps_queue_gets|]. intros downloading.
  destruct (negb playing && negb downloading); [apply keeps_queue_ret|].
  apply keeps_queue_bind;
    [apply keeps_queue_modify; intros s; split; reflexivity|]. intros _.
  apply keeps_queue_bind;
    [apply keeps_queue_modify; intros s; split; reflexivity|]. intros _.
  apply keeps_queue_bind;
    [apply keeps_queue_lock_guard, keeps_queue_emit|]. intros _.
  apply keeps_queue_bind; [apply keeps_queue_gets|]. intros j1.
  apply keeps_queue_bind.
  { destruct j1; [apply keeps_queue_join; exact Hd | apply keeps_queue_ret]. }
  intros _.
  apply keeps_queue_bind; [apply keeps_queue_gets|]. intros j2.
  apply keeps_queue_bind; [|intros _; apply keeps_queue_ret].
  destruct j2; [|apply keeps_queue_ret].
  apply keeps_queue_bind;
    [apply keeps_queue_modify; intros s; split; reflexivity|]. intros _.
  apply keeps_queue_bind;
    [apply keeps_queue_lock_guard, keeps_queue_emit|]. intros _.
  apply keeps_queue_bind; [apply keeps_queue_poll_joinable|]. intros _.
  apply keeps_queue_bind; [apply keeps_queue_gets|]. intros j3.
  destruct j3; [apply keeps_queue_join; exact Hp | apply keeps_queue_ret].
Qed.

(** The two tasks, cancelled, leave the queue alone on their way out. *)
Lemma play_exit_keeps_queue display : keeps_queue (play_exit display).
Proof.
  unfold play_exit, heap_caps_free, ResetSampleRate.
  apply keeps_queue_bind; [apply keeps_queue_emit|]. intros _.
  apply keeps_queue_bind;
    [apply keeps_queue_modify; intros s; split; reflexivity|]. intros _.
  apply keeps_queue_bind; [apply keeps_queue_emit|]. intros _.
  destruct display; [apply keeps_queue_emit | apply keeps_queue_ret].
Qed.

Lemma producer_rest_keeps_queue : keeps_queue producer_rest.
Proof.
  unfold producer_rest, download_exit. cbn [first_byte_timeout].
  apply keeps_queue_bind; [apply keeps_queue_emit|]. intros _.
  apply keeps_queue_bind;
    [apply keeps_queue_modify; intros s; split; reflexivity|]. intros _.
  apply keeps_queue_lock_guard, keeps_queue_emit.
Qed.

Lemma stop_on_cancelled_tasks_keeps_queue :
  keeps_queue (StopStreaming producer_rest consumer_rest).
Proof.
  apply StopStreaming_keeps_queue;
    [apply producer_rest_keeps_queue | apply play_exit_keeps_queue].
Defined.

(** C4, on the code.  StopStreaming, called on a running session with
    two chunks in the queue, returns true with both run flags false and
    both tasks joined, and with the two chunks still in the queue and
    [buffer_size_] at 5: it never calls ClearAudioBuffer.  The
    destructor, which stops the tasks the same way, does.  The document
    has the queue empty after Stop. *)
Theorem stop_leaves_queue :
  exists s,
    StopStreaming producer_rest consumer_rest streaming_session = Done true s
    /\ is_downloading_ s = false /\ is_playing_ s = false
    /\ download_thread_ s = false /\ play_thread_ s = false
    /\ map size (audio_buffer_ s) = [3; 2]
    /\ buffer_size_ s = 5
    /\ StopStreaming producer_rest consumer_rest s = Done true
         (set_trace_ (trace_ s ++ [EvResetSampleRate]) s)
    /\ exists s',
         Esp32Sing_destroy producer_rest consumer_rest streaming_session = Done tt s'
         /\ audio_buffer_ s' = [] /\ buffer_size_ s' = 0.
Proof.
  eexists. split; [vm_compute; reflexivity|].
  do 6 (split; [reflexivity|]).
  split; [vm_compute; reflexivity|].
  eexists. split; [vm_compute; reflexivity|]. split; reflexivity.
Qed.

(** A short stream, start to natural end: one chunk is queued, the
    transport is closed, the downloading flag is cleared and the
    waiters are woken. *)
Example producer_natural_completion :
  exists s,
    DownloadAudioStreamFromUrl (mkHttpEnv [true] 200) 0 short_stream session_started
    = Done tt s
    /\ map size (audio_buffer_ s) = [3] /\ buffer_size_ s = 3
    /\ is_downloading_ s = false /\ is_playing_ s = true
    /\ buffer_mutex_ s = false
    /\ trace_ s
       = trace_ session_started
         ++ request_headers (current_stream_url_ session_started)
         ++ [EvHttpOpen "GET" (current_stream_url_ session_started);
             EvNotifyOne; EvHttpClose; EvNotifyAll].
Proof.
  eexists. split; [vm_compute; reflexivity|].
  repeat split; reflexivity.
Qed.

(** * Further properties *)

(** ** The queue *)

Lemma clear_loop_state q : forall s,
  audio_buffer_ s = q ->
  clear_loop q s
  = Done tt (set_audio_buffer_ []
               (set_trace_ (trace_ s ++ repeat EvFree (List.length q)) s)).
Proof.
  induction q as [|c q IH]; intros s Hq.
  - cbn. unfold ret. f_equal. destruct s; cbn in *. subst.
    rewrite app_nil_r. reflexivity.
  - cbn [clear_loop]. unfold heap_caps_free. rewrite bind_emit, bind_modify.
    rewrite IH by reflexivity.
    f_equal. destruct s; cbn. rewrite <- app_assoc. reflexivity.
Qed.

Lemma ClearAudioBuffer_state s :
  buffer_mutex_ s = false ->
  ClearAudioBuffer s
  = Done tt (set_buffer_size_ 0
               (set_audio_buffer_ []
                  (set_trace_ (trace_ s ++ repeat EvFree (List.length (audio_buffer_ s))) s))).
Proof.
  intros Hm. unfold ClearAudioBuffer. run. rewrite Hm. cbn.
  rewrite clear_loop_state by reflexivity. cbn.
  f_equal. destruct s; cbn in *. subst. reflexivity.
Qed.

(** X1.  ClearAudioBuffer, entered with the mutex free, releases every
    resident chunk exactly once (one [heap_caps_free] per chunk and no
    other effect), leaves the queue empty and the byte count zero, and
    changes nothing else of the object. *)
Theorem clear_frees_each_chunk_once (s : Esp32Sing) :
  buffer_mutex_ s = false ->
  exists s',
    ClearAudioBuffer s = Done tt s'
    /\ trace_ s' = trace_ s ++ repeat EvFree (List.length (audio_buffer_ s))
    /\ s' = set_buffer_size_ 0 (set_audio_buffer_ [] (set_trace_ (trace_ s') s)).
Proof.
  intros Hm. eexists. split; [apply ClearAudioBuffer_state; exact Hm|].
  split; reflexivity.
Qed.

Lemma clear_frees_each_chunk_once_witness :
  buffer_mutex_ streaming_session = false
  /\ exists s',
       ClearAudioBuffer streaming_session = Done tt s'
       /\ trace_ s' = trace_ streaming_session
                      ++ repeat EvFree (List.length (audio_buffer_ streaming_session))
       /\ s' = set_buffer_size_ 0
                 (set_audio_buffer_ [] (set_trace_ (trace_ s') streaming_session)).
Proof.
  split; [reflexivity|].
  apply (clear_frees_each_chunk_once streaming_session). reflexivity.
Defined.

(** X2.  The byte count of the queue stays within one read of the
    capacity: after every sequence of push, pop and clear operations on
    a well-formed queue it is at most MAX_BUFFER_SIZE plus
    READ_CHUNK_SIZE minus one, and the mutex is free between the
    operations. *)
Theorem queue_stays_within_capacity (ops : list queue_op) (s0 : Esp32Sing) :
  queue_ok s0 -> Forall op_ok ops ->
  0 <= buffer_size_ (run_ops ops s0) <= MAX_BUFFER_SIZE + READ_CHUNK_SIZE - 1
  /\ buffer_mutex_ (run_ops ops s0) = false.
Proof.
  intros H0 Hops.
  destruct (run_ops_ok ops s0 H0 Hops) as [Hm Hc Hs Hb].
  pose proof (queued_bytes_nonneg _ Hc) as Hnn.
  split; [lia | exact Hm].
Qed.

Lemma queue_stays_within_capacity_witness :
  queue_ok Esp32Sing_new
  /\ Forall op_ok [OpPush [Byte.x01] 1; OpPop; OpClear]
  /\ 0 <= buffer_size_ (run_ops [OpPush [Byte.x01] 1; OpPop; OpClear] Esp32Sing_new)
     <= MAX_BUFFER_SIZE + READ_CHUNK_SIZE - 1
  /\ buffer_mutex_ (run_ops [OpPush [Byte.x01] 1; OpPop; OpClear] Esp32Sing_new) = false.
Proof.
  assert (H0 : queue_ok Esp32Sing_new) by exact Esp32Sing_new_ok.
  assert (H1 : Forall op_ok [OpPush [Byte.x01] 1; OpPop; OpClear]).
  { repeat constructor; cbn; rewrite READ_CHUNK_SIZE_eq; lia. }
  split; [exact H0|]. split; [exact H1|].
  exact (queue_stays_within_capacity _ _ H0 H1).
Defined.

Lemma push_chunk_dropped_state s d n :
  buffer_mutex_ s = false -> is_downloading_ s = false ->
  push_chunk d n s = Done PushDropped (set_trace_ (trace_ s ++ [EvFree]) s).
Proof.
  intros Hm Hd. unfold push_chunk, push_ready. run. rewrite Hm. cbn. rewrite Hd.
  rewrite orb_true_r. cbn. rewrite Hd.
  f_equal. destruct s; cbn in *. subst. reflexivity.
Qed.

Lemma push_chunk_done_state s d n :
  buffer_mutex_ s = false -> is_downloading_ s = true ->
  buffer_size_ s < MAX_BUFFER_SIZE -> 0 <= buffer_size_ s + n < 2 ^ 32 ->
  push_chunk d n s
  = Done PushDone
      (set_trace_ (trace_ s ++ [EvNotifyOne])
         (set_buffer_size_ (buffer_size_ s + n)
            (set_audio_buffer_ (audio_buffer_ s ++ [mkChunk d n]) s))).
Proof.
  intros Hm Hd Hlt Hn. unfold push_chunk, push_ready. run. rewrite Hm. cbn.
  apply Z.ltb_lt in Hlt. rewrite Hlt. cbn. rewrite Hd. cbn.
  rewrite size_t_wrap_small by exact Hn.
  f_equal. destruct s; cbn in *. subst. reflexivity.
Qed.

(** X3.  Back-pressure.  On a well-formed queue the producer's push
    waits exactly when the producer flag is set and the byte count has
    reached MAX_BUFFER_SIZE; below the capacity it appends the chunk and
    wakes one waiter; and once the producer flag is cleared it does not
    wait however full the queue is: it releases the chunk it was about
    to queue, leaves the queue as it was and reports the drop. *)
Theorem push_waits_exactly_when_full (s : Esp32Sing) (d : list byte) (n : Z) :
  queue_ok s -> 0 < n <= READ_CHUNK_SIZE ->
  (push_chunk d n s = Blocked s
   <-> is_downloading_ s = true /\ MAX_BUFFER_SIZE <= buffer_size_ s)
  /\ (is_downloading_ s = true -> buffer_size_ s < MAX_BUFFER_SIZE ->
      push_chunk d n s
      = Done PushDone
          (set_trace_ (trace_ s ++ [EvNotifyOne])
             (set_buffer_size_ (buffer_size_ s + n)
                (set_audio_buffer_ (audio_buffer_ s ++ [mkChunk d n]) s))))
  /\ (is_downloading_ s = false ->
      push_chunk d n s = Done PushDropped (set_trace_ (trace_ s ++ [EvFree]) s)).
Proof.
  intros Hok Hn. pose proof Hok as [Hm Hc Hs Hb].
  pose proof (queued_bytes_nonneg _ Hc) as Hnn. consts.
  assert (Hdone : is_downloading_ s = true -> buffer_size_ s < MAX_BUFFER_SIZE ->
                  push_chunk d n s
                  = Done PushDone
                      (set_trace_ (trace_ s ++ [EvNotifyOne])
                         (set_buffer_size_ (buffer_size_ s + n)
                            (set_audio_buffer_ (audio_buffer_ s ++ [mkChunk d n]) s)))).
  { intros Hd Hlt. apply push_chunk_done_state; try assumption. lia. }
  split; [|split].
  - split.
    + intros E. destruct (is_downloading_ s) eqn:Hd.
      * split; [reflexivity|].
        destruct (Z.lt_ge_cases (buffer_size_ s) MAX_BUFFER_SIZE) as [Hlt|Hge];
          [|exact Hge].
        rewrite (Hdone eq_refl Hlt) in E. discriminate E.
      * rewrite (push_chunk_dropped_state s d n Hm Hd) in E. discriminate E.
    + intros [Hd Hge]. apply push_blocked; assumption.
  - exact Hdone.
  - intros Hd. apply push_chunk_dropped_state; assumption.
Qed.

Lemma push_waits_exactly_when_full_witness :
  queue_ok streaming_session /\ 0 < 1 <= READ_CHUNK_SIZE
  /\ (push_chunk [Byte.x01] 1 streaming_session = Blocked streaming_session
      <-> is_downloading_ streaming_session = true
          /\ MAX_BUFFER_SIZE <= buffer_size_ streaming_session).
Proof.
  assert (H0 : queue_ok streaming_session).
  { split; [reflexivity | | reflexivity | reflexivity].
    repeat constructor; cbn; rewrite READ_CHUNK_SIZE_eq; lia. }
  assert (H1 : 0 < 1 <= READ_CHUNK_SIZE) by (rewrite READ_CHUNK_SIZE_eq; lia).
  split; [exact H0|]. split; [exact H1|].
  exact (proj1 (push_waits_exactly_when_full streaming_session [Byte.x01] 1 H0 H1)).
Defined.

Lemma pop_all_drains q : forall s,
  queue_ok s -> audio_buffer_ s = q ->
  exists s',
    pop_all (List.length q) s = Done q s'
    /\ audio_buffer_ s' = [] /\ buffer_size_ s' = 0
    /\ is_downloading_ s' = is_downloading_ s
    /\ trace_ s' = trace_ s ++ repeat EvNotifyOne (List.length q)
    /\ queue_ok s'.
Proof.
  induction q as [|c q IH]; intros s Hok Hq.
  - exists s. cbn. rewrite app_nil_r.
    pose proof Hok as [Hm Hc Hs Hb].
    split; [reflexivity|]. split; [exact Hq|].
    split; [rewrite Hs, Hq; reflexivity|].
    split; [reflexivity|]. split; [reflexivity | exact Hok].
  - destruct (pop_front s Hok c q Hq) as (s1 & E & Hq1 & _ & Hd1 & Ht1 & Hok1 & _).
    destruct (IH s1 Hok1 Hq1) as (s' & E' & Hq' & Hs' & Hd' & Ht' & Hok').
    exists s'. cbn [pop_all List.length]. unfold bind at 1. rewrite E.
    unfold bind at 1. rewrite E'. unfold ret.
    split; [reflexivity|]. split; [exact Hq'|]. split; [exact Hs'|].
    split; [congruence|]. split; [|exact Hok'].
    rewrite Ht', Ht1. rewrite <- app_assoc. reflexivity.
Qed.

(** X4.  First in, first out.  Popping a well-formed queue as many
    times as it holds chunks returns the resident chunks in the order
    they were pushed, each whole, one wake-up per pop; it leaves the
    queue empty with a byte count of zero, and the pop after that
    reports end-of-stream when the producer has stopped and waits when
    it has not. *)
Theorem pops_return_chunks_in_push_order (s : Esp32Sing) :
  queue_ok s ->
  exists s',
    pop_all (List.length (audio_buffer_ s)) s = Done (audio_buffer_ s) s'
    /\ audio_buffer_ s' = [] /\ buffer_size_ s' = 0
    /\ trace_ s' = trace_ s ++ repeat EvNotifyOne (List.length (audio_buffer_ s))
    /\ (is_downloading_ s = false -> pop_chunk s' = Done PopFinished s')
    /\ (is_downloading_ s = true -> pop_chunk s' = Blocked s').
Proof.
  intros Hok.
  destruct (pop_all_drains (audio_buffer_ s) s Hok eq_refl)
    as (s' & E & Hq & Hs & Hd & Ht & Hok').
  exists s'. do 4 (split; [assumption|]).
  split; intros H.
  - apply pop_finished; [exact Hok' | exact Hq | congruence].
  - apply pop_blocked; [exact Hok' | exact Hq | congruence].
Qed.

Lemma pops_return_chunks_in_push_order_witness :
  queue_ok streaming_session
  /\ exists s',
       pop_all (List.length (audio_buffer_ streaming_session)) streaming_session
       = Done (audio_buffer_ streaming_session) s'
       /\ audio_buffer_ s' = [] /\ buffer_size_ s' = 0.
Proof.
  assert (H0 : queue_ok streaming_session).
  { split; [reflexivity | | reflexivity | reflexivity].
    repeat constructor; cbn; rewrite READ_CHUNK_SIZE_eq; lia. }
  split; [exact H0|].
  destruct (pops_return_chunks_in_push_order streaming_session H0)
    as (s' & E & Hq & Hs & _).
  exists s'. repeat split; assumption.
Defined.

(** ** The producer *)

Lemma read_total_nonneg reads : Forall data_read reads -> 0 <= read_total reads.
Proof.
  induction 1 as [|r reads [Hr _] _ IH]; [cbn; lia|].
  change (read_total (r :: reads)) with (bytes_read r + read_total reads). lia.
Qed.

Lemma download_loop_step ts r rest l s :
  is_downloading_ s = true -> is_playing_ s = true ->
  download_loop ts (r :: rest) l s
  = (c <- download_iteration ts r l ;;
     match c with
     | (LoopBreak, l') => ret l'
     | (LoopContinue, l') => download_loop ts rest l'
     end) s.
Proof.
  intros Hd Hp. cbn [download_loop]. rewrite !bind_gets. rewrite Hd, Hp. reflexivity.
Qed.

Lemma download_loop_cancelled ts reads l s :
  is_downloading_ s = false \/ is_playing_ s = false ->
  download_loop ts reads l s = Done l s.
Proof.
  intros H. destruct reads; cbn [download_loop]; rewrite !bind_gets;
    destruct H as [-> | ->]; rewrite ?andb_false_r; reflexivity.
Qed.

Lemma queued_then_more s c n e q k t :
  let s1 := set_trace_ (trace_ s ++ [e])
              (set_buffer_size_ (buffer_size_ s + n)
                 (set_audio_buffer_ (audio_buffer_ s ++ [c]) s)) in
  set_trace_ (trace_ s1 ++ t)
    (set_buffer_size_ (buffer_size_ s1 + k)
       (set_audio_buffer_ (audio_buffer_ s1 ++ q) s1))
  = set_trace_ (trace_ s ++ e :: t)
      (set_buffer_size_ (buffer_size_ s + (n + k))
         (set_audio_buffer_ (audio_buffer_ s ++ c :: q) s)).
Proof.
  destruct s; cbn. rewrite <- !app_assoc, Z.add_assoc. reflexivity.
Qed.

(** The read loop on reads that all return data, while the queue has
    room: each is queued whole, in order. *)
Lemma download_loop_data ts reads : forall tail l s,
  queue_ok s -> is_downloading_ s = true -> is_playing_ s = true ->
  Forall data_read reads ->
  buffer_size_ s + read_total reads <= MAX_BUFFER_SIZE ->
  0 <= total_downloaded l -> total_downloaded l + read_total reads < 2 ^ 32 ->
  download_loop ts (reads ++ tail) l s
  = download_loop ts tail
      (mkDownloadLocals (total_downloaded l + read_total reads)
                        (got_first_byte l || negb (Nat.eqb (List.length reads) 0))
                        (first_byte_timeout l))
      (set_trace_ (trace_ s ++ repeat EvNotifyOne (List.length reads))
         (set_buffer_size_ (buffer_size_ s + read_total reads)
            (set_audio_buffer_ (audio_buffer_ s ++ map chunk_of_read reads) s))).
Proof.
  induction reads as [|r reads IH]; intros tail l s Hok Hd Hp Hall Hroom Hl Hl'.
  - cbn. rewrite orb_false_r, Z.add_0_r.
    replace (set_trace_ _ _) with s
      by (destruct s; cbn; rewrite !app_nil_r, Z.add_0_r; reflexivity).
    destruct l; reflexivity.
  - inversion Hall as [|? ? [Hr Ha] Hall']; subst.
    pose proof (read_total_nonneg _ Hall') as Hnn.
    change (read_total (r :: reads)) with (bytes_read r + read_total reads) in *.
    pose proof Hok as [Hm Hc Hs Hb].
    pose proof (queued_bytes_nonneg _ Hc) as Hq. consts.
    assert (Hlt : buffer_size_ s < MAX_BUFFER_SIZE) by lia.
    destruct (push_done s Hok (bytes_from (read_buffer r) 0 (bytes_read r))
                (bytes_read r) Hd Hlt Hr) as (s1 & E1 & _ & _ & _ & _ & Hok1).
    rewrite push_chunk_done_state in E1 by (try assumption; lia).
    injection E1 as E1.
    cbn [app]. rewrite download_loop_step by assumption.
    unfold bind at 1. unfold download_iteration.
    replace (bytes_read r <? 0) with false by (symmetry; apply Z.ltb_ge; lia).
    replace (bytes_read r =? 0) with false by (symmetry; apply Z.eqb_neq; lia).
    rewrite Ha. cbn [negb].
    unfold bind at 1. rewrite push_chunk_done_state by (try assumption; lia).
    rewrite E1. unfold ret. cbn [total_downloaded got_first_byte first_byte_timeout].
    rewrite size_t_wrap_small by lia.
    rewrite IH; try assumption.
    + f_equal.
      * cbn [total_downloaded got_first_byte first_byte_timeout List.length].
        f_equal; [lia|]. rewrite orb_true_r. reflexivity.
      * subst s1. apply queued_then_more.
    + subst s1. exact Hd.
    + subst s1. exact Hp.
    + subst s1. cbn [buffer_size_ set_trace_ set_buffer_size_]. lia.
    + cbn [total_downloaded]. lia.
    + cbn [total_downloaded]. lia.
Qed.

Lemma download_loop_end ts r tail l s :
  is_downloading_ s = true -> is_playing_ s = true ->
  bytes_read r < 0 \/ (bytes_read r = 0 /\ got_first_byte l = true) ->
  download_loop ts (r :: tail) l s = Done l s.
Proof.
  intros Hd Hp H. rewrite download_loop_step by assumption.
  unfold bind at 1. unfold download_iteration.
  destruct H as [H | [H Hg]].
  - apply Z.ltb_lt in H. rewrite H. reflexivity.
  - rewrite H, Hg. reflexivity.
Qed.

Lemma download_exit_normal l s :
  first_byte_timeout l = false -> buffer_mutex_ s = false ->
  download_exit l s
  = Done tt (set_is_downloading_ false
               (set_trace_ (trace_ s ++ [EvHttpClose; EvNotifyAll]) s)).
Proof.
  intros Hl Hm. unfold download_exit. rewrite Hl. run. rewrite Hm. cbn.
  f_equal. destruct s; cbn in *. subst. rewrite <- !app_assoc. reflexivity.
Qed.

(** X5.  A stream that is answered with 200 or 206 and fits the queue
    is queued whole and in order: each [Read] that returns data becomes
    one chunk holding exactly the bytes read, appended behind what the
    queue held, with one wake-up per chunk; the byte count grows by the
    total read.  At the first [Read] that returns no more (zero after
    data, or a negative value) the producer closes the transport,
    clears [is_downloading_], wakes every waiter and returns, leaving
    [is_playing_] set and the queue to the consumer. *)
Theorem producer_queues_reads_in_order (env : HttpEnv) (ts : Z)
    (reads : list ReadEnv) (last : ReadEnv) (s : Esp32Sing) :
  current_stream_url_ s <> EmptyString ->
  use_post (current_stream_url_ s) = false ->
  nth 0 (open_results env) false = true ->
  status_code env = 200 \/ status_code env = 206 ->
  queue_ok s -> is_downloading_ s = true -> is_playing_ s = true ->
  Forall data_read reads -> reads <> [] -> bytes_read last <= 0 ->
  buffer_size_ s + read_total reads <= MAX_BUFFER_SIZE ->
  exists s',
    DownloadAudioStreamFromUrl env ts (reads ++ [last]) s = Done tt s'
    /\ audio_buffer_ s' = audio_buffer_ s ++ map chunk_of_read reads
    /\ buffer_size_ s' = buffer_size_ s + read_total reads
    /\ is_downloading_ s' = false /\ is_playing_ s' = true
    /\ buffer_mutex_ s' = false
    /\ trace_ s'
       = trace_ s ++ request_headers (current_stream_url_ s)
         ++ [EvHttpOpen "GET" (current_stream_url_ s)]
         ++ repeat EvNotifyOne (List.length reads)
         ++ [EvHttpClose; EvNotifyAll].
Proof.
  intros Hurl Hpost Hopen Hstatus Hok Hd Hp Hall Hne Hlast Hroom.
  rewrite status_ok_streams by assumption.
  set (s0 := set_trace_ _ s).
  assert (Hok0 : queue_ok s0) by (apply queue_ok_set_trace; exact Hok).
  pose proof Hok as [Hm Hc Hs Hb].
  pose proof (queued_bytes_nonneg _ Hc) as Hq.
  pose proof (read_total_nonneg _ Hall) as Hnn. consts.
  unfold bind at 1.
  rewrite (download_loop_data ts reads [last] _ s0 Hok0 Hd Hp Hall);
    [| exact Hroom | cbn [total_downloaded]; lia | cbn [total_downloaded]; lia].
  rewrite download_loop_end;
    [| exact Hd | exact Hp |].
  2:{ destruct (Z.eq_dec (bytes_read last) 0) as [Hz|Hz]; [right | left; lia].
      split; [exact Hz|]. cbn [got_first_byte orb].
      destruct reads; [contradiction Hne; reflexivity | reflexivity]. }
  rewrite download_exit_normal; [| reflexivity | exact Hm].
  eexists. split; [reflexivity|].
  do 3 (split; [reflexivity|]). split; [exact Hp|]. split; [exact Hm|].
  cbn [trace_ set_trace_ set_is_downloading_ set_buffer_size_ set_audio_buffer_].
  subst s0. cbn [trace_ set_trace_]. rewrite <- !app_assoc. reflexivity.
Qed.

Lemma producer_queues_reads_in_order_witness :
  exists s',
    DownloadAudioStreamFromUrl (mkHttpEnv [true] 200) 0 short_stream session_started
    = Done tt s'
    /\ audio_buffer_ s' = [mkChunk [Byte.x01; Byte.x02; Byte.x03] 3]
    /\ buffer_size_ s' = 3.
Proof.
  destruct (producer_queues_reads_in_order (mkHttpEnv [true] 200) 0
              [mkReadEnv 3 [Byte.x01; Byte.x02; Byte.x03] 5 true]
              (mkReadEnv 0 [] 6 true) session_started)
    as (s' & E & Hq & Hs & _).
  - discriminate.
  - reflexivity.
  - reflexivity.
  - left. reflexivity.
  - split; [reflexivity | constructor | reflexivity | reflexivity].
  - reflexivity.
  - reflexivity.
  - repeat constructor; cbn; rewrite ?READ_CHUNK_SIZE_eq; lia.
  - discriminate.
  - cbn. lia.
  - vm_compute. discriminate.
  - exists s'. split; [exact E|]. split; [exact Hq | exact Hs].
Defined.

(** X6.  A [Read] that fails (a negative count) is not treated as
    fatal: whenever it comes first, the producer only closes the
    transport, clears [is_downloading_] and wakes the waiters.  The
    fatal cleanup is not run: [is_playing_] stays as it was, the sample
    rate is not reset and the queue is left alone; nothing else of the
    object changes. *)
Theorem read_error_ends_like_end_of_stream (env : HttpEnv) (ts : Z)
    (r : ReadEnv) (tail : list ReadEnv) (s : Esp32Sing) :
  current_stream_url_ s <> EmptyString ->
  use_post (current_stream_url_ s) = false ->
  nth 0 (open_results env) false = true ->
  status_code env = 200 \/ status_code env = 206 ->
  buffer_mutex_ s = false -> is_downloading_ s = true -> is_playing_ s = true ->
  bytes_read r < 0 ->
  DownloadAudioStreamFromUrl env ts (r :: tail) s
  = Done tt
      (set_is_downloading_ false
         (set_trace_ (trace_ s ++ request_headers (current_stream_url_ s)
                      ++ [EvHttpOpen "GET" (current_stream_url_ s);
                          EvHttpClose; EvNotifyAll]) s)).
Proof.
  intros Hurl Hpost Hopen Hstatus Hm Hd Hp Hr.
  rewrite status_ok_streams by assumption.
  unfold bind at 1.
  rewrite download_loop_end; [| exact Hd | exact Hp | left; exact Hr].
  rewrite download_exit_normal; [| reflexivity | exact Hm].
  cbn [trace_ set_trace_]. rewrite ?set_trace_set_trace.
  rewrite <- !app_assoc. reflexivity.
Qed.

Lemma read_error_ends_like_end_of_stream_witness :
  exists s',
    DownloadAudioStreamFromUrl (mkHttpEnv [true] 200) 0
      [mkReadEnv (-1) [] 5 true] session_started = Done tt s'
    /\ is_downloading_ s' = false /\ is_playing_ s' = true.
Proof.
  eexists. split.
  - apply (read_error_ends_like_end_of_stream (mkHttpEnv [true] 200) 0
             (mkReadEnv (-1) [] 5 true) [] session_started);
      first [discriminate | reflexivity | (left; reflexivity)].
  - split; reflexivity.
Defined.

Lemma download_loop_polls ts polls : forall tail l s,
  is_downloading_ s = true -> is_playing_ s = true ->
  got_first_byte l = false ->
  Forall (early_poll ts (open_timeout_ms_ s)) polls ->
  download_loop ts (polls ++ tail) l s
  = download_loop ts tail l
      (set_trace_ (trace_ s ++ repeat (EvDelay 50) (List.length polls)) s).
Proof.
  induction polls as [|r polls IH]; intros tail l s Hd Hp Hg Hall.
  - cbn [app List.length repeat]. f_equal. destruct s; cbn.
    rewrite app_nil_r. reflexivity.
  - inversion Hall as [|? ? [Hr Ht] Hall']; subst.
    cbn [app]. rewrite download_loop_step by assumption.
    unfold bind at 1. unfold download_iteration.
    rewrite Hr, Hg. cbn [Z.ltb Z.eqb Z.compare negb].
    rewrite bind_gets.
    replace (open_timeout_ms_ s <=? now_ms r - ts) with false
      by (symmetry; apply Z.leb_gt; exact Ht).
    unfold vTaskDelay. rewrite bind_emit. unfold ret.
    rewrite IH; [| exact Hd | exact Hp | exact Hg | exact Hall'].
    f_equal. destruct s; cbn. rewrite <- app_assoc. reflexivity.
Qed.

(** X7.  The first-byte deadline.  While no byte has arrived, a [Read]
    of zero bytes before [open_timeout_ms_] has passed since the loop
    started costs a wait of 50 ms and another [Read]; the first one at
    or after the deadline ends the loop as a timeout.  The producer
    then closes the transport, waits 100 ms, resets the sample rate,
    clears both run flags and stops inside its cleanup, holding
    [buffer_mutex_]: the queue is not cleared and the function does not
    return. *)
Theorem first_byte_timeout_polls_then_stops (env : HttpEnv) (ts : Z)
    (polls : list ReadEnv) (late : ReadEnv) (tail : list ReadEnv) (s : Esp32Sing) :
  current_stream_url_ s <> EmptyString ->
  use_post (current_stream_url_ s) = false ->
  nth 0 (open_results env) false = true ->
  status_code env = 200 \/ status_code env = 206 ->
  buffer_mutex_ s = false -> is_downloading_ s = true -> is_playing_ s = true ->
  Forall (early_poll ts (open_timeout_ms_ s)) polls ->
  bytes_read late = 0 -> open_timeout_ms_ s <= now_ms late - ts ->
  DownloadAudioStreamFromUrl env ts (polls ++ late :: tail) s
  = Deadlock
      (set_buffer_mutex_ true
         (set_is_playing_ false
            (set_is_downloading_ false
               (set_trace_
                  (trace_ s ++ request_headers (current_stream_url_ s)
                   ++ [EvHttpOpen "GET" (current_stream_url_ s)]
                   ++ repeat (EvDelay 50) (List.length polls)
                   ++ [EvHttpClose; EvDelay 100; EvResetSampleRate; EvNotifyAll]) s)))).
Proof.
  intros Hurl Hpost Hopen Hstatus Hm Hd Hp Hall Hr Ht.
  rewrite status_ok_streams by assumption.
  unfold bind at 1.
  rewrite download_loop_polls; [| exact Hd | exact Hp | reflexivity | exact Hall].
  rewrite download_loop_step by assumption.
  unfold bind at 1. unfold download_iteration.
  rewrite Hr. cbn [Z.ltb Z.eqb Z.compare negb got_first_byte].
  rewrite bind_gets. cbn [open_timeout_ms_ set_trace_].
  apply Z.leb_le in Ht. rewrite Ht. unfold ret.
  unfold download_exit. cbn [first_byte_timeout]. unfold vTaskDelay.
  rewrite !bind_emit. cbn [trace_ set_trace_]. rewrite !set_trace_set_trace.
  rewrite fatal_cleanup_deadlock by exact Hm.
  cbn [trace_ set_trace_]. rewrite ?set_trace_set_trace.
  rewrite <- !app_assoc. reflexivity.
Qed.

Lemma first_byte_timeout_polls_then_stops_witness :
  exists s',
    DownloadAudioStreamFromUrl (mkHttpEnv [true] 200) 0
      [mkReadEnv 0 [] 50 true; mkReadEnv 0 [] 10000 true] session_started
    = Deadlock s'
    /\ is_downloading_ s' = false /\ is_playing_ s' = false
    /\ buffer_mutex_ s' = true.
Proof.
  eexists. split.
  - apply (first_byte_timeout_polls_then_stops (mkHttpEnv [true] 200) 0
             [mkReadEnv 0 [] 50 true] (mkReadEnv 0 [] 10000 true) [] session_started);
      [discriminate | reflexivity | reflexivity | left; reflexivity
      | reflexivity | reflexivity | reflexivity
      | constructor; [split; vm_compute; reflexivity | constructor]
      | reflexivity | vm_compute; discriminate].
  - repeat split; reflexivity.
Defined.

(** X8.  Cancellation before the first read.  When either run flag has
    been cleared by the time the response is in, the producer does not
    call [Read] at all (whatever the transport would answer): it closes
    the transport, clears [is_downloading_], wakes the waiters and
    returns, the queue untouched. *)
Theorem cancelled_producer_reads_nothing (env : HttpEnv) (ts : Z)
    (reads : list ReadEnv) (s : Esp32Sing) :
  current_stream_url_ s <> EmptyString ->
  use_post (current_stream_url_ s) = false ->
  nth 0 (open_results env) false = true ->
  status_code env = 200 \/ status_code env = 206 ->
  buffer_mutex_ s = false ->
  is_downloading_ s = false \/ is_playing_ s = false ->
  DownloadAudioStreamFromUrl env ts reads s
  = Done tt
      (set_is_downloading_ false
         (set_trace_ (trace_ s ++ request_headers (current_stream_url_ s)
                      ++ [EvHttpOpen "GET" (current_stream_url_ s);
                          EvHttpClose; EvNotifyAll]) s)).
Proof.
  intros Hurl Hpost Hopen Hstatus Hm Hc.
  rewrite status_ok_streams by assumption.
  unfold bind at 1.
  rewrite download_loop_cancelled by exact Hc.
  rewrite download_exit_normal; [| reflexivity | exact Hm].
  cbn [trace_ set_trace_]. rewrite ?set_trace_set_trace.
  rewrite <- !app_assoc. reflexivity.
Qed.

Lemma cancelled_producer_reads_nothing_witness :
  exists s',
    DownloadAudioStreamFromUrl (mkHttpEnv [true] 200) 0 short_stream
      (set_is_playing_ false session_started) = Done tt s'
    /\ audio_buffer_ s' = [] /\ is_downloading_ s' = false.
Proof.
  eexists. split.
  - apply (cancelled_producer_reads_nothing (mkHttpEnv [true] 200) 0 short_stream
             (set_is_playing_ false session_started));
      first [discriminate | reflexivity | (left; reflexivity) | (right; reflexivity)].
  - split; reflexivity.
Defined.

(** ** The session controller *)

Lemma lock_guard_notify_all_state s :
  buffer_mutex_ s = false ->
  lock_guard notify_all s = Done tt (set_trace_ (trace_ s ++ [EvNotifyAll]) s).
Proof.
  intros Hm. unfold lock_guard, notify_all. run. rewrite Hm. cbn.
  f_equal. destruct s; cbn in *. subst. reflexivity.
Qed.

Lemma poll_blind_state n : forall s,
  poll_blind n s = Done tt (set_trace_ (trace_ s ++ repeat (EvDelay 10) n) s).
Proof.
  induction n as [|n IH]; intros s.
  - cbn. unfold ret. f_equal. destruct s; cbn. rewrite app_nil_r. reflexivity.
  - cbn [poll_blind]. unfold vTaskDelay. rewrite bind_emit, IH.
    cbn [trace_ set_trace_ repeat]. rewrite set_trace_set_trace, <- app_assoc.
    reflexivity.
Qed.

(** No poll changes a thread handle, so a handle that is joinable when
    the polls start is joinable at each of them. *)
Lemma poll_joinable_state handle n : forall s,
  (forall t s, handle (set_trace_ t s) = handle s) ->
  handle s = true ->
  poll_joinable handle n s
  = Done tt (set_trace_ (trace_ s ++ repeat (EvDelay 10) n) s).
Proof.
  induction n as [|n IH]; intros s Hh Hj.
  - cbn. unfold ret. f_equal. destruct s; cbn. rewrite app_nil_r. reflexivity.
  - cbn [poll_joinable]. unfold vTaskDelay. rewrite bind_emit, bind_gets.
    rewrite Hh, Hj. cbn [negb]. rewrite IH by (rewrite ?Hh; assumption).
    cbn [trace_ set_trace_ repeat]. rewrite set_trace_set_trace, <- app_assoc.
    reflexivity.
Qed.


(** Brings the object back to nested updates of [s] after a step. *)
Ltac norm :=
  cbn [trace_ download_thread_ play_thread_ lyric_thread_ buffer_mutex_ audio_buffer_
       is_playing_ is_downloading_ base_host_
       set_is_playing_ set_is_downloading_ set_is_lyric_running_ set_trace_
       set_download_thread_ set_play_thread_ set_lyric_thread_
       set_audio_buffer_ set_buffer_size_
       set_current_song_name_ set_current_query_value_ set_current_stream_url_
       set_last_downloaded_data_ set_current_song_id_
       set_wav_mode_ set_wav_header_parsed_ set_wav_channels_ set_wav_sample_rate_
       set_wav_bits_per_sample_ set_mp3_decoder_initialized_];
  rewrite ?set_trace_set_trace.

(** Both sides of an equation between objects as records. *)
Ltac records :=
  cbv [base_host_ open_timeout_ms_ current_stream_url_ current_query_value_
       current_song_id_ current_song_name_ last_downloaded_data_
       song_name_displayed_ is_lyric_running_ display_mode_ is_playing_
       is_downloading_ play_thread_ download_thread_ lyric_thread_ audio_buffer_
       buffer_mutex_ buffer_size_ mp3_decoder_initialized_ wav_mode_
       wav_header_parsed_ wav_channels_ wav_sample_rate_ wav_bits_per_sample_ trace_
       set_is_playing_ set_is_downloading_ set_is_lyric_running_ set_trace_
       set_download_thread_ set_play_thread_ set_lyric_thread_
       set_audio_buffer_ set_buffer_size_ set_buffer_mutex_
       set_current_song_name_ set_current_query_value_ set_current_stream_url_
       set_last_downloaded_data_ set_current_song_id_ set_song_name_displayed_
       set_wav_mode_ set_wav_header_parsed_ set_wav_channels_ set_wav_sample_rate_
       set_wav_bits_per_sample_ set_mp3_decoder_initialized_].

Lemma abandon_play_thread_state s :
  buffer_mutex_ s = false ->
  abandon_play_thread s
  = Done tt
      (if play_thread_ s
       then set_play_thread_ false
              (set_trace_ (trace_ s ++ [EvNotifyAll] ++ repeat (EvDelay 10) 100
                           ++ [EvThreadDetach ThPlay])
                 (set_is_playing_ false s))
       else s).
Proof.
  intros Hm. unfold abandon_play_thread. rewrite bind_gets.
  destruct (play_thread_ s) eqn:Hj; [|reflexivity].
  rewrite bind_modify. unfold bind at 1.
  rewrite lock_guard_notify_all_state by exact Hm.
  unfold bind at 1. rewrite poll_blind_state.
  rewrite bind_gets. norm. rewrite Hj.
  unfold detach. rewrite bind_emit. norm. unfold modify.
  rewrite <- !app_assoc. reflexivity.
Qed.

Lemma StartStreaming_state url s :
  url <> EmptyString -> buffer_mutex_ s = false ->
  StartStreaming url s = Done true (restarted url s).
Proof.
  intros Hurl Hm. unfold StartStreaming.
  apply String.eqb_neq in Hurl. rewrite Hurl.
  rewrite !bind_modify. unfold bind at 1.
  rewrite lock_guard_notify_all_state by exact Hm.
  rewrite bind_gets. norm.
  unfold restarted, restart_events.
  destruct (download_thread_ s) eqn:Hd.
  - rewrite bind_bind. unfold bind at 1.
    rewrite poll_joinable_state; [| reflexivity | exact Hd].
    rewrite bind_bind, bind_gets. norm. rewrite Hd.
    unfold detach. rewrite bind_bind, bind_emit. norm. rewrite bind_modify.
    unfold bind at 1. rewrite abandon_play_thread_state by exact Hm. norm.
    destruct (play_thread_ s) eqn:Hp.
    all: unfold bind at 1; rewrite ClearAudioBuffer_state by exact Hm; norm;
      rewrite !bind_modify; rewrite bind_emit; norm;
      rewrite !bind_modify; rewrite bind_emit; norm;
      rewrite !bind_modify; unfold ret; f_equal;
      destruct s; records; f_equal; rewrite <- !app_assoc; reflexivity.
  - rewrite bind_ret.
    unfold bind at 1. rewrite abandon_play_thread_state by exact Hm. norm.
    destruct (play_thread_ s) eqn:Hp.
    all: unfold bind at 1; rewrite ClearAudioBuffer_state by exact Hm; norm;
      rewrite !bind_modify; rewrite bind_emit; norm;
      rewrite !bind_modify; rewrite bind_emit; norm;
      rewrite !bind_modify; unfold ret; f_equal;
      destruct s; records; f_equal; rewrite <- !app_assoc; reflexivity.
Qed.

(** X9.  StartStreaming with a URL, on an object whose mutex is free,
    always returns true, and on a fresh session: the queue is empty and
    the byte count zero, the container state is back at its defaults
    (not WAV, header not parsed, one channel, 16000 Hz, 16 bits), the
    URL is the current one, both run flags are set and both thread
    handles joinable. *)
Theorem start_streaming_opens_fresh_session (url : string) (s : Esp32Sing) :
  url <> EmptyString -> buffer_mutex_ s = false ->
  exists s',
    StartStreaming url s = Done true s'
    /\ current_stream_url_ s' = url
    /\ is_downloading_ s' = true /\ is_playing_ s' = true
    /\ download_thread_ s' = true /\ play_thread_ s' = true
    /\ audio_buffer_ s' = [] /\ buffer_size_ s' = 0 /\ buffer_mutex_ s' = false
    /\ wav_mode_ s' = false /\ wav_header_parsed_ s' = false
    /\ wav_channels_ s' = 1 /\ wav_sample_rate_ s' = 16000
    /\ wav_bits_per_sample_ s' = 16.
Proof.
  intros Hurl Hm. exists (restarted url s).
  split; [apply StartStreaming_state; assumption|].
  do 7 (split; [reflexivity|]). split; [exact Hm|].
  repeat split; reflexivity.
Qed.

Lemma start_streaming_opens_fresh_session_witness :
  exists s',
    StartStreaming "http://h/a.mp3" streaming_session = Done true s'
    /\ audio_buffer_ s' = [] /\ buffer_size_ s' = 0 /\ wav_mode_ s' = false.
Proof.
  destruct (start_streaming_opens_fresh_session "http://h/a.mp3" streaming_session)
    as (s' & E & _ & _ & _ & _ & _ & Hq & Hs & _ & Hw & _).
  - discriminate.
  - reflexivity.
  - exists s'. repeat split; assumption.
Defined.

(** X10.  StartStreaming never joins a previous task.  A previous
    download thread that is joinable at entry is polled a hundred
    times, 10 ms apart, and then detached, since no poll can see it
    finish; a previous play thread is given the same hundred waits and
    detached.  So a restart costs one second for each previous thread,
    and its effects are exactly: a wake-up, those waits and detaches,
    one release per resident chunk, and the start of the two new
    tasks. *)
Theorem start_streaming_detaches_after_one_second (url : string) (s : Esp32Sing) :
  url <> EmptyString -> buffer_mutex_ s = false ->
  exists s',
    StartStreaming url s = Done true s'
    /\ trace_ s'
       = trace_ s ++ [EvNotifyAll]
         ++ (if download_thread_ s
             then repeat (EvDelay 10) 100 ++ [EvThreadDetach ThDownload] else [])
         ++ (if play_thread_ s
             then [EvNotifyAll] ++ repeat (EvDelay 10) 100 ++ [EvThreadDetach ThPlay]
             else [])
         ++ repeat EvFree (List.length (audio_buffer_ s))
         ++ [EvThreadStart ThDownload; EvThreadStart ThPlay]
    /\ (forall t, ~ In (EvThreadJoin t) (restart_events s)).
Proof.
  intros Hurl Hm. exists (restarted url s).
  split; [apply StartStreaming_state; assumption|].
  split; [reflexivity|].
  intros t. unfold restart_events. rewrite !in_app_iff.
  intros H.
  repeat match goal with
         | H : _ \/ _ |- _ => destruct H as [H|H]
         | H : In _ (if ?b then _ else _) |- _ => destruct b
         | H : In _ (_ ++ _) |- _ => apply in_app_iff in H
         | H : In _ (repeat _ _) |- _ => apply repeat_spec in H; discriminate H
         | H : In _ (_ :: _) |- _ => destruct H as [H|H]; [discriminate H|]
         | H : In _ [] |- _ => destruct H
         end.
Qed.

Lemma start_streaming_detaches_after_one_second_witness :
  exists s',
    StartStreaming "http://h/a.mp3" streaming_session = Done true s'
    /\ trace_ s'
       = trace_ streaming_session ++ [EvNotifyAll]
         ++ (repeat (EvDelay 10) 100 ++ [EvThreadDetach ThDownload])
         ++ ([EvNotifyAll] ++ repeat (EvDelay 10) 100 ++ [EvThreadDetach ThPlay])
         ++ [EvFree; EvFree]
         ++ [EvThreadStart ThDownload; EvThreadStart ThPlay].
Proof.
  destruct (start_streaming_detaches_after_one_second "http://h/a.mp3" streaming_session)
    as (s' & E & Ht & _).
  - discriminate.
  - reflexivity.
  - exists s'. split; [exact E | exact Ht].
Defined.

Lemma url_encode_simple_app a b :
  url_encode_simple (String.append a b)
  = String.append (url_encode_simple a) (url_encode_simple b).
Proof.
  induction a as [|c a IH]; cbn [String.append url_encode_simple]; [reflexivity|].
  rewrite IH. generalize (encode_char c) as e. intros e.
  induction e as [|x e IHe]; cbn [String.append]; [reflexivity|].
  rewrite IHe. reflexivity.
Qed.

Lemma append_not_empty a c b : String.append a (String c b) <> EmptyString.
Proof. destruct a; discriminate. Qed.

Lemma Download_state song_name artist_name s :
  buffer_mutex_ s = false ->
  (song_name <> EmptyString \/ artist_name <> EmptyString) ->
  let url := String.append (base_host_ s)
               (String.append "/stream"
                  (String.append "?raw_query="
                     (url_encode_simple (raw_query_of song_name artist_name)))) in
  Download song_name artist_name s
  = Done true
      (restarted url
         (set_last_downloaded_data_ url
            (set_current_stream_url_ url
               (set_current_query_value_ (raw_query_of song_name artist_name)
                  (set_current_song_name_ song_name s))))).
Proof.
  intros Hm Hne url. unfold Download.
  replace (String.eqb song_name EmptyString && String.eqb artist_name EmptyString)
    with false.
  2:{ symmetry. apply andb_false_iff.
      destruct Hne as [H|H]; [left | right]; apply String.eqb_neq; exact H. }
  rewrite bind_modify. fold (raw_query_of song_name artist_name).
  rewrite bind_modify, bind_gets. norm. fold url.
  rewrite !bind_modify. unfold bind at 1.
  rewrite StartStreaming_state; [reflexivity | apply append_not_empty | exact Hm].
Qed.

(** X11.  Download with a song or an artist name, on an object whose
    mutex is free, always returns true.  The request it starts is
    base_host_ followed by /stream?raw_query= and the encoded query,
    where the query is the artist, a plus sign and the song when both
    are given, and the one that is given otherwise; the plus sign
    between them is sent as %2B and each name is encoded on its own.
    The same URL is what GetDownloadResult returns afterwards, the song
    name is recorded, and the session is running. *)
Theorem download_builds_encoded_request (song_name artist_name : string) (s : Esp32Sing) :
  buffer_mutex_ s = false ->
  (song_name <> EmptyString \/ artist_name <> EmptyString) ->
  exists s',
    Download song_name artist_name s = Done true s'
    /\ current_stream_url_ s'
       = String.append (base_host_ s)
           (String.append "/stream?raw_query="
              (if String.eqb song_name EmptyString then url_encode_simple artist_name
               else if String.eqb artist_name EmptyString then url_encode_simple song_name
               else String.append (url_encode_simple artist_name)
                      (String.append "%2B" (url_encode_simple song_name))))
    /\ GetDownloadResult s' = Done (current_stream_url_ s') s'
    /\ current_song_name_ s' = song_name
    /\ is_downloading_ s' = true /\ is_playing_ s' = true
    /\ audio_buffer_ s' = [].
Proof.
  intros Hm Hne. eexists. split; [apply Download_state; assumption|].
  split; [|repeat split; reflexivity].
  cbn [current_stream_url_ restarted set_play_thread_ set_download_thread_
       set_is_playing_ set_is_downloading_ set_current_stream_url_ base_host_].
  f_equal. cbn [String.append]. f_equal.
  unfold raw_query_of.
  destruct (String.eqb song_name EmptyString) eqn:Hs;
    destruct (String.eqb artist_name EmptyString) eqn:Ha; cbn [negb andb];
    try reflexivity.
  rewrite url_encode_simple_app. f_equal.
Qed.

Lemma download_builds_encoded_request_witness :
  exists s',
    Download "a b" "c+d" Esp32Sing_new = Done true s'
    /\ current_stream_url_ s'
       = "http://8.134.249.85:18080/stream?raw_query=c%2Bd%2Ba%20b"%string.
Proof.
  destruct (download_builds_encoded_request "a b" "c+d" Esp32Sing_new)
    as (s' & E & Hu & _).
  - reflexivity.
  - left. discriminate.
  - exists s'. split; [exact E | exact Hu].
Defined.

(** X12.  Once the now-playing label has been set, it is not set again
    for a later song: Download records the new song name and starts the
    session but leaves [song_name_displayed_] set, and with that flag
    set the consumer's label step does nothing, with or without a
    display. *)
Theorem label_not_shown_for_later_song (song_name artist_name : string)
    (display : bool) (s : Esp32Sing) :
  buffer_mutex_ s = false ->
  (song_name <> EmptyString \/ artist_name <> EmptyString) ->
  song_name_displayed_ s = true ->
  exists s',
    Download song_name artist_name s = Done true s'
    /\ current_song_name_ s' = song_name
    /\ song_name_displayed_ s' = true
    /\ show_song_name display s' = Done tt s'.
Proof.
  intros Hm Hne Hshown. eexists. split; [apply Download_state; assumption|].
  split; [reflexivity|]. split; [exact Hshown|].
  unfold show_song_name. rewrite !bind_gets.
  cbn [song_name_displayed_ restarted set_play_thread_ set_download_thread_
       set_is_playing_ set_is_downloading_ set_current_stream_url_
       set_wav_bits_per_sample_ set_wav_sample_rate_ set_wav_channels_
       set_wav_header_parsed_ set_wav_mode_ set_buffer_size_ set_audio_buffer_
       set_trace_ set_last_downloaded_data_ set_current_query_value_
       set_current_song_name_].
  rewrite Hshown. reflexivity.
Qed.

Lemma label_not_shown_for_later_song_witness :
  exists s',
    Download "b" "a" (set_song_name_displayed_ true Esp32Sing_new) = Done true s'
    /\ current_song_name_ s' = "b"%string
    /\ show_song_name true s' = Done tt s'.
Proof.
  destruct (label_not_shown_for_later_song "b" "a" true
              (set_song_name_displayed_ true Esp32Sing_new))
    as (s' & E & Hn & _ & Hl).
  - reflexivity.
  - left. discriminate.
  - reflexivity.
  - exists s'. repeat split; assumption.
Defined.

Lemma join_if_joinable t rest s :
  task_exit rest -> buffer_mutex_ s = false ->
  exists s' evs,
    (if handle_of t s then join t rest else ret tt) s = Done tt s'
    /\ buffer_mutex_ s' = false
    /\ handle_of t s' = false
    /\ (forall t', t' <> t -> handle_of t' s' = handle_of t' s)
    /\ trace_ s' = trace_ s ++ (if handle_of t s then evs ++ [EvThreadJoin t] else [])
    /\ existsb is_thread_event evs = false
    /\ (handle_of t s = true ->
        exists s1, rest s = Done tt s1 /\ trace_ s1 = trace_ s ++ evs).
Proof.
  intros Hrest Hm. destruct (handle_of t s) eqn:Hj.
  - destruct (Hrest s Hm) as (s1 & evs & E & Hm1 & Hd1 & Hp1 & Hl1 & Ht1 & Hev).
    unfold join. unfold bind at 1. rewrite E. rewrite bind_emit.
    destruct t; unfold modify; eexists; exists evs; (split; [reflexivity|]);
      (split; [exact Hm1|]); (split; [reflexivity|]);
      (split; [intros t' Ht'; destruct t'; try contradiction; cbn; assumption|]);
      (split; [cbn; rewrite Ht1, <- app_assoc; reflexivity|]);
      (split; [exact Hev|]); intros _; exists s1; (split; [reflexivity | exact Ht1]).
  - exists s, []. split; [reflexivity|]. split; [exact Hm|]. split; [exact Hj|].
    split; [reflexivity|]. split; [symmetry; apply app_nil_r|].
    split; [reflexivity | discriminate].
Qed.


Lemma task_exit_producer_rest : task_exit producer_rest.
Proof.
  intros s Hm. unfold producer_rest.
  rewrite download_exit_normal; [| reflexivity | exact Hm].
  eexists. exists [EvHttpClose; EvNotifyAll]. split; [reflexivity|].
  split; [exact Hm|]. do 4 (split; [reflexivity|]). reflexivity.
Qed.

Lemma task_exit_consumer_rest : task_exit consumer_rest.
Proof.
  intros s Hm. eexists.
  exists [EvFree; EvResetSampleRate; EvSetMusicInfo EmptyString].
  split; [reflexivity|]. split; [exact Hm|]. do 3 (split; [reflexivity|]).
  split; [cbn; rewrite <- !app_assoc; reflexivity | reflexivity].
Qed.

(** What StartStreamingById does once the previous download thread is
    out of the way. *)
Lemma start_by_id_tail id s :
  buffer_mutex_ s = false ->
  (abandon_play_thread ;;
   ClearAudioBuffer ;;
   modify (set_current_song_id_ id) ;;
   modify (set_is_downloading_ true) ;;
   emit (EvThreadStart ThDownload) ;;
   modify (set_download_thread_ true) ;;
   modify (set_is_playing_ true) ;;
   emit (EvThreadStart ThPlay) ;;
   modify (set_play_thread_ true) ;;
   ret true) s
  = Done true
      (set_play_thread_ true
         (set_download_thread_ true
            (set_is_playing_ true
               (set_is_downloading_ true
                  (set_current_song_id_ id
                     (set_buffer_size_ 0
                        (set_audio_buffer_ []
                           (set_trace_
                              (trace_ s
                               ++ (if play_thread_ s
                                   then [EvNotifyAll] ++ repeat (EvDelay 10) 100
                                        ++ [EvThreadDetach ThPlay]
                                   else [])
                               ++ repeat EvFree (List.length (audio_buffer_ s))
                               ++ [EvThreadStart ThDownload; EvThreadStart ThPlay])
                              s)))))))).
Proof.
  intros Hm.
  unfold bind at 1. rewrite abandon_play_thread_state by exact Hm. norm.
  destruct (play_thread_ s) eqn:Hp.
  all: unfold bind at 1; rewrite ClearAudioBuffer_state by exact Hm; norm;
    rewrite !bind_modify; rewrite bind_emit; norm;
    rewrite !bind_modify; rewrite bind_emit; norm;
    rewrite !bind_modify; unfold ret; f_equal;
    destruct s; records; cbn in Hp; subst; f_equal; rewrite <- !app_assoc; reflexivity.
Qed.

Lemma keeps_container_ret : keeps_container (ret tt).
Proof. intros s s' H. inversion H; subst. repeat split. Qed.

Lemma keeps_container_producer_rest : keeps_container producer_rest.
Proof.
  intros s s' H. unfold producer_rest, download_exit in H.
  cbn [first_byte_timeout] in H. rewrite bind_emit, bind_modify in H.
  unfold lock_guard in H. apply bind_Done in H. destruct H as (u & s1 & H1 & H).
  unfold lock in H1. cbn [buffer_mutex_ set_is_downloading_ set_trace_] in H1.
  destruct (buffer_mutex_ s); [discriminate H1|]. inversion H1; subst. clear H1.
  unfold notify_all in H. rewrite bind_emit in H. unfold unlock in H.
  rewrite bind_modify in H. inversion H; subst. repeat split.
Qed.

(** X13.  StartStreamingById, unlike StartStreaming, does not put the
    container state back.  Entered with the mutex free, whether or not
    the previous download thread is still joinable, and with a previous
    download task that, once cancelled, runs to its end (giving the
    mutex back, touching no thread handle, starting, joining or
    detaching no thread) without touching the container state or the
    current URL, it starts a session that inherits WAV mode, the
    header-parsed flag, the channel count, the sample rate and the bit
    depth of the session before, and the current URL stays the old one
    until the new producer sets it.  A previous download thread that is
    joinable is joined, after its task has ended, before anything else
    is done.  When the session before had parsed a WAV header, no chunk
    of the new stream is examined for its format. *)
Theorem start_by_id_inherits_container_state (rest : M unit) (id : string)
    (s : Esp32Sing) :
  id <> EmptyString -> buffer_mutex_ s = false ->
  task_exit rest -> keeps_container rest ->
  exists s' evs n,
    StartStreamingById rest id s = Done true s'
    /\ current_song_id_ s' = id
    /\ is_downloading_ s' = true /\ is_playing_ s' = true
    /\ audio_buffer_ s' = [] /\ buffer_size_ s' = 0
    /\ current_stream_url_ s' = current_stream_url_ s
    /\ wav_mode_ s' = wav_mode_ s
    /\ wav_header_parsed_ s' = wav_header_parsed_ s
    /\ wav_channels_ s' = wav_channels_ s
    /\ wav_sample_rate_ s' = wav_sample_rate_ s
    /\ wav_bits_per_sample_ s' = wav_bits_per_sample_ s
    /\ (wav_header_parsed_ s = true ->
        forall fuel chunk id3, detect_wav fuel chunk id3 s' = Done (chunk, id3) s')
    /\ trace_ s'
       = trace_ s ++ [EvNotifyAll]
         ++ (if download_thread_ s then evs ++ [EvThreadJoin ThDownload] else [])
         ++ (if play_thread_ s
             then [EvNotifyAll] ++ repeat (EvDelay 10) 100 ++ [EvThreadDetach ThPlay]
             else [])
         ++ repeat EvFree n
         ++ [EvThreadStart ThDownload; EvThreadStart ThPlay]
    /\ existsb is_thread_event evs = false
    /\ (download_thread_ s = true ->
        exists s1,
          rest (set_trace_ (trace_ s ++ [EvNotifyAll])
                  (set_is_playing_ false (set_is_downloading_ false s))) = Done tt s1
          /\ trace_ s1 = trace_ s ++ [EvNotifyAll] ++ evs).
Proof.
  intros Hid Hm Hrest Hkeep. unfold StartStreamingById.
  apply String.eqb_neq in Hid. rewrite Hid.
  rewrite !bind_modify. unfold bind at 1.
  rewrite lock_guard_notify_all_state by exact Hm.
  rewrite bind_gets. norm.
  destruct (download_thread_ s) eqn:Hd.
  - destruct (Hrest (set_trace_ (trace_ s ++ [EvNotifyAll])
                       (set_is_playing_ false (set_is_downloading_ false s))) Hm)
      as (s1 & evs & E & Hm1 & Hd1 & Hp1 & Hl1 & Ht1 & Hev).
    destruct (Hkeep _ s1 E) as (Kw & Kh & Kc & Kr & Kb & Ku).
    unfold bind at 1. unfold join. unfold bind at 1. rewrite E.
    rewrite bind_emit. unfold modify at 1.
    rewrite start_by_id_tail by exact Hm1.
    norm. cbn [play_thread_ trace_ set_trace_ set_is_playing_ set_is_downloading_]
      in Hp1, Ht1.
    cbn [wav_mode_ wav_header_parsed_ wav_channels_ wav_sample_rate_ wav_bits_per_sample_
         current_stream_url_ set_trace_ set_is_playing_ set_is_downloading_]
      in Kw, Kh, Kc, Kr, Kb, Ku.
    eexists. exists evs. eexists. split; [reflexivity|].
    cbn [current_song_id_ is_downloading_ is_playing_ audio_buffer_ buffer_size_
         current_stream_url_ wav_mode_ wav_header_parsed_ wav_channels_ wav_sample_rate_
         wav_bits_per_sample_ trace_ play_thread_
         set_play_thread_ set_download_thread_ set_is_playing_ set_is_downloading_
         set_current_song_id_ set_buffer_size_ set_audio_buffer_ set_trace_].
    do 5 (split; [reflexivity|]).
    split; [exact Ku|]. split; [exact Kw|]. split; [exact Kh|]. split; [exact Kc|].
    split; [exact Kr|]. split; [exact Kb|].
    split.
    { intros Hparsed fuel chunk id3. unfold detect_wav. rewrite bind_gets.
      cbn [wav_header_parsed_ set_play_thread_ set_download_thread_ set_is_playing_
           set_is_downloading_ set_current_song_id_ set_buffer_size_ set_audio_buffer_
           set_trace_].
      rewrite Kh, Hparsed. reflexivity. }
    split.
    { rewrite Ht1, Hp1. rewrite <- !app_assoc. reflexivity. }
    split; [exact Hev|].
    intros _. exists s1. split; [reflexivity|]. rewrite Ht1, <- app_assoc. reflexivity.
  - rewrite bind_ret. rewrite start_by_id_tail by exact Hm. norm.
    eexists. exists []. eexists. split; [reflexivity|].
    cbn [current_song_id_ is_downloading_ is_playing_ audio_buffer_ buffer_size_
         current_stream_url_ wav_mode_ wav_header_parsed_ wav_channels_ wav_sample_rate_
         wav_bits_per_sample_ trace_ play_thread_
         set_play_thread_ set_download_thread_ set_is_playing_ set_is_downloading_
         set_current_song_id_ set_buffer_size_ set_audio_buffer_ set_trace_].
    do 11 (split; [reflexivity|]).
    split.
    { intros Hparsed fuel chunk id3. unfold detect_wav. rewrite bind_gets.
      cbn [wav_header_parsed_ set_play_thread_ set_download_thread_ set_is_playing_
           set_is_downloading_ set_current_song_id_ set_buffer_size_ set_audio_buffer_
           set_trace_].
      rewrite Hparsed. reflexivity. }
    split; [rewrite <- !app_assoc; reflexivity|].
    split; [reflexivity|]. discriminate.
Qed.

Lemma start_by_id_inherits_container_state_witness :
  download_thread_ streaming_session = true
  /\ exists s',
       StartStreamingById producer_rest "y"
         (set_wav_mode_ true
            (set_wav_header_parsed_ true (set_wav_channels_ 2 streaming_session)))
       = Done true s'
       /\ wav_mode_ s' = true /\ wav_header_parsed_ s' = true /\ wav_channels_ s' = 2.
Proof.
  split; [reflexivity|].
  destruct (start_by_id_inherits_container_state producer_rest "y"
              (set_wav_mode_ true
                 (set_wav_header_parsed_ true (set_wav_channels_ 2 streaming_session))))
    as (s' & evs & n & E & _ & _ & _ & _ & _ & _ & Hw & Hh & Hc & _).
  - discriminate.
  - reflexivity.
  - exact task_exit_producer_rest.
  - exact keeps_container_producer_rest.
  - exists s'. repeat split; assumption.
Defined.



(** ** The encoding of the query *)

Lemma url_decode_encode_char c rest :
  url_decode (String.append (encode_char c) rest)
  = option_map (String c) (url_decode rest).
Proof.
  destruct c as [[] [] [] [] [] [] [] []];
    cbn; destruct (url_decode rest); reflexivity.
Qed.

Lemma url_decode_encode s : url_decode (url_encode_simple s) = Some s.
Proof.
  induction s as [|c s IH]; [reflexivity|].
  cbn [url_encode_simple]. rewrite url_decode_encode_char, IH. reflexivity.
Qed.

(** X16.  The encoding of the query loses nothing: percent-decoding the
    encoded text gives the original text back, byte for byte, so two
    different queries are never sent as the same request. *)
Theorem url_encoding_round_trips (s : string) :
  url_decode (url_encode_simple s) = Some s
  /\ forall t, url_encode_simple t = url_encode_simple s -> t = s.
Proof.
  split; [apply url_decode_encode|].
  intros t H. apply (f_equal url_decode) in H.
  rewrite !url_decode_encode in H. injection H as H. exact H.
Qed.

Lemma encode_char_safe c x :
  In x (list_ascii_of_string (encode_char c)) ->
  is_unreserved x = true \/ x = "%"%char.
Proof.
  destruct c as [[] [] [] [] [] [] [] []]; cbn;
    intros H;
    repeat (destruct H as [H|H]; [subst x; first [left; reflexivity | right; reflexivity]|]);
    destruct H.
Qed.

Lemma encode_char_length c :
  (1 <= String.length (encode_char c) <= 3)%nat.
Proof.
  unfold encode_char. destruct (is_unreserved c); [cbn; lia|].
  destruct (N_of_ascii c =? 32)%N; [cbn; lia|].
  destruct (N_of_ascii c =? 43)%N; cbn; lia.
Qed.

Lemma list_ascii_of_string_app a b :
  list_ascii_of_string (String.append a b)
  = (list_ascii_of_string a ++ list_ascii_of_string b)%list.
Proof.
  induction a as [|x a IH]; cbn; [reflexivity|]. rewrite IH. reflexivity.
Qed.

Lemma string_length_app a b :
  String.length (String.append a b) = (String.length a + String.length b)%nat.
Proof.
  induction a as [|x a IH]; cbn; [reflexivity|]. rewrite IH. reflexivity.
Qed.

(** X17.  The encoded query is safe inside a URL: every character of it
    is a letter, a digit, one of - _ . ~ or a percent sign, so it holds
    no space, plus sign, ampersand, slash or question mark; and it is
    at least as long as the query and at most three times as long. *)
Theorem url_encoding_is_url_safe (s : string) :
  (forall x, In x (list_ascii_of_string (url_encode_simple s)) ->
             is_unreserved x = true \/ x = "%"%char)
  /\ (String.length s <= String.length (url_encode_simple s) <= 3 * String.length s)%nat.
Proof.
  induction s as [|c s [IH1 IH2]]; [split; [intros x []| cbn; lia]|].
  cbn [url_encode_simple]. split.
  - intros x. rewrite list_ascii_of_string_app, in_app_iff.
    intros [H|H]; [eapply encode_char_safe; exact H | apply IH1; exact H].
  - rewrite string_length_app. pose proof (encode_char_length c).
    cbn [String.length]. lia.
Qed.

(** ** The request signature *)

Lemma unhex_hex_byte b n rest :
  unhex (S n) (String.append (hex_byte b) rest)
  = option_map (cons b) (unhex n rest).
Proof.
  destruct b; cbn; destruct (unhex n rest); reflexivity.
Qed.

Lemma unhex_concat bs :
  unhex (List.length bs) (String.concat EmptyString (map hex_byte bs)) = Some bs.
Proof.
  induction bs as [|b bs IH]; [reflexivity|].
  cbn [map List.length]. 
  replace (String.concat EmptyString (hex_byte b :: map hex_byte bs))
    with (String.append (hex_byte b) (String.concat EmptyString (map hex_byte bs))).
  - rewrite unhex_hex_byte, IH. reflexivity.
  - destruct bs; [cbn; reflexivity|]. reflexivity.
Qed.

Lemma hex_byte_digits b x :
  In x (list_ascii_of_string (hex_byte b)) -> hex_value x <> None.
Proof.
  destruct b; cbn; intros H;
    repeat (destruct H as [H|H]; [subst x; discriminate|]); destruct H.
Qed.

Lemma concat_hex_digits bs x :
  In x (list_ascii_of_string (String.concat EmptyString (map hex_byte bs))) ->
  hex_value x <> None.
Proof.
  induction bs as [|b bs IH]; [intros []|].
  replace (String.concat EmptyString (map hex_byte (b :: bs)))
    with (String.append (hex_byte b) (String.concat EmptyString (map hex_byte bs)))
    by (destruct bs; reflexivity).
  rewrite list_ascii_of_string_app, in_app_iff.
  intros [H|H]; [eapply hex_byte_digits; exact H | apply IH; exact H].
Qed.

Lemma concat_hex_length bs :
  String.length (String.concat EmptyString (map hex_byte bs)) = (2 * List.length bs)%nat.
Proof.
  induction bs as [|b bs IH]; [reflexivity|].
  replace (String.concat EmptyString (map hex_byte (b :: bs)))
    with (String.append (hex_byte b) (String.concat EmptyString (map hex_byte bs)))
    by (destruct bs; reflexivity).
  rewrite string_length_app, IH. cbn [List.length]. cbn. lia.
Qed.

Lemma key_of_hash_map hash :
  key_of_hash hash
  = String.concat EmptyString
      (map hex_byte (map (fun i => nth i hash Byte.x00) (seq 0 16))).
Proof. unfold key_of_hash. rewrite map_map. reflexivity. Qed.

(** X18.  The dynamic key of a request is always 32 characters long,
    each an upper-case hexadecimal digit, and it spells the first 16
    bytes of the digest, two digits a byte in order: reading it back
    gives those bytes, so digests that differ in one of their first 16
    bytes give different keys. *)
Theorem dynamic_key_spells_half_the_digest (sha256 : list byte -> list byte)
    (mac : string) (timestamp : Z) :
  let key := generate_dynamic_key_sing sha256 mac timestamp in
  String.length key = 32%nat
  /\ (forall x, In x (list_ascii_of_string key) -> hex_value x <> None)
  /\ unhex 16 key
     = Some (map (fun i => nth i (sha256 (list_byte_of_string (signed_text mac timestamp)))
                               Byte.x00)
                 (seq 0 16)).
Proof.
  cbv zeta. unfold generate_dynamic_key_sing. cbv zeta.
  set (data := list_byte_of_string (signed_text mac timestamp)).
  rewrite key_of_hash_map.
  split; [rewrite concat_hex_length; reflexivity|].
  split; [apply concat_hex_digits|].
  exact (unhex_concat (map (fun i => nth i (sha256 data) Byte.x00) (seq 0 16))).
Qed.

(** ** The consumer *)

Lemma mem_write_length_at buf off src :
  0 <= off -> off + Z.of_nat (List.length src) <= Z.of_nat (List.length buf) ->
  List.length (mem_write buf off src) = List.length buf.
Proof.
  intros Hoff Hfit. unfold mem_write.
  rewrite !length_app, length_firstn, length_skipn. lia.
Qed.

Lemma mem_write_prefix buf off src :
  0 <= off -> off + Z.of_nat (List.length src) <= Z.of_nat (List.length buf) ->
  bytes_from (mem_write buf off src) 0 (off + Z.of_nat (List.length src))
  = firstn (Z.to_nat off) buf ++ src.
Proof.
  intros Hoff Hfit. unfold bytes_from, mem_write. cbn [Z.to_nat skipn].
  rewrite app_assoc. apply firstn_bytes_from_prefix.
  rewrite length_app, length_firstn. lia.
Qed.

(** The compaction of the window, [memmove(mp3_input_buffer, read_ptr,
    bytes_left)], keeps the unconsumed bytes and puts them first. *)
Lemma compact_window l s :
  window_ok l ->
  exists buf0,
    (if (0 <? bytes_left l)
        && negb (match read_ptr l with Some 0 => true | _ => false end)
     then match read_ptr l with
          | Some p =>
              src <- checked_read (mp3_input_buffer l) p (bytes_left l) ;;
              checked_write (mp3_input_buffer l) 0 src
          | None => fault
          end
     else ret (mp3_input_buffer l)) s = Done buf0 s
    /\ List.length buf0 = List.length (mp3_input_buffer l)
    /\ firstn (Z.to_nat (bytes_left l)) buf0 = window l.
Proof.
  intros (Hbuf & Hbl & Hptr). consts. unfold window.
  destruct (read_ptr l) as [p|].
  - destruct Hptr as [Hp Hfit].
    destruct (0 <? bytes_left l) eqn:Hpos.
    + apply Z.ltb_lt in Hpos.
      destruct p as [|p|p]; [| |lia].
      * exists (mp3_input_buffer l). repeat split.
      * cbn [andb negb].
        unfold checked_read.
        replace ((0 <=? Z.pos p) && (0 <=? bytes_left l)
                 && (Z.pos p + bytes_left l <=? Z.of_nat (List.length (mp3_input_buffer l))))
          with true
          by (symmetry; rewrite !andb_true_iff; repeat split; apply Z.leb_le; lia).
        rewrite bind_ret. unfold checked_write.
        assert (Hlen : List.length (bytes_from (mp3_input_buffer l) (Z.pos p) (bytes_left l))
                       = Z.to_nat (bytes_left l))
          by (apply bytes_from_length; lia).
        rewrite Hlen.
        replace ((0 <=? 0)
                 && (0 + Z.of_nat (Z.to_nat (bytes_left l))
                     <=? Z.of_nat (List.length (mp3_input_buffer l))))
          with true
          by (symmetry; rewrite !andb_true_iff; split; apply Z.leb_le; lia).
        eexists. split; [reflexivity|]. split.
        -- apply mem_write_length_at; lia.
        -- unfold mem_write. cbn [Z.to_nat firstn app].
           apply firstn_bytes_from_prefix. lia.
    + exists (mp3_input_buffer l). split; [reflexivity|]. split; [reflexivity|].
      apply Z.ltb_ge in Hpos. replace (bytes_left l) with 0 by lia.
      reflexivity.
  - rewrite Hptr. exists (mp3_input_buffer l). repeat split.
Qed.

(** The feeding of a chunk on which the format detection has nothing to
    do, up to the attempt at the metadata tag. *)
Lemma feed_chunk_state fuel chunk l s :
  0 < size chunk <= READ_CHUNK_SIZE ->
  size chunk <= Z.of_nat (List.length (data chunk)) ->
  wav_header_parsed_ s = true \/ wav_signature chunk = false ->
  window_ok l -> bytes_left l < 4096 ->
  exists buf,
    feed_chunk fuel chunk l s
    = Done (skip_tag buf (bytes_left l + size chunk) (id3_processed l)
                     (wav_mode_ s) (id3_skips l))
           (set_trace_ (trace_ s ++ [EvFree]) s)
    /\ Z.of_nat (List.length buf) = MP3_INPUT_SIZE
    /\ bytes_from buf 0 (bytes_left l + size chunk)
       = window l ++ bytes_from (data chunk) 0 (size chunk).
Proof.
  intros Hsize Hdata Hdet Hok Hlt. consts.
  destruct (compact_window l s Hok) as (buf0 & E0 & Hlen0 & Hwin0).
  destruct Hok as (Hbuf & Hbl & Hptr).
  assert (Hsrc : List.length (bytes_from (data chunk) 0 (size chunk))
                 = Z.to_nat (size chunk))
    by (apply bytes_from_length; lia).
  exists (mem_write buf0 (bytes_left l) (bytes_from (data chunk) 0 (size chunk))).
  split; [|split].
  - unfold feed_chunk.
    replace (0 <? size chunk) with true by (symmetry; apply Z.ltb_lt; lia).
    unfold bind at 1. rewrite detect_wav_skipped by exact Hdet. cbv beta iota.
    unfold bind at 1. rewrite E0.
    rewrite (size_t_wrap_small (MP3_INPUT_SIZE - bytes_left l)) by lia.
    rewrite Z.min_l by lia.
    unfold checked_read.
    replace ((0 <=? 0) && (0 <=? size chunk)
             && (0 + size chunk <=? Z.of_nat (List.length (data chunk))))
      with true
      by (symmetry; rewrite !andb_true_iff; repeat split; apply Z.leb_le; lia).
    rewrite bind_ret. unfold checked_write. rewrite Hsrc, Hlen0.
    replace ((0 <=? bytes_left l)
             && (bytes_left l + Z.of_nat (Z.to_nat (size chunk))
                 <=? Z.of_nat (List.length (mp3_input_buffer l))))
      with true
      by (symmetry; rewrite !andb_true_iff; split; apply Z.leb_le; lia).
    rewrite bind_ret, bind_gets. unfold heap_caps_free. rewrite bind_emit.
    rewrite (int_cast_small (size chunk)) by lia.
    rewrite (int_cast_small (bytes_left l + size chunk)) by lia.
    reflexivity.
  - rewrite mem_write_length_at by lia. lia.
  - replace (bytes_left l + size chunk)
      with (bytes_left l
            + Z.of_nat (List.length (bytes_from (data chunk) 0 (size chunk))))
      by lia.
    rewrite mem_write_prefix by lia. rewrite Hwin0. reflexivity.
Qed.

(** X19.  Feeding keeps the stream in order and loses nothing.  When a
    chunk is fed to a window that holds fewer than 4096 unconsumed
    bytes (the only time one is fed), after the tag has been dealt
    with, the unconsumed bytes are moved to the start of the window
    and the whole chunk is copied behind them: the window then holds
    the old unconsumed bytes followed by every byte of the chunk, read
    from offset 0, and the chunk is released once. *)
Theorem feed_appends_whole_chunk_to_window (fuel : nat) (chunk : SingAudioChunk)
    (l : PlayLocals) (s : Esp32Sing) :
  0 < size chunk <= READ_CHUNK_SIZE ->
  size chunk <= Z.of_nat (List.length (data chunk)) ->
  wav_header_parsed_ s = true \/ wav_signature chunk = false ->
  id3_processed l = true ->
  window_ok l -> bytes_left l < 4096 ->
  exists l',
    feed_chunk fuel chunk l s = Done l' (set_trace_ (trace_ s ++ [EvFree]) s)
    /\ read_ptr l' = Some 0
    /\ bytes_left l' = bytes_left l + size chunk
    /\ window l' = window l ++ bytes_from (data chunk) 0 (size chunk)
    /\ id3_processed l' = true
    /\ window_ok l'.
Proof.
  intros Hsize Hdata Hdet Hid3 Hok Hlt.
  destruct (feed_chunk_state fuel chunk l s Hsize Hdata Hdet Hok Hlt)
    as (buf & E & Hlen & Hwin).
  destruct Hok as (Hbuf & Hbl & Hptr). consts.
  rewrite Hid3 in E. unfold skip_tag in E. cbn [negb andb] in E.
  eexists. split; [exact E|]. cbn [read_ptr bytes_left id3_processed].
  split; [reflexivity|]. split; [reflexivity|].
  split; [exact Hwin|]. split; [reflexivity|].
  split; [exact Hlen|]. cbn [bytes_left read_ptr]. lia.
Qed.

Lemma feed_appends_whole_chunk_to_window_witness :
  exists l',
    feed_chunk 0 (mkChunk [Byte.x04; Byte.x05] 2)
      (mkLocals ([Byte.x01; Byte.x02; Byte.x03] ++ repeat Byte.x00 (Z.to_nat 8189))
                (Some 1) 2 true [])
      session_started
    = Done l' (set_trace_ (trace_ session_started ++ [EvFree]) session_started)
    /\ window l' = [Byte.x02; Byte.x03; Byte.x04; Byte.x05].
Proof.
  destruct (feed_appends_whole_chunk_to_window 0 (mkChunk [Byte.x04; Byte.x05] 2)
              (mkLocals ([Byte.x01; Byte.x02; Byte.x03] ++ repeat Byte.x00 (Z.to_nat 8189))
                        (Some 1) 2 true [])
              session_started)
    as (l' & E & _ & _ & Hw & _).
  - cbn. rewrite READ_CHUNK_SIZE_eq. lia.
  - cbn. lia.
  - right. reflexivity.
  - reflexivity.
  - split; [|split].
    + cbn [mp3_input_buffer]. rewrite length_app, repeat_length.
      rewrite Nat2Z.inj_add, Z2Nat.id by lia. reflexivity.
    + cbn. lia.
    + cbn [read_ptr bytes_left]. rewrite MP3_INPUT_SIZE_eq. lia.
  - cbn. lia.
  - exists l'. split; [exact E | exact Hw].
Defined.

Lemma bytes_from_prefix_eq a b n m :
  0 <= m <= n -> bytes_from a 0 n = bytes_from b 0 n ->
  bytes_from a 0 m = bytes_from b 0 m.
Proof.
  intros Hm H. unfold bytes_from in *. cbn [Z.to_nat skipn] in *.
  apply (f_equal (firstn (Z.to_nat m))) in H.
  rewrite !firstn_firstn in H.
  rewrite !Nat.min_l in H by lia. exact H.
Qed.

Lemma byte_at_prefix a b n i :
  0 <= i < n -> bytes_from a 0 n = bytes_from b 0 n -> byte_at a i = byte_at b i.
Proof.
  intros Hi H. unfold bytes_from in H. cbn [Z.to_nat skipn] in H.
  unfold byte_at.
  apply (f_equal (fun l => nth (Z.to_nat i) l Byte.x00)) in H.
  rewrite !nth_firstn in H.
  replace (Z.to_nat i <? Z.to_nat n)%nat with true in H
    by (symmetry; apply Nat.ltb_lt; lia).
  exact H.
Qed.

(** SkipId3Tag looks at the first ten bytes only. *)
Lemma SkipId3Tag_prefix a b n :
  10 <= n -> bytes_from a 0 n = bytes_from b 0 n ->
  SkipId3Tag a n = SkipId3Tag b n.
Proof.
  intros Hn H. unfold SkipId3Tag, memcmp_is.
  change (Z.of_nat (String.length "ID3")) with 3.
  rewrite (bytes_from_prefix_eq a b n 3) by (try lia; exact H).
  rewrite (byte_at_prefix a b n 6), (byte_at_prefix a b n 7),
          (byte_at_prefix a b n 8), (byte_at_prefix a b n 9) by (try lia; exact H).
  reflexivity.
Qed.

Lemma id3_is_not_riff d :
  memcmp_is d 0 "ID3" = true -> memcmp_is d 0 "RIFF" = false.
Proof.
  unfold memcmp_is, bytes_from.
  change (Z.to_nat (Z.of_nat (String.length "ID3"))) with 3%nat.
  change (Z.to_nat (Z.of_nat (String.length "RIFF"))) with 4%nat.
  change (Z.to_nat 0) with 0%nat. cbn [skipn].
  destruct d as [|a [|b [|c d]]]; cbn; try discriminate.
  all: intros H; apply andb_true_iff in H; destruct H as [Ha _];
    apply Byte.byte_dec_bl in Ha; subst a; reflexivity.
Qed.

(** X20.  The metadata tag is skipped only as far as the window
    reaches.  When the first chunk of an MP3 stream carries a tag whose
    declared length goes beyond the chunk, the skip takes [read_ptr]
    past the bytes on hand and leaves [bytes_left] negative; the
    decoder, finding no frame there, empties the window.  The turn ends
    with an empty window and with the tag marked as processed, so the
    part of the tag that arrives in later chunks is fed to the decoder
    like audio data, never skipped. *)
Theorem tag_longer_than_window_is_cut_short (fuel : nat) (chunk : SingAudioChunk)
    (heap : list byte) (e : Mp3Step) (s : Esp32Sing) :
  10 <= size chunk <= READ_CHUNK_SIZE ->
  size chunk <= Z.of_nat (List.length (data chunk)) ->
  memcmp_is (data chunk) 0 "ID3" = true ->
  size chunk < SkipId3Tag (data chunk) (size chunk) ->
  Z.of_nat (List.length heap) = MP3_INPUT_SIZE ->
  wav_mode_ s = false -> mp3_decoder_initialized_ s = true ->
  sync_offset e < 0 ->
  let skip := SkipId3Tag (data chunk) (size chunk) in
  exists buf,
    feed_chunk fuel chunk (PlayLocals_new heap) s
    = Done (mkLocals buf (Some skip) (size chunk - skip) true [skip])
           (set_trace_ (trace_ s ++ [EvFree]) s)
    /\ (l1 <- feed_chunk fuel chunk (PlayLocals_new heap) ;; decode_and_send e l1) s
       = Done (LoopContinue, mkLocals buf (Some skip) 0 true [skip])
              (set_trace_ (trace_ s ++ [EvFree]) s).
Proof.
  intros Hsize Hdata Hid3 Hlong Hheap Hwav Hinit Hsync skip. consts.
  assert (Hsig : wav_signature chunk = false).
  { unfold wav_signature. rewrite (id3_is_not_riff _ Hid3).
    rewrite andb_false_r. reflexivity. }
  assert (Hok : window_ok (PlayLocals_new heap)).
  { split; [exact Hheap|]. split; [cbn; lia | reflexivity]. }
  destruct (feed_chunk_state fuel chunk (PlayLocals_new heap) s)
    as (buf & E & Hlen & Hwin);
    [lia | exact Hdata | right; exact Hsig | exact Hok | cbn; lia |].
  cbn [bytes_left id3_processed id3_skips PlayLocals_new window read_ptr app] in E, Hwin.
  rewrite Z.add_0_l in E, Hwin.
  assert (Hskip : SkipId3Tag buf (size_t_wrap (size chunk)) = skip).
  { rewrite size_t_wrap_small by lia. apply SkipId3Tag_prefix; [lia | exact Hwin]. }
  assert (Hrange : 10 <= skip < 10 + 2 ^ 28).
  { unfold skip. rewrite SkipId3Tag_tagged by (try lia; exact Hid3).
    match goal with |- context [synchsafe ?a ?b ?c ?d] =>
      pose proof (synchsafe_range a b c d) end. lia. }
  assert (E1 : feed_chunk fuel chunk (PlayLocals_new heap) s
               = Done (mkLocals buf (Some skip) (size chunk - skip) true [skip])
                      (set_trace_ (trace_ s ++ [EvFree]) s)).
  { rewrite E. f_equal. unfold skip_tag. rewrite Hwav. cbn [negb andb].
    replace (10 <=? size chunk) with true by (symmetry; apply Z.leb_le; lia).
    rewrite Hskip.
    replace (0 <? skip) with true by (symmetry; apply Z.ltb_lt; lia).
    rewrite (int_cast_small skip) by lia.
    rewrite int_cast_small by lia. reflexivity. }
  exists buf. split; [exact E1|].
  unfold bind at 1. rewrite E1.
  unfold decode_and_send. rewrite bind_gets.
  cbn [wav_mode_ set_trace_]. rewrite Hwav.
  unfold play_mp3. rewrite bind_gets.
  cbn [mp3_decoder_initialized_ set_trace_]. rewrite Hinit. cbn [negb].
  rewrite bind_ret. cbn [negb].
  apply Z.ltb_lt in Hsync. rewrite Hsync. reflexivity.
Qed.

Lemma tag_longer_than_window_is_cut_short_witness :
  exists buf,
    (l1 <- feed_chunk 0
             (mkChunk (id3_header Byte.x00 Byte.x00 Byte.x02 Byte.x01 ++ [Byte.xff]) 11)
             (PlayLocals_new (repeat Byte.x00 (Z.to_nat MP3_INPUT_SIZE))) ;;
     decode_and_send (mp3 idle_no_sync) l1) session_started
    = Done (LoopContinue, mkLocals buf (Some 267) 0 true [267])
           (set_trace_ (trace_ session_started ++ [EvFree]) session_started).
Proof.
  destruct (tag_longer_than_window_is_cut_short 0
              (mkChunk (id3_header Byte.x00 Byte.x00 Byte.x02 Byte.x01 ++ [Byte.xff]) 11)
              (repeat Byte.x00 (Z.to_nat MP3_INPUT_SIZE))
              (mp3 idle_no_sync) session_started)
    as (buf & _ & E).
  - cbn. rewrite READ_CHUNK_SIZE_eq. lia.
  - cbn. lia.
  - vm_compute. reflexivity.
  - vm_compute. reflexivity.
  - rewrite repeat_length. rewrite Z2Nat.id by (rewrite MP3_INPUT_SIZE_eq; lia).
    reflexivity.
  - reflexivity.
  - reflexivity.
  - vm_compute. reflexivity.
  - exists buf. exact E.
Defined.

Lemma pop_chunk_finished s :
  buffer_mutex_ s = false -> audio_buffer_ s = [] -> is_downloading_ s = false ->
  pop_chunk s = Done PopFinished s.
Proof.
  intros Hm Hq Hd. unfold pop_chunk, queue_empty. run. rewrite Hm. cbn. rewrite Hq. cbn.
  rewrite Hd. cbn. f_equal. destruct s; cbn in *. subst. reflexivity.
Qed.

(** X21.  The end of a stream cuts the tail of the window off.  In an
    idle turn with the queue empty and the producer finished, the
    consumer leaves its loop as soon as the window holds fewer than
    4096 unconsumed bytes, however many that is: those bytes are not
    handed to the decoder and no audio is sent for them.  The turn does
    nothing but, at most, set the now-playing label. *)
Theorem stream_end_drops_window_tail (fuel : nat) (e : PlayEnv) (l : PlayLocals)
    (s : Esp32Sing) :
  device_state e = kDeviceStateIdle ->
  buffer_mutex_ s = false -> audio_buffer_ s = [] -> is_downloading_ s = false ->
  bytes_left l < 4096 ->
  exists b evs,
    play_iteration fuel e l s
    = Done (LoopBreak, l) (set_trace_ (trace_ s ++ evs) (set_song_name_displayed_ b s))
    /\ forall p, ~ In (EvAddAudioData p) evs.
Proof.
  intros Hidle Hm Hq Hd Hlt.
  destruct (show_song_name_done (has_display e) s) as (b & evs & E & Hno).
  exists b, evs. split; [|exact Hno].
  unfold play_iteration. rewrite Hidle.
  unfold bind at 1. rewrite E.
  unfold fetch. apply Z.ltb_lt in Hlt. rewrite Hlt.
  rewrite bind_bind. unfold bind at 1.
  rewrite pop_chunk_finished by assumption.
  reflexivity.
Qed.

Lemma stream_end_drops_window_tail_witness :
  exists b evs,
    play_iteration 0 idle_no_sync
      (mkLocals (repeat Byte.xff (Z.to_nat MP3_INPUT_SIZE)) (Some 0) 4095 true [])
      (set_is_downloading_ false session_started)
    = Done (LoopBreak,
            mkLocals (repeat Byte.xff (Z.to_nat MP3_INPUT_SIZE)) (Some 0) 4095 true [])
           (set_trace_ (trace_ (set_is_downloading_ false session_started) ++ evs)
              (set_song_name_displayed_ b (set_is_downloading_ false session_started)))
    /\ forall p, ~ In (EvAddAudioData p) evs.
Proof.
  apply (stream_end_drops_window_tail 0 idle_no_sync
           (mkLocals (repeat Byte.xff (Z.to_nat MP3_INPUT_SIZE)) (Some 0) 4095 true [])
           (set_is_downloading_ false session_started));
    try reflexivity.
Defined.

Lemma firstn_plus {A} (l : list A) : forall n m,
  firstn (n + m) l = firstn n l ++ firstn m (skipn n l).
Proof.
  induction l as [|x l IH]; intros n m.
  - rewrite !firstn_nil, skipn_nil, firstn_nil. reflexivity.
  - destruct n as [|n]; [reflexivity|]. cbn [Nat.add firstn skipn app].
    rewrite IH. reflexivity.
Qed.

(** The samples of a buffer, written out again, are its bytes. *)
Lemma pcm_bytes_of_samples pcm : forall k,
  (2 * k <= List.length pcm)%nat ->
  pcm_bytes (map (fun i => read_i16 pcm (Z.of_nat i)) (seq 0 k)) = firstn (2 * k) pcm.
Proof.
  induction k as [|k IH]; intros Hk; [reflexivity|].
  rewrite seq_S, map_app. unfold pcm_bytes in *. rewrite flat_map_app.
  rewrite IH by lia. cbn [Nat.add map flat_map]. rewrite app_nil_r.
  replace (2 * S k)%nat with (2 * k + 2)%nat by lia.
  rewrite firstn_plus. f_equal.
  unfold read_i16, read_u16, bytes_from.
  rewrite le_split_int16_cast.
  replace (Z.to_nat (2 * Z.of_nat k)) with (2 * k)%nat by lia.
  change (Z.to_nat 2) with 2%nat.
  apply split_le_combine'.
  rewrite length_firstn, length_skipn. lia.
Qed.

(** X22.  A WAV stream that is not stereo is passed through: the
    packet of a turn carries the bytes of the window unchanged, up to
    the last whole 16-bit sample (an odd last byte is dropped), at the
    sample rate of the header, and the window is then empty. *)
Theorem mono_wav_is_passed_through (buf : list byte) (n : Z) (id3 : bool)
    (skips : list Z) (s : Esp32Sing) :
  0 < n -> n <= Z.of_nat (List.length buf) -> wav_channels_ s <> 2 ->
  play_wav (mkLocals buf (Some 0) n id3 skips) s
  = Done (mkLocals buf (Some 0) 0 id3 skips)
         (set_trace_
            (trace_ s ++
             [EvAddAudioData
                (mkPacket (wav_sample_rate_ s) 60 0 (bytes_from buf 0 (2 * (n / 2))))])
            s).
Proof.
  intros Hn Hfit Hch. rewrite play_wav_emit by assumption.
  do 5 f_equal. unfold wav_mono.
  apply Z.eqb_neq in Hch. rewrite Hch.
  rewrite Z.quot_div_nonneg by lia.
  assert (Hdiv : 0 <= 2 * (n / 2) <= n).
  { pose proof (Z.mul_div_le n 2 ltac:(lia)). pose proof (Z.div_pos n 2). lia. }
  generalize dependent (n / 2). intros q Hq.
  rewrite pcm_bytes_of_samples.
  - unfold bytes_from. cbn [Z.to_nat skipn]. rewrite firstn_firstn.
    replace (Nat.min (2 * Z.to_nat q) (Z.to_nat n)) with (Z.to_nat (2 * q)) by lia.
    reflexivity.
  - rewrite bytes_from_length by lia. lia.
Qed.

Lemma mono_wav_is_passed_through_witness :
  play_wav (mkLocals [Byte.x01; Byte.x02; Byte.x03; Byte.x04; Byte.x05] (Some 0) 5 true [])
           (set_wav_mode_ true session_started)
  = Done (mkLocals [Byte.x01; Byte.x02; Byte.x03; Byte.x04; Byte.x05] (Some 0) 0 true [])
         (set_trace_
            (trace_ session_started ++
             [EvAddAudioData
                (mkPacket 16000 60 0 [Byte.x01; Byte.x02; Byte.x03; Byte.x04])])
            (set_wav_mode_ true session_started)).
Proof.
  apply (mono_wav_is_passed_through
           [Byte.x01; Byte.x02; Byte.x03; Byte.x04; Byte.x05] 5 true []
           (set_wav_mode_ true session_started)).
  - lia.
  - cbn. lia.
  - discriminate.
Defined.

Lemma nth_in_range (pcm : list Z) i :
  Forall (fun z => -32768 <= z <= 32767) pcm -> -32768 <= nth i pcm 0 <= 32767.
Proof.
  intros H. destruct (Nat.lt_ge_cases i (List.length pcm)) as [Hi|Hi].
  - rewrite Forall_forall in H. apply H. apply nth_In. exact Hi.
  - rewrite nth_overflow by exact Hi. lia.
Qed.

Lemma Forall_firstn_keeps {A} (P : A -> Prop) (l : list A) : forall n,
  Forall P l -> Forall P (firstn n l).
Proof.
  induction l as [|x l IH]; intros n H.
  - rewrite firstn_nil. constructor.
  - destruct n as [|n]; [constructor|]. inversion H; subst.
    cbn [firstn]. constructor; [assumption | apply IH; assumption].
Qed.

Lemma mp3_mono_in_range info pcm :
  Forall (fun z => -32768 <= z <= 32767) pcm ->
  Forall (fun z => -32768 <= z <= 32767) (mp3_mono info pcm).
Proof.
  intros H. unfold mp3_mono. destruct (nChans info =? 2).
  - apply Forall_forall. intros z Hz. apply in_map_iff in Hz.
    destruct Hz as (i & <- & _). apply int16_cast_range.
  - apply Forall_firstn_keeps. exact H.
Qed.

(** X23.  A decoded MP3 frame is sent as one mono packet at the
    frame's sample rate, marked 60 ms: a stereo frame as the truncating
    averages of its sample pairs, half as many samples as decoded, any
    other frame sample for sample.  The window moves on by the bytes
    the decoder skipped and consumed, and the loop goes on. *)
Theorem mp3_frame_is_sent_as_mono (e : Mp3Step) (l : PlayLocals) (s : Esp32Sing) :
  mp3_decoder_initialized_ s = true ->
  0 <= sync_offset e -> decode_result e = 0 ->
  samprate (frame_info e) <> 0 -> nChans (frame_info e) <> 0 ->
  Forall (fun z => -32768 <= z <= 32767) (pcm_buffer e) ->
  exists p l',
    play_mp3 e l s
    = Done (LoopContinue, l') (set_trace_ (trace_ s ++ [EvAddAudioData p]) s)
    /\ sample_rate p = samprate (frame_info e)
    /\ frame_duration p = 60 /\ timestamp p = 0
    /\ packet_samples p
       = (if nChans (frame_info e) =? 2
          then map (fun i => Z.quot (nth (i * 2) (pcm_buffer e) 0
                                     + nth (i * 2 + 1) (pcm_buffer e) 0) 2)
                   (seq 0 (Z.to_nat (Z.quot (outputSamps (frame_info e)) 2)))
          else firstn (Z.to_nat (outputSamps (frame_info e))) (pcm_buffer e))
    /\ bytes_left l' = bytes_left l - (sync_offset e + decode_consumed e)
    /\ read_ptr l'
       = option_map (fun q => q + (sync_offset e + decode_consumed e)) (read_ptr l)
    /\ mp3_input_buffer l' = mp3_input_buffer l.
Proof.
  intros Hinit Hsync Hres Hrate Hch Hpcm.
  assert (Hadv : (if 0 <? sync_offset e then sync_offset e else 0) = sync_offset e).
  { destruct (0 <? sync_offset e) eqn:H; [reflexivity|]. apply Z.ltb_ge in H. lia. }
  eexists. eexists. split.
  - unfold play_mp3. rewrite bind_gets, Hinit. cbn [negb]. rewrite bind_ret. cbn [negb].
    replace (sync_offset e <? 0) with false by (symmetry; apply Z.ltb_ge; lia).
    rewrite Hres. cbn [Z.eqb].
    apply Z.eqb_neq in Hrate, Hch. rewrite Hrate, Hch. cbn [orb].
    rewrite bind_emit. unfold ret. reflexivity.
  - cbn [sample_rate frame_duration timestamp bytes_left read_ptr mp3_input_buffer].
    rewrite Hadv.
    split; [reflexivity|]. split; [reflexivity|]. split; [reflexivity|].
    split; [|repeat split; reflexivity].
    rewrite packet_samples_pcm_bytes by (apply mp3_mono_in_range; exact Hpcm).
    unfold mp3_mono. destruct (nChans (frame_info e) =? 2); [|reflexivity].
    apply map_ext. intros i. apply downmix_pair_quot; apply nth_in_range; exact Hpcm.
Qed.

Lemma mp3_frame_is_sent_as_mono_witness :
  exists p l',
    play_mp3 (mkMp3Step true 0 0 4 [100; 201; -3; -4] (mkFrameInfo 44100 2 4))
             (mkLocals [] (Some 0) 4 true []) session_started
    = Done (LoopContinue, l')
           (set_trace_ (trace_ session_started ++ [EvAddAudioData p]) session_started)
    /\ sample_rate p = 44100
    /\ packet_samples p = [150; -3].
Proof.
  destruct (mp3_frame_is_sent_as_mono
              (mkMp3Step true 0 0 4 [100; 201; -3; -4] (mkFrameInfo 44100 2 4))
              (mkLocals [] (Some 0) 4 true []) session_started)
    as (p & l' & E & Hr & _ & _ & Hs & _).
  - reflexivity.
  - cbn. lia.
  - reflexivity.
  - discriminate.
  - discriminate.
  - repeat constructor; lia.
  - exists p, l'. split; [exact E|]. split; [exact Hr | exact Hs].
Defined.

(** X24.  The search for the data sub-chunk need not end.  On a first
    buffer with the RIFF/WAVE signature whose sub-chunk at offset 12,
    tagged neither fmt nor data, declares a length of 2^32 - 8, the
    step [8 + chunk_size] is zero in 32-bit arithmetic: the scan stays
    at offset 12 and no number of turns brings it to its end.  The
    consumer does not get past its first chunk; WAV mode is set and the
    header is never marked as parsed. *)
Theorem full_length_subchunk_hangs_scan (chunk : SingAudioChunk) (id3 : bool)
    (s : Esp32Sing) :
  wav_header_parsed_ s = false -> wav_signature chunk = true ->
  memcmp_is (data chunk) 12 "fmt " = false ->
  memcmp_is (data chunk) 12 "data" = false ->
  read_u32 (data chunk) 16 = 2 ^ 32 - 8 ->
  forall fuel, detect_wav fuel chunk id3 s = OutOfFuel (set_wav_mode_ true s).
Proof.
  intros Hparsed Hsig Hfmt Hdata Hlen fuel.
  rewrite detect_wav_unfold by assumption.
  assert (Hsize : (size_t_wrap (12 + 8) <=? size chunk) = true).
  { unfold wav_signature in Hsig. apply andb_true_iff in Hsig.
    destruct Hsig as [Hsig _]. apply andb_true_iff in Hsig.
    destruct Hsig as [Hsig _]. apply Z.leb_le in Hsig.
    apply Z.leb_le. change (size_t_wrap (12 + 8)) with 20. lia. }
  assert (Hnext : next_subchunk chunk 12 = 12).
  { unfold next_subchunk. change (12 + 4) with 16. rewrite Hlen. reflexivity. }
  generalize (set_wav_mode_ true s). intros s0.
  induction fuel as [|fuel IH]; cbn [wav_scan]; rewrite Hsize; [reflexivity|].
  unfold bind at 1.
  rewrite wav_scan_step_other; [| reflexivity | exact Hfmt | exact Hdata].
  rewrite Hnext. exact IH.
Qed.

Lemma full_length_subchunk_hangs_scan_witness :
  detect_wav 1000 stalling_chunk false session_started
  = OutOfFuel (set_wav_mode_ true session_started).
Proof.
  apply (full_length_subchunk_hangs_scan stalling_chunk false session_started);
    vm_compute; reflexivity.
Defined.

(** X25.  A session started by id asks for the same resource as
    Download with that id as the song name and no artist: the producer
    of the by-id session sets the query to the id and the URL to the
    one Download builds, base_host_ followed by /stream?raw_query= and
    the encoded id, and then runs the URL producer.  With an empty
    argument it falls back on [current_song_id_]. *)
Theorem by_id_producer_requests_download_url (env : HttpEnv) (ts : Z)
    (reads : list ReadEnv) (id : string) (s s0 : Esp32Sing) :
  id <> EmptyString -> buffer_mutex_ s0 = false -> base_host_ s0 = base_host_ s ->
  exists s',
    Download id EmptyString s0 = Done true s'
    /\ DownloadAudioStreamById env ts reads id s
       = DownloadAudioStreamFromUrl env ts reads
           (set_current_stream_url_ (current_stream_url_ s')
              (set_current_query_value_ id s))
    /\ DownloadAudioStreamById env ts reads EmptyString
         (set_current_song_id_ id s)
       = DownloadAudioStreamFromUrl env ts reads
           (set_current_stream_url_ (current_stream_url_ s')
              (set_current_query_value_ id (set_current_song_id_ id s))).
Proof.
  intros Hid Hm Hhost.
  assert (Hq : raw_query_of id EmptyString = id).
  { unfold raw_query_of. cbn [String.eqb negb andb].
    apply String.eqb_neq in Hid. rewrite Hid. reflexivity. }
  eexists. split; [apply Download_state; [exact Hm | left; exact Hid]|].
  cbn [current_stream_url_ restarted set_play_thread_ set_download_thread_
       set_is_playing_ set_is_downloading_ set_current_stream_url_ base_host_].
  rewrite Hq, Hhost.
  unfold DownloadAudioStreamById. rewrite !bind_gets, !bind_modify.
  cbn [base_host_ current_song_id_ set_current_query_value_ set_current_song_id_].
  apply String.eqb_neq in Hid. rewrite Hid. cbn [String.eqb].
  split; reflexivity.
Qed.

Lemma by_id_producer_requests_download_url_witness :
  exists s',
    Download "y" EmptyString Esp32Sing_new = Done true s'
    /\ DownloadAudioStreamById (mkHttpEnv [true] 200) 0 short_stream "y" session_started
       = DownloadAudioStreamFromUrl (mkHttpEnv [true] 200) 0 short_stream
           (set_current_stream_url_ (current_stream_url_ s')
              (set_current_query_value_ "y" session_started)).
Proof.
  destruct (by_id_producer_requests_download_url (mkHttpEnv [true] 200) 0 short_stream
              "y" session_started Esp32Sing_new)
    as (s' & E & H & _).
  - discriminate.
  - reflexivity.
  - reflexivity.
  - exists s'. split; [exact E | exact H].
Defined.

Lemma leaves_stopped_producer_rest : leaves_stopped producer_rest.
Proof.
  intros s s' H Hd Hp. unfold producer_rest, download_exit in H.
  cbn [first_byte_timeout] in H. rewrite bind_emit, bind_modify in H.
  unfold lock_guard in H. apply bind_Done in H. destruct H as (u & s1 & H1 & H).
  unfold lock in H1. cbn [buffer_mutex_ set_is_downloading_ set_trace_] in H1.
  destruct (buffer_mutex_ s); [discriminate H1|]. inversion H1; subst. clear H1.
  unfold notify_all in H. rewrite bind_emit in H. unfold unlock in H.
  rewrite bind_modify in H. inversion H; subst. split; [reflexivity | exact Hp].
Qed.

Lemma leaves_stopped_consumer_rest : leaves_stopped consumer_rest.
Proof.
  intros s s' H Hd Hp. unfold consumer_rest, play_exit, heap_caps_free, ResetSampleRate in H.
  rewrite bind_emit, bind_modify, bind_emit in H. inversion H; subst.
  split; [exact Hd | reflexivity].
Qed.

Lemma join_if_joinable_stopped t rest s :
  task_exit rest -> leaves_stopped rest -> buffer_mutex_ s = false ->
  is_downloading_ s = false -> is_playing_ s = false ->
  exists s' evs,
    (if handle_of t s then join t rest else ret tt) s = Done tt s'
    /\ buffer_mutex_ s' = false
    /\ is_downloading_ s' = false /\ is_playing_ s' = false
    /\ handle_of t s' = false
    /\ (forall t', t' <> t -> handle_of t' s' = handle_of t' s)
    /\ trace_ s' = trace_ s ++ (if handle_of t s then evs ++ [EvThreadJoin t] else [])
    /\ existsb is_thread_event evs = false
    /\ (handle_of t s = true ->
        exists s1, rest s = Done tt s1 /\ trace_ s1 = trace_ s ++ evs).
Proof.
  intros Hrest Hstop Hm Hd Hp.
  destruct (join_if_joinable t rest s Hrest Hm)
    as (s' & evs & E & Hm' & Hj' & Ho & Ht & Hev & Hrun).
  exists s', evs. split; [exact E|]. split; [exact Hm'|].
  assert (Hflags : is_downloading_ s' = false /\ is_playing_ s' = false).
  { destruct (handle_of t s) eqn:Hj.
    - destruct (Hrun eq_refl) as (s1 & E1 & _).
      destruct (Hstop s s1 E1 Hd Hp) as [Hd1 Hp1].
      unfold join in E. unfold bind at 1 in E. rewrite E1 in E.
      rewrite bind_emit in E. unfold modify in E.
      destruct t; inversion E; subst s'; split; assumption.
    - inversion E; subst s'. split; assumption. }
  split; [exact (proj1 Hflags)|]. split; [exact (proj2 Hflags)|].
  split; [exact Hj'|]. split; [exact Ho|]. split; [exact Ht|].
  split; [exact Hev | exact Hrun].
Qed.

Lemma StopStreaming_idle download_rest play_rest s :
  is_playing_ s = false -> is_downloading_ s = false ->
  StopStreaming download_rest play_rest s
  = Done true (set_trace_ (trace_ s ++ [EvResetSampleRate]) s).
Proof.
  intros Hp Hd. unfold StopStreaming, ResetSampleRate.
  rewrite bind_emit, !bind_gets. norm. rewrite Hp, Hd. reflexivity.
Qed.

(** The wait for the play thread in StopStreaming. *)
Lemma stop_play_thread play_rest s :
  task_exit play_rest -> leaves_stopped play_rest -> buffer_mutex_ s = false ->
  is_downloading_ s = false -> is_playing_ s = false ->
  exists s' evs,
    (if play_thread_ s then
       modify (set_is_playing_ false) ;;
       lock_guard notify_all ;;
       poll_joinable play_thread_ 100 ;;
       joinable <- gets play_thread_ ;;
       if joinable then join ThPlay play_rest else ret tt
     else ret tt) s = Done tt s'
    /\ buffer_mutex_ s' = false
    /\ is_downloading_ s' = false /\ is_playing_ s' = false
    /\ play_thread_ s' = false
    /\ download_thread_ s' = download_thread_ s
    /\ trace_ s'
       = trace_ s
         ++ (if play_thread_ s
             then [EvNotifyAll] ++ repeat (EvDelay 10) 100
                  ++ evs ++ [EvThreadJoin ThPlay]
             else [])
    /\ existsb is_thread_event evs = false
    /\ (play_thread_ s = true ->
        exists s0 s1,
          play_rest s0 = Done tt s1
          /\ trace_ s0 = trace_ s ++ [EvNotifyAll] ++ repeat (EvDelay 10) 100
          /\ trace_ s1 = trace_ s0 ++ evs).
Proof.
  intros Hrest Hstop Hm Hd Hp. destruct (play_thread_ s) eqn:Hj.
  - rewrite bind_modify. unfold bind at 1.
    rewrite lock_guard_notify_all_state by exact Hm. norm.
    unfold bind at 1.
    rewrite poll_joinable_state; [| reflexivity | exact Hj].
    rewrite bind_gets. norm. rewrite Hj.
    match goal with |- context [join ThPlay play_rest ?s0] =>
      destruct (join_if_joinable_stopped ThPlay play_rest s0 Hrest Hstop Hm Hd eq_refl)
        as (s' & evs & E & Hm' & Hd' & Hp' & Hj' & Ho & Ht & Hev & Hrun) end.
    cbn [handle_of play_thread_ trace_ set_trace_ set_is_playing_] in E, Ht, Hrun.
    rewrite Hj in E, Ht, Hrun.
    exists s', evs. split; [exact E|].
    split; [exact Hm'|]. split; [exact Hd'|]. split; [exact Hp'|].
    split; [exact Hj'|]. split; [exact (Ho ThDownload ltac:(discriminate))|].
    split; [rewrite Ht, <- !app_assoc; reflexivity|].
    split; [exact Hev|].
    intros _. destruct (Hrun eq_refl) as (s1 & E1 & Ht1).
    eexists. exists s1. split; [exact E1|].
    split; [cbn [trace_ set_trace_]; rewrite <- !app_assoc; reflexivity | exact Ht1].
  - exists s, []. split; [reflexivity|].
    split; [exact Hm|]. split; [exact Hd|]. split; [exact Hp|].
    split; [exact Hj|]. split; [reflexivity|].
    split; [symmetry; apply app_nil_r|]. split; [reflexivity | discriminate].
Qed.

(** X26.  StopStreaming, entered with the mutex free and with tasks
    that, once cancelled, run to their end (giving the mutex back,
    touching no thread handle, starting, joining or detaching no
    thread) and set neither run flag, returns true with both run flags
    cleared.  When a session was running, it resets the sample rate,
    wakes the waiters and joins the download thread, if that is
    joinable, after its task has run to its end on the object with the
    flags cleared; then it wakes the waiters again, waits one second
    and joins the play thread, if that is joinable, after its task has
    run to its end; no thread is detached and no handle is joinable
    afterwards.  Stopping again does nothing but reset the sample rate:
    the tasks are not touched and the object is otherwise unchanged. *)
Theorem stop_streaming_stops_once (download_rest play_rest : M unit) (s : Esp32Sing) :
  task_exit download_rest -> leaves_stopped download_rest ->
  task_exit play_rest -> leaves_stopped play_rest ->
  buffer_mutex_ s = false ->
  exists s' evs_d evs_p,
    StopStreaming download_rest play_rest s = Done true s'
    /\ is_downloading_ s' = false /\ is_playing_ s' = false
    /\ buffer_mutex_ s' = false
    /\ (is_playing_ s = true \/ is_downloading_ s = true ->
        download_thread_ s' = false /\ play_thread_ s' = false
        /\ trace_ s'
           = trace_ s ++ [EvResetSampleRate; EvNotifyAll]
             ++ (if download_thread_ s
                 then evs_d ++ [EvThreadJoin ThDownload] else [])
             ++ (if play_thread_ s
                 then [EvNotifyAll] ++ repeat (EvDelay 10) 100
                      ++ evs_p ++ [EvThreadJoin ThPlay]
                 else [])
        /\ (download_thread_ s = true ->
            exists s0 s1,
              download_rest s0 = Done tt s1
              /\ is_downloading_ s0 = false /\ is_playing_ s0 = false
              /\ trace_ s0 = trace_ s ++ [EvResetSampleRate; EvNotifyAll]
              /\ trace_ s1 = trace_ s0 ++ evs_d)
        /\ (play_thread_ s = true ->
            exists s0 s1,
              play_rest s0 = Done tt s1
              /\ trace_ s0
                 = trace_ s ++ [EvResetSampleRate; EvNotifyAll]
                   ++ (if download_thread_ s
                       then evs_d ++ [EvThreadJoin ThDownload] else [])
                   ++ [EvNotifyAll] ++ repeat (EvDelay 10) 100
              /\ trace_ s1 = trace_ s0 ++ evs_p))
    /\ existsb is_thread_event evs_d = false
    /\ existsb is_thread_event evs_p = false
    /\ StopStreaming download_rest play_rest s'
       = Done true (set_trace_ (trace_ s' ++ [EvResetSampleRate]) s').
Proof.
  intros Hdr Hds Hpr Hps Hm.
  destruct (negb (is_playing_ s) && negb (is_downloading_ s)) eqn:Hidle.
  - apply andb_true_iff in Hidle. destruct Hidle as [Hp Hd].
    apply negb_true_iff in Hp, Hd.
    rewrite StopStreaming_idle by assumption.
    eexists. exists [], []. split; [reflexivity|].
    split; [exact Hd|]. split; [exact Hp|]. split; [exact Hm|].
    split; [intros [H|H]; congruence|].
    split; [reflexivity|]. split; [reflexivity|].
    apply StopStreaming_idle; assumption.
  - unfold StopStreaming at 1. unfold ResetSampleRate.
    rewrite bind_emit, !bind_gets. norm. rewrite Hidle.
    rewrite !bind_modify. unfold bind at 1.
    rewrite lock_guard_notify_all_state by exact Hm. norm.
    rewrite bind_gets.
    match goal with |- context [bind _ _ ?s0] =>
      destruct (join_if_joinable_stopped ThDownload download_rest s0 Hdr Hds Hm
                  eq_refl eq_refl)
        as (s1 & evs_d & E1 & Hm1 & Hd1 & Hp1 & Hj1 & Ho1 & Ht1 & Hev1 & Hrun1) end.
    cbn [handle_of] in E1, Hj1, Ht1, Hrun1. unfold bind at 1. rewrite E1.
    rewrite bind_gets.
    destruct (stop_play_thread play_rest s1 Hpr Hps Hm1 Hd1 Hp1)
      as (s2 & evs_p & E2 & Hm2 & Hd2 & Hp2 & Hj2 & Ho2 & Ht2 & Hev2 & Hrun2).
    unfold bind at 1. rewrite E2. unfold ret.
    assert (Hpt : play_thread_ s1 = play_thread_ s)
      by exact (Ho1 ThPlay ltac:(discriminate)).
    cbn [download_thread_ trace_ set_trace_ set_is_playing_ set_is_downloading_]
      in Ht1, Hrun1.
    exists s2, evs_d, evs_p. split; [reflexivity|].
    split; [exact Hd2|]. split; [exact Hp2|]. split; [exact Hm2|].
    split.
    { intros _. split; [congruence|]. split; [exact Hj2|].
      split.
      { rewrite Ht2, Ht1, Hpt. rewrite <- !app_assoc. reflexivity. }
      split.
      { intros Hd. destruct (Hrun1 Hd) as (s1' & E & Ht).
        eexists. exists s1'. split; [exact E|].
        split; [reflexivity|]. split; [reflexivity|].
        split; [cbn [trace_ set_trace_]; rewrite <- !app_assoc; reflexivity | exact Ht]. }
      intros Hp. rewrite <- Hpt in Hp. destruct (Hrun2 Hp) as (s0 & s1' & E & Ht0 & Ht).
      exists s0, s1'. split; [exact E|]. split; [|exact Ht].
      rewrite Ht0, Ht1. rewrite <- !app_assoc. reflexivity. }
    split; [exact Hev1|]. split; [exact Hev2|].
    apply StopStreaming_idle; assumption.
Qed.

Lemma stop_streaming_stops_once_witness :
  (is_playing_ streaming_session = true /\ download_thread_ streaming_session = true
   /\ play_thread_ streaming_session = true)
  /\ exists s' evs_d evs_p,
       StopStreaming producer_rest consumer_rest streaming_session = Done true s'
       /\ is_downloading_ s' = false /\ is_playing_ s' = false
       /\ trace_ s'
          = trace_ streaming_session ++ [EvResetSampleRate; EvNotifyAll]
            ++ (evs_d ++ [EvThreadJoin ThDownload])
            ++ [EvNotifyAll] ++ repeat (EvDelay 10) 100
            ++ evs_p ++ [EvThreadJoin ThPlay]
       /\ StopStreaming producer_rest consumer_rest s'
          = Done true (set_trace_ (trace_ s' ++ [EvResetSampleRate]) s').
Proof.
  split; [repeat split|].
  destruct (stop_streaming_stops_once producer_rest consumer_rest streaming_session
              task_exit_producer_rest leaves_stopped_producer_rest
              task_exit_consumer_rest leaves_stopped_consumer_rest eq_refl)
    as (s' & evs_d & evs_p & E & Hd & Hp & _ & Hrun & _ & _ & H2).
  destruct (Hrun (or_introl eq_refl)) as (_ & _ & Ht & _).
  exists s', evs_d, evs_p. repeat split; assumption.
Defined.

Lemma play_loop_step fuel e rest l s :
  is_playing_ s = true ->
  play_loop fuel (e :: rest) l s
  = (r <- play_iteration fuel e l ;;
     match r with
     | (LoopBreak, l') => ret l'
     | (LoopContinue, l') => play_loop fuel rest l'
     end) s.
Proof. intros Hp. cbn [play_loop]. rewrite bind_gets, Hp. reflexivity. Qed.

(** X27.  Voice interaction pauses playback without losing anything.
    As long as the device is not idle, each turn of the consumer's loop
    only waits (50 ms, or 300 ms after asking to toggle the chat state
    when the device is listening or speaking): nothing is popped,
    decoded or sent, and the queue, the window and the run flags are as
    they were when the device is idle again. *)
Theorem busy_device_pauses_playback (fuel : nat) (busy rest : list PlayEnv)
    (l : PlayLocals) (s : Esp32Sing) :
  is_playing_ s = true ->
  Forall (fun e => device_state e <> kDeviceStateIdle) busy ->
  play_loop fuel (busy ++ rest) l s
  = play_loop fuel rest l
      (set_trace_ (trace_ s ++ flat_map busy_turn_events busy) s).
Proof.
  revert s. induction busy as [|e busy IH]; intros s Hp Hall.
  - cbn [app flat_map]. f_equal. destruct s; cbn. rewrite app_nil_r. reflexivity.
  - inversion Hall as [|? ? He Hall']; subst.
    cbn [app flat_map]. rewrite play_loop_step by exact Hp.
    unfold bind at 1. unfold play_iteration, busy_turn_events.
    destruct (device_state e); [contradiction He; reflexivity | | |];
      unfold vTaskDelay; rewrite ?bind_emit; cbn [trace_ set_trace_];
      rewrite ?set_trace_set_trace; unfold ret;
      (rewrite IH; [| exact Hp | exact Hall']);
      cbn [trace_ set_trace_]; rewrite ?set_trace_set_trace;
      rewrite <- !app_assoc; reflexivity.
Qed.

Lemma busy_device_pauses_playback_witness :
  play_loop 0 ([mkPlayEnv kDeviceStateSpeaking true (mp3 idle_no_sync);
                mkPlayEnv kDeviceStateOther true (mp3 idle_no_sync)] ++ [])
            (PlayLocals_new []) streaming_session
  = play_loop 0 [] (PlayLocals_new [])
      (set_trace_ (trace_ streaming_session
                   ++ [EvToggleChatState; EvDelay 300; EvDelay 50]) streaming_session).
Proof.
  apply (busy_device_pauses_playback 0
           [mkPlayEnv kDeviceStateSpeaking true (mp3 idle_no_sync);
            mkPlayEnv kDeviceStateOther true (mp3 idle_no_sync)] []
           (PlayLocals_new []) streaming_session).
  - reflexivity.
  - repeat constructor; discriminate.
Defined.







